(** * InsightZen core views: the response-coding and category-discovery pipelines

    A shallow embedding of the pure and effectful parts of
    [core/views.py] ([coding_view] and [category_view]):
    workbook validation, the bounded-retry completion calls, the two reply
    parsers, the per-question frames, the codebook summary and the
    category merge step. *)

From Stdlib Require Import ZArith List String Ascii Lia.
From Stdlib Require Import DecimalString.
From Stdlib Require PrimFloat Uint63.
From stdpp Require Import base decidable option list sorting gmap.

Local Open Scope N_scope.

(** ** Python strings

    A Python [str] is a sequence of Unicode code points.  The operations
    below are the ones the views use: [strip], [split] on a one-character
    separator, [in] on strings, [lower], [startswith], [join]. *)

Module Py.

Definition str := list N.

(** [utf8] reads the code points of a literal written in this file. *)
Fixpoint utf8 (bs : list N) : str :=
  match bs with
  | [] => []
  | b :: r =>
    if b <? 128 then b :: utf8 r
    else if b <? 224 then
      match r with
      | b1 :: r' => ((b - 192) * 64 + (b1 - 128)) :: utf8 r'
      | _ => []
      end
    else if b <? 240 then
      match r with
      | b1 :: b2 :: r' =>
        ((b - 224) * 4096 + (b1 - 128) * 64 + (b2 - 128)) :: utf8 r'
      | _ => []
      end
    else
      match r with
      | b1 :: b2 :: b3 :: r' =>
        ((b - 240) * 262144 + (b1 - 128) * 4096 + (b2 - 128) * 64 + (b3 - 128))
          :: utf8 r'
      | _ => []
      end
  end.

Definition lit (s : string) : str :=
  utf8 (List.map N_of_ascii (list_ascii_of_string s)).

(** [str.isspace] on one code point: characters of bidirectional class WS,
    B or S, or of category Zs. *)
Definition isspace (c : N) : bool :=
  ((9 <=? c) && (c <=? 13)) || ((28 <=? c) && (c <=? 32))
  || (c =? 133) || (c =? 160) || (c =? 5760)
  || ((8192 <=? c) && (c <=? 8202))
  || (c =? 8232) || (c =? 8233) || (c =? 8239) || (c =? 8287) || (c =? 12288).

Fixpoint lstrip (s : str) : str :=
  match s with
  | [] => []
  | c :: s' => if isspace c then lstrip s' else s
  end.

Definition rstrip (s : str) : str := rev (lstrip (rev s)).

Definition strip (s : str) : str := rstrip (lstrip s).

(** [s.split(sep)] for a separator of one character: never the empty list. *)
Fixpoint split (sep : N) (s : str) : list str :=
  match s with
  | [] => [[]]
  | c :: s' =>
    if c =? sep then [] :: split sep s'
    else match split sep s' with
         | [] => [[c]]
         | h :: t => (c :: h) :: t
         end
  end.

Fixpoint startswith (s p : str) : bool :=
  match p, s with
  | [], _ => true
  | _ :: _, [] => false
  | a :: p', b :: s' => (a =? b) && startswith s' p'
  end.

(** [p in s] on strings. *)
Fixpoint contains (p s : str) : bool :=
  startswith s p ||
  match s with
  | [] => false
  | _ :: s' => contains p s'
  end.

(** [str.lower]: the ASCII letters.  Outside ASCII no code point lowers to a
    character of the marker searched for in a lowered text (the only
    non-ASCII sources of ASCII letters are U+0130 and U+212A, giving i and
    k), so the test on the lowered text is the same. *)
Definition lower_char (c : N) : N :=
  if (65 <=? c) && (c <=? 90) then c + 32 else c.

Definition lower (s : str) : str := List.map lower_char s.

(** [sep.join(l)] *)
Fixpoint join (sep : str) (l : list str) : str :=
  match l with
  | [] => []
  | [x] => x
  | x :: l' => x ++ sep ++ join sep l'
  end.

(** [str(n)] for a non-negative integer. *)
Definition of_nat (n : nat) : str :=
  lit (NilEmpty.string_of_uint (Nat.to_uint n)).

(** [str(z)] for an integer. *)
Definition of_Z (z : Z) : str :=
  if (z <? 0)%Z then lit "-" ++ of_nat (Z.to_nat (- z)) else of_nat (Z.to_nat z).

(** The truth value of a string: it is not empty. *)
Definition truthy (s : str) : bool :=
  match s with [] => false | _ => true end.

(** [l[1:-1]] *)
Definition inner {A} (l : list A) : list A := removelast (tl l).

Definition digit (c : N) : option Z :=
  if (48 <=? c) && (c <=? 57) then Some (Z.of_N (c - 48)) else None.

Fixpoint digits (acc : Z) (s : str) : option Z :=
  match s with
  | [] => Some acc
  | c :: s' =>
    match digit c with
    | Some d => digits (acc * 10 + d) s'
    | None => None
    end
  end.

End Py.

Local Close Scope N_scope.

Notation "$ s" := (Py.lit s) (at level 1, s at level 0, format "$ s").

(** ** Numeric coercion

    [pd.to_numeric(x, errors='coerce')] is pandas' function.  The coding
    view is written over any coercion [to_numeric : str -> option Z]
    ([None] is NaN), the category view over any coercion to the numbers of
    a column and any cast of these numbers to integers (see
    [parse_md_table]); [to_numeric_int] is the behaviour of the coercion on
    integer literals (optional surrounding blanks, optional sign, decimal
    digits) and is the instance used on concrete inputs. *)

Definition to_numeric_int (s : Py.str) : option Z :=
  match Py.strip s with
  | [] => None
  | c :: r =>
    if (c =? 45)%N then
      match r with [] => None | _ => Z.opp <$> Py.digits 0 r end
    else if (c =? 43)%N then
      match r with [] => None | _ => Py.digits 0 r end
    else Py.digits 0 (c :: r)
  end.

(** ** Frames

    A per-question frame is the [DataFrame] built by [parse_output]: the
    column names, [ID] first, and per row the numeric [ID] and one cell per
    code column ([None] is NaN). *)

Record frame := Frame {
  columns : list Py.str;
  rows : list (Z * list (option Py.str))
}.

(** [pd.DataFrame()] *)
Definition empty_frame : frame := Frame [] [].

(** [df.empty]: some axis has length 0. *)
Definition frame_empty (df : frame) : bool :=
  match columns df, rows df with
  | [], _ | _, [] => true
  | _, _ => false
  end.

Definition IDs (df : frame) : list Z := (rows df).*1.

Section ParseOutput.

Variable to_numeric : Py.str -> option Z.

(** One pass of the [for part in parts] loop of [parse_output]. *)
Fixpoint parse_parts (parts : list Py.str)
    (data : list (Py.str * list Py.str)) (max_codes : nat)
    : list (Py.str * list Py.str) * nat :=
  match parts with
  | [] => (data, max_codes)
  | part :: parts' =>
    if negb (Py.truthy (Py.strip part)) then parse_parts parts' data max_codes
    else
      let items := Py.split 44 (Py.strip part) in
      if (length items <? 2)%nat then parse_parts parts' data max_codes
      else
        let id_val := Py.strip (hd [] items) in
        let codes := List.filter Py.truthy (List.map Py.strip (tl items)) in
        parse_parts parts' (data ++ [(id_val, codes)])
                    (Nat.max max_codes (length codes))
  end.

(** The row dictionary of one [(id_val, codes)] pair laid out on the
    frame's columns: a code column past the pair's codes holds NaN. *)
Definition parsed_row (max_codes : nat) (d : Py.str * list Py.str)
    : option Z * list (option Py.str) :=
  (to_numeric d.1, List.map (fun i => d.2 !! i) (seq 0 max_codes)).

(** [dropna(subset=['ID'])] *)
Definition dropna_ID (rs : list (option Z * list (option Py.str)))
    : list (Z * list (option Py.str)) :=
  omap (fun r => (fun z => (z, r.2)) <$> r.1) rs.

Definition code_column (qid : Py.str) (i : nat) : Py.str :=
  qid ++ $"_" ++ Py.of_nat (i + 1).

Definition parse_output (output qid : Py.str) : frame :=
  let parts := Py.split 59 (Py.strip output) in
  let '(data, max_codes) := parse_parts parts [] 0 in
  match data with
  | [] => empty_frame
  | _ =>
    Frame ($"ID" :: List.map (code_column qid) (seq 0 max_codes))
          (dropna_ID (List.map (parsed_row max_codes) data))
  end.

End ParseOutput.

(** ** Exceptions and outcomes

    The exceptions raised by the reading of a reply and by the cast of the
    codes of a table, and what a step of a view comes to: it returns, or it
    raises one of these exceptions where no handler catches it (the view
    then renders no page), or the model runs out of [fuel]. *)

Inductive exception :=
| IndexError
| KeyError
| TypeError
| AttributeError
| IntCastingNaNError.

Inductive outcome (A : Type) :=
| Returned (a : A)
| Raised (e : exception)
| OutOfFuel.

Arguments Returned {A} a.
Arguments Raised {A} e.
Arguments OutOfFuel {A}.

(** ** The completion endpoint

    [requests.post(...)] followed by [raise_for_status()] and the reading of
    the body.  A call either raises an exception of the two kinds the coding
    loop catches ([RequestException]: transport failure or HTTP error
    status; [JSONDecodeError]: a JSON content type whose body does not
    decode) or delivers a body.

    For a JSON content type the views read
    [response_json.get('choices', [{}])[0].get('message', {}).get('content', '')]:
    - [Json c]: the content is the text [c], or it is absent, null or
      another falsy value (0, false, an empty list or object); a falsy
      content is tested by [not output] and by [response_md and ...] only,
      as the empty text is, and is read as [Json []];
    - [JsonOther k]: the content is truthy and is no text (see [nontext]);
    - [Unreadable e]: the lookup itself raises [e]: [IndexError] on an empty
      [choices] list, [AttributeError] on a body, a choice or a message that
      is no object, [KeyError] or [TypeError] on a [choices] that is no
      list.
    For any other content type the body is [Text body].

    The endpoint is any function of the number of calls made so far and of
    the request. *)

Record request := Request { content : Py.str; max_tokens : N }.

(** A truthy content that is no text: a number other than 0 or [true]
    ([Scalar]), on which ['Forbidden' in output] raises [TypeError]; or a
    list or an object that is not empty ([Container]), [marked] when
    ['Forbidden'] or ['API error'] is one of its members (of its keys). *)
Inductive nontext :=
| Scalar
| Container (marked : bool).

(** The value of [output] and of [response_md]. *)
Inductive pyval :=
| Str (s : Py.str)
| NonText (k : nontext).

Inductive reply :=
| RequestException
| JSONDecodeError
| Json (message_content : Py.str)
| Text (body : Py.str)
| JsonOther (message_content : nontext)
| Unreadable (e : exception).

Inductive event :=
| Post (r : request)
| Sleep (seconds : nat).

Definition transport := nat -> request -> reply.

Record world := World { posted : nat; trace : list event }.

Definition io (A : Type) : Type := world -> A * world.

#[global] Instance io_ret : MRet io := fun A x w => (x, w).
#[global] Instance io_bind : MBind io :=
  fun A B f m w => let '(a, w') := m w in f a w'.

Definition post (net : transport) (r : request) : io reply :=
  fun w => (net (posted w) r, World (S (posted w)) (trace w ++ [Post r])).

Definition sleep (seconds : nat) : io unit :=
  fun w => (tt, World (posted w) (trace w ++ [Sleep seconds])).

Definition posts (t : list event) : nat :=
  length (List.filter (fun e => match e with Post _ => true | _ => false end) t).

Definition sleeps (t : list event) : nat :=
  length (List.filter (fun e => match e with Sleep _ => true | _ => false end) t).

(** ** The coding flow ([coding_view]) *)

Record coding_state := CodingState {
  results : gmap Py.str (Py.str * Py.str);
  fail_qids : list Py.str;
  dfs : list frame;
  processed_qids : list Py.str
}.

Definition max_retries : nat := 6.

Section CodingCalls.

Variable to_numeric : Py.str -> option Z.
Variable net : transport.
(** The prompt composed for a question from the workbook and the domain. *)
Variable prompt_of : Py.str -> Py.str.

(** The [while not success and retries < max_retries] loop.  [fuel] bounds
    the number of iterations.  The [except] clause catches the two kinds of
    exception of the call; an exception raised by the reading of the content
    leaves the loop and the view. *)
Fixpoint call_loop (fuel : nat) (api_payload : request)
    (success : bool) (retries : nat) (output : pyval)
    : io (outcome (bool * pyval)) :=
  match fuel with
  | O => mret OutOfFuel
  | S fuel' =>
    if negb success && (retries <? max_retries)%nat then
      r ← post net api_payload;
      match r with
      | Json c => call_loop fuel' api_payload true retries (Str c)
      | JsonOther k => call_loop fuel' api_payload true retries (NonText k)
      | Unreadable e => mret (Raised e)
      | Text body =>
        let output :=
          if Py.contains $"<!doctype" (Py.lower body)
          then $"Forbidden HTML response" else body in
        call_loop fuel' api_payload true retries (Str output)
      | RequestException | JSONDecodeError =>
        let retries := S retries in
        _ ← (if (retries <? max_retries)%nat then sleep 10 else mret tt);
        call_loop fuel' api_payload success retries output
      end
    else mret (Returned (success, output))
  end.

Definition mark_failed (st : coding_state) (qid : Py.str) : coding_state :=
  CodingState (results st) (fail_qids st ++ [qid]) (dfs st) (processed_qids st).

(** The check after the loop, on a text: [not success or not output or
    'Forbidden' in output or 'API error' in output]. *)
Definition rejected (success : bool) (output : Py.str) : bool :=
  negb success || negb (Py.truthy output)
  || Py.contains $"Forbidden" output || Py.contains $"API error" output.

(** The body of [for qid in unique_qids].  On an [output] that is no text
    (it is truthy, and was assigned with [success]) the membership tests
    raise [TypeError] on a scalar and fail the question on a marked
    container; on an unmarked one [parse_output] raises [AttributeError] at
    [output.strip()]. *)
Definition coding_question (fuel : nat) (st : coding_state) (qid : Py.str)
    : io (outcome coding_state) :=
  let prompt := prompt_of qid in
  r ← call_loop fuel (Request prompt 2000%N) false 0 (Str []);
  match r with
  | OutOfFuel => mret OutOfFuel
  | Raised e => mret (Raised e)
  | Returned (success, Str output) =>
    if rejected success output then mret (Returned (mark_failed st qid))
    else
      let df_parsed := parse_output to_numeric output qid in
      if frame_empty df_parsed then mret (Returned (mark_failed st qid))
      else mret (Returned (CodingState (<[qid := (prompt, output)]> (results st))
                                       (fail_qids st)
                                       (dfs st ++ [df_parsed])
                                       (processed_qids st ++ [qid])))
  | Returned (success, NonText k) =>
    if negb success then mret (Returned (mark_failed st qid))
    else
      match k with
      | Scalar => mret (Raised TypeError)
      | Container true => mret (Returned (mark_failed st qid))
      | Container false => mret (Raised AttributeError)
      end
  end.

Fixpoint coding_loop (fuel : nat) (st : coding_state) (unique_qids : list Py.str)
    : io (outcome coding_state) :=
  match unique_qids with
  | [] => mret (Returned st)
  | qid :: qids =>
    r ← coding_question fuel st qid;
    match r with
    | OutOfFuel => mret OutOfFuel
    | Raised e => mret (Raised e)
    | Returned st' => coding_loop fuel st' qids
    end
  end.

End CodingCalls.

(** ** Aggregation of the retained frames *)

(** A cell of the uploaded [codeframe] sheet. *)
Inductive value :=
| VInt (z : Z)
| VStr (s : Py.str)
| VNaN.

(** [cell == code] for a string [code]. *)
Definition value_eq_str (v : value) (code : Py.str) : bool :=
  match v with
  | VStr s => bool_decide (s = code)
  | _ => false
  end.

(** [str(cell)] *)
Definition py_str (v : value) : Py.str :=
  match v with
  | VInt z => Py.of_Z z
  | VStr s => s
  | VNaN => $"nan"
  end.

Record codeframe_row := CodeframeRow {
  cf_QID : value;
  cf_CID : value;
  cf_Tag : Py.str
}.

(** [Count / total_ids] divides a column of counts (int64) by an integer:
    numpy converts both to float64 and divides them, so the quotient is the
    binary64 number nearest to the exact one (0.3333333333333333 for 1 of
    3).  [float_of_nat] is the conversion, exact below 2^53. *)
Definition float_of_nat (n : nat) : PrimFloat.float :=
  PrimFloat.of_uint63 (Uint63.of_Z (Z.of_nat n)).

Definition truediv (a b : nat) : PrimFloat.float :=
  PrimFloat.div (float_of_nat a) (float_of_nat b).

Record summary_row := SummaryRow {
  s_QID : Py.str;
  s_Code : Py.str;
  s_Tag : Py.str;
  s_Tag_en : Py.str;
  s_Count : nat;
  s_Ratio : PrimFloat.float
}.

(** [pd.merge(left, right, on='ID', how='outer')]: the keys of both sides in
    ascending order, each with the pairs of its left and right rows; a side
    without the key contributes NaN cells. *)
Definition rows_of (k : Z) (df : frame) : list (list (option Py.str)) :=
  (List.filter (fun r => bool_decide (r.1 = k)) (rows df)).*2.

Definition width (df : frame) : nat := length (tl (columns df)).

Definition merge_outer (left right : frame) : frame :=
  let keys := merge_sort Z.le (remove_dups (IDs left ++ IDs right)) in
  Frame (columns left ++ tl (columns right))
        (keys ≫= fun k =>
           match rows_of k left, rows_of k right with
           | [], rs => (fun r => (k, replicate (width left) None ++ r)) <$> rs
           | ls, [] => (fun l => (k, l ++ replicate (width right) None)) <$> ls
           | ls, rs => ls ≫= fun l => (fun r => (k, l ++ r)) <$> rs
           end).

(** [reduce(f, dfs)] on a non-empty list. *)
Definition reduce {A} (f : A -> A -> A) (l : list A) : option A :=
  match l with
  | [] => None
  | x :: l' => Some (foldl f x l')
  end.

Definition ID_le (a b : Z * list (option Py.str)) : Prop := (a.1 <= b.1)%Z.

#[global] Instance ID_le_dec : RelDecision ID_le.
Proof. intros a b. unfold ID_le. apply _. Defined.

(** [sort_values('ID')] *)
Definition sort_values_ID (df : frame) : frame :=
  Frame (columns df) (merge_sort ID_le (rows df)).

(** [pd.melt(qid_df, id_vars=['ID'], value_vars=qid_cols)]: column after
    column, the cells of each row.  [cols] are positions among the code
    columns. *)
Definition melt (df : frame) (cols : list nat) : list (Z * option Py.str) :=
  cols ≫= fun j => (fun r => (r.1, mjoin (r.2 !! j))) <$> rows df.

(** The code columns whose name starts with [qid_]; the [ID] column has no
    underscore and is never among them. *)
Definition qid_cols (qid : Py.str) (df : frame) : list nat :=
  (List.filter (fun jc => Py.startswith jc.2 (qid ++ $"_"))
               (imap (fun j c => (j, c)) (tl (columns df)))).*1.

(** [astype(str)]: NaN reads "nan". *)
Definition astype_str (c : option Py.str) : Py.str :=
  match c with
  | Some s => s
  | None => $"nan"
  end.

Definition count_ge (a b : Py.str * nat) : Prop := (b.2 <= a.2)%nat.

#[global] Instance count_ge_dec : RelDecision count_ge.
Proof. intros a b. unfold count_ge. apply _. Defined.

(** [Series.unique()]: the distinct values, in order of first appearance. *)
Fixpoint unique {A} `{EqDecision A} (l : list A) : list A :=
  match l with
  | [] => []
  | x :: l' => x :: List.filter (fun y => negb (bool_decide (y = x))) (unique l')
  end.

(** The sort of [value_counts()]: a value goes before the values counted
    no more often that follow it, so that values counted equally often stay
    in their order. *)
Fixpoint insert_count (x : Py.str * nat) (l : list (Py.str * nat))
    : list (Py.str * nat) :=
  match l with
  | [] => [x]
  | y :: l' => if (y.2 <=? x.2)%nat then x :: y :: l' else y :: insert_count x l'
  end.

Definition sort_counts (l : list (Py.str * nat)) : list (Py.str * nat) :=
  foldr insert_count [] l.

(** [value_counts()]: each distinct value with its number of occurrences,
    the most frequent first; values counted equally often come in the order
    of their first appearance (the order pandas gives on a column with few
    distinct values). *)
Definition value_counts (l : list Py.str) : list (Py.str * nat) :=
  sort_counts
    ((fun c => (c, length (List.filter (fun x => bool_decide (x = c)) l)))
       <$> unique l).

Section Summary.

Variable to_numeric : Py.str -> option Z.

(** A code kept by the filters: not empty, and numeric. *)
Definition usable (code : Py.str) : bool :=
  Py.truthy code && bool_decide (is_Some (to_numeric code)).

(** The [melted] frame after the three filters, as (ID, Code) pairs. *)
Definition melted_codes (qid : Py.str) (df : frame) : list (Z * Py.str) :=
  List.filter (fun p => usable p.2)
    ((fun p => (p.1, Py.strip (astype_str p.2))) <$> melt df (qid_cols qid df)).

Definition lookup_tag (codeframe_df : list codeframe_row) (code : Py.str) : Py.str :=
  match List.filter (fun r => value_eq_str (cf_CID r) code) codeframe_df with
  | r :: _ => cf_Tag r
  | [] => []
  end.

(** [code_counts['Count'] / total_ids if total_ids > 0 else 0]; the 0 of
    the second branch is the integer 0, written here as the float it is
    equal to. *)
Definition ratio (count total_ids : nat) : PrimFloat.float :=
  if (0 <? total_ids)%nat
  then truediv count total_ids
  else float_of_nat 0.

Definition code_counts (codeframe_df : list codeframe_row) (total_ids : nat)
    (qid : Py.str) (df : frame) : list summary_row :=
  (fun cn => SummaryRow qid cn.1 (lookup_tag codeframe_df cn.1) []
                        cn.2 (ratio cn.2 total_ids))
    <$> value_counts (melted_codes qid df).*2.

Definition total_ids_of (merged_df : frame) : nat :=
  if frame_empty merged_df then 0%nat else length (remove_dups (IDs merged_df)).

(** The result of a run that passed validation and the connection test. *)
Inductive coding_result :=
| NoValidData
| Outputs (triple : frame) (codeframe : list summary_row)
          (processed failed : list Py.str).

Definition coding_outputs (codeframe_df : list codeframe_row) (st : coding_state)
    : coding_result :=
  match reduce merge_outer (dfs st) with
  | None => NoValidData
  | Some merged =>
    let merged_df := sort_values_ID merged in
    let total_ids := total_ids_of merged_df in
    Outputs merged_df
            (mjoin (zip_with (code_counts codeframe_df total_ids)
                             (processed_qids st) (dfs st)))
            (processed_qids st) (fail_qids st)
  end.

End Summary.

(** ** Workbook validation ([coding_view], "Process uploaded Excel file")

    An opened workbook: its sheets in order, each with the names of its
    columns. *)

Definition workbook := list (Py.str * list Py.str).

Definition sheet_names (excel_data : workbook) : list Py.str := excel_data.*1.

(** The columns of [pd.read_excel(excel_data, sheet_name=name)]. *)
Definition sheet_columns (excel_data : workbook) (name : Py.str) : list Py.str :=
  match List.filter (fun s => bool_decide (s.1 = name)) excel_data with
  | s :: _ => s.2
  | [] => []
  end.

Definition trans (lang msg_en msg_fa : Py.str) : Py.str :=
  if bool_decide (lang = $"fa") then msg_fa else msg_en.

Definition required_sheets : list Py.str := [$"codeframe"; $"question"; $"data"].

Definition has_all (cols required : list Py.str) : bool :=
  forallb (fun col => bool_decide (col ∈ cols)) required.

Definition missing_sheets_message (lang : Py.str) (missing : list Py.str) : Py.str :=
  trans lang ($"Missing sheets: " ++ Py.join $", " missing)
             ($"برگه‌های زیر در فایل یافت نشد: " ++ Py.join $", " missing).

Definition codeframe_message (lang : Py.str) : Py.str :=
  trans lang $"The 'codeframe' sheet is missing required columns: QID, CID, Tag."
             $"برگهٔ codeframe ستون‌های مورد نیاز QID، CID و Tag را ندارد.".

Definition question_message (lang : Py.str) : Py.str :=
  trans lang $"The 'question' sheet is missing required columns: QID, Question."
             $"برگهٔ question ستون‌های مورد نیاز QID و Question را ندارد.".

Definition data_message (lang : Py.str) : Py.str :=
  trans lang $"The 'data' sheet is missing required column: ID."
             $"برگهٔ data ستون مورد نیاز ID را ندارد.".

(** The outcome of the [try] block: [Abort errors] renders the page with
    [context['errors'] = errors]; [Proceed] goes on to the questions. *)
Inductive validation :=
| Abort (errors : list Py.str)
| Proceed.

Definition validate (lang : Py.str) (excel_data : workbook) : validation :=
  let missing :=
    List.filter (fun s => negb (bool_decide (s ∈ sheet_names excel_data)))
                required_sheets in
  if negb (length missing =? 0)%nat
  then Abort [missing_sheets_message lang missing]
  else if negb (has_all (sheet_columns excel_data $"codeframe")
                        [$"QID"; $"CID"; $"Tag"])
  then Abort [codeframe_message lang]
  else if negb (has_all (sheet_columns excel_data $"question")
                        [$"QID"; $"Question"])
  then Abort [question_message lang]
  else if negb (bool_decide ($"ID" ∈ sheet_columns excel_data $"data"))
  then Abort [data_message lang]
  else Proceed.

(** ** The category flow ([category_view]) *)

Definition expected_cols : list Py.str := [$"کد گزینه"; $"عنوان گزینه"].

(** The cells of one table line: [[c.strip() for c in line.split('|')[1:-1]]]. *)
Definition md_cells (line : Py.str) : list Py.str :=
  List.map Py.strip (Py.inner (Py.split 124 line)).

Section ParseMdTable.

(** The numbers of a coerced column. *)
Context {number : Type}.

(** [pd.to_numeric(cell, errors='coerce')]; [None] is NaN. *)
Variable to_numeric : Py.str -> option number.

(** [astype(int)] on one number of the coerced column [codes], which fixes
    the type the numbers are stored with; [None]: the number is not finite,
    and the cast of the column raises [IntCastingNaNError]. *)
Variable astype_int : list (option number) -> number -> option Z.

(** A row of the parsed table after coercion of its first column; a row
    whose code is NaN is dropped. *)
Definition md_row (cells : list Py.str) : option (number * Py.str) :=
  n ← to_numeric (nth 0 cells []); Some (n, nth 1 cells []).

(** The same row after the cast of its code. *)
Definition cast_row (codes : list (option number)) (row : number * Py.str)
    : option (Z * Py.str) :=
  z ← astype_int codes row.1; Some (z, row.2).

Definition parse_md_table (md_table : Py.str)
    : outcome (option (list (Z * Py.str))) :=
  let lines :=
    List.filter Py.truthy (List.map Py.strip (Py.split 10 (Py.strip md_table))) in
  if (length lines <? 2)%nat then Returned None
  else
    let header_cells := md_cells (nth 0 lines []) in
    let data_start :=
      if (1 <? length lines)%nat && Py.contains $"---" (nth 1 lines [])
      then 2%nat else 1%nat in
    let data_rows :=
      List.filter (fun cells => (length cells =? length header_cells)%nat)
                  (List.map md_cells (drop data_start lines)) in
    match data_rows with
    | [] => Returned None
    | _ =>
      if bool_decide (header_cells = expected_cols) then
        let codes := (fun cells => to_numeric (nth 0 cells [])) <$> data_rows in
        match mapM (cast_row codes) (omap md_row data_rows) with
        | None => Raised IntCastingNaNError
        | Some [] => Returned None
        | Some df_out => Returned (Some df_out)
        end
      else Returned None
    end.

End ParseMdTable.

Definition max_attempts : nat := 5.

Section Discovery.

Context {number : Type}.
Variable to_numeric : Py.str -> option number.
Variable astype_int : list (option number) -> number -> option Z.
Variable net : transport.

(** The prompt composed for a question, from its identifier as the
    [question] sheet holds it. *)
Variable prompt_of : value -> Py.str.

(** The [while attempt < max_attempts] loop; [response_md] is [None] until
    a content or a body has been read.  [fuel] bounds the iterations.  The
    [except Exception] clause catches every exception of the [try] block:
    those of the call, that of a content that cannot be read (before
    [response_md] is assigned), and the [AttributeError] of
    [response_md.strip()] on a content that is no text (after it is). *)
Fixpoint discovery_loop (fuel : nat) (prompt : Py.str) (attempt : nat)
    (response_md : option pyval) : io (outcome (option pyval)) :=
  match fuel with
  | O => mret OutOfFuel
  | S fuel' =>
    if (attempt <? max_attempts)%nat then
      let attempt := S attempt in
      r ← post net (Request prompt 16384%N);
      match r with
      | Json c =>
        if Py.truthy c && Py.truthy (Py.strip c)
        then mret (Returned (Some (Str c)))
        else discovery_loop fuel' prompt attempt (Some (Str c))
      | JsonOther k =>
        _ ← sleep 5;
        discovery_loop fuel' prompt attempt (Some (NonText k))
      | Text body =>
        let md := if Py.contains $"<!doctype" (Py.lower body) then [] else body in
        if Py.truthy md && Py.truthy (Py.strip md)
        then mret (Returned (Some (Str md)))
        else discovery_loop fuel' prompt attempt (Some (Str md))
      | RequestException | JSONDecodeError | Unreadable _ =>
        _ ← sleep 5;
        discovery_loop fuel' prompt attempt response_md
      end
    else mret (Returned response_md)
  end.

(** [new_dfs[key] = df_new] on a dictionary kept in insertion order. *)
Fixpoint dict_set {V} (d : list (Py.str * V)) (key : Py.str) (v : V)
    : list (Py.str * V) :=
  match d with
  | [] => [(key, v)]
  | (k, x) :: d' =>
    if bool_decide (k = key) then (k, v) :: d' else (k, x) :: dict_set d' key v
  end.

(** The body of [for qid in unique_qids].  [parse_md_table] is called
    outside any [try]: on a [response_md] that is no text (it is truthy) it
    raises [AttributeError] at [md_table.strip()], and the exception of the
    cast leaves the view as well.  The table is stored under [str(qid)]. *)
Definition discovery_question (fuel : nat)
    (new_dfs : list (Py.str * list (Z * Py.str))) (qid : value)
    : io (outcome (list (Py.str * list (Z * Py.str)))) :=
  r ← discovery_loop fuel (prompt_of qid) 0 None;
  match r with
  | OutOfFuel => mret OutOfFuel
  | Raised e => mret (Raised e)
  | Returned None => mret (Returned new_dfs)
  | Returned (Some (NonText _)) => mret (Raised AttributeError)
  | Returned (Some (Str response_md)) =>
    if negb (Py.truthy response_md) then mret (Returned new_dfs)
    else
      match parse_md_table to_numeric astype_int response_md with
      | OutOfFuel => mret OutOfFuel
      | Raised e => mret (Raised e)
      | Returned None => mret (Returned new_dfs)
      | Returned (Some df_new) =>
        mret (Returned (dict_set new_dfs (py_str qid) df_new))
      end
  end.

End Discovery.

(** *** The merge step *)

(** A row of the codebook: the [QID] cell as the sheet holds it, a text or
    a number; the [CID] cell, an integer. *)
Record codebook_row := CodebookRow {
  cb_QID : value;
  cb_CID : Z;
  cb_Tag : Py.str;
  cb_Description : option Py.str
}.

(** [max(existing_cids) if existing_cids else 0] *)
Definition max_of (existing_cids : gset Z) : Z :=
  match elements existing_cids with
  | [] => 0%Z
  | x :: l => foldr Z.max x l
  end.

(** The [for _, row in df_new.iterrows()] loop; [qid] is the key of
    [new_dfs], a text, and the [QID] cell of the new rows. *)
Fixpoint assign_cids (qid : Py.str) (existing_cids : gset Z) (max_cid : Z)
    (df_new : list (Z * Py.str)) (new_rows : list codebook_row)
    : list codebook_row :=
  match df_new with
  | [] => new_rows
  | (cid, tag) :: df_new' =>
    if bool_decide (cid ∈ existing_cids) then
      assign_cids qid existing_cids max_cid df_new' new_rows
    else if (max_cid <? cid)%Z then
      assign_cids qid existing_cids cid df_new'
                  (new_rows ++ [CodebookRow (VStr qid) cid tag None])
    else
      assign_cids qid existing_cids (max_cid + 1)%Z df_new'
                  (new_rows ++ [CodebookRow (VStr qid) (max_cid + 1)%Z tag None])
  end.

(** The rows appended for one entry of [new_dfs]:
    [updated_codeframe['QID'] == qid] compares the cells with the text
    [qid], and a cell that holds a number is not equal to it. *)
Definition new_rows_for (updated_codeframe : list codebook_row)
    (qid : Py.str) (df_new : list (Z * Py.str)) : list codebook_row :=
  let cf_qid :=
    List.filter (fun r => value_eq_str (cb_QID r) qid) updated_codeframe in
  let existing_cids : gset Z := list_to_set (cb_CID <$> cf_qid) in
  assign_cids qid existing_cids (max_of existing_cids) df_new [].

(** One iteration of [for qid, df_new in new_dfs.items()]: the new rows are
    concatenated to the codebook when there are any. *)
Definition merge_question (updated_codeframe : list codebook_row)
    (qid : Py.str) (df_new : list (Z * Py.str)) : list codebook_row :=
  match new_rows_for updated_codeframe qid df_new with
  | [] => updated_codeframe
  | new_rows => updated_codeframe ++ new_rows
  end.

Definition merge_new_dfs (updated_codeframe : list codebook_row)
    (new_dfs : list (Py.str * list (Z * Py.str))) : list codebook_row :=
  foldl (fun updated e => merge_question updated e.1 e.2)
        updated_codeframe new_dfs.

(** ** Reference notions the properties are stated with *)

(** The (QuestionId, CodeId) key of a codebook row: the question the row
    belongs to, as the text of its [QID] cell, and its code. *)
Definition cb_key (r : codebook_row) : Py.str * Z := (py_str (cb_QID r), cb_CID r).

(** A cell that holds a text. *)
Definition is_text (v : value) : Prop := exists s, v = VStr s.

(** A transport on which every call raises a network error. *)
Definition always_fails : transport := fun _ _ => RequestException.

(** [n] attempts separated by sleeps of [d], none after the last. *)
Fixpoint attempts_between (r : request) (d n : nat) : list event :=
  match n with
  | O => []
  | S O => [Post r]
  | S n' => Post r :: Sleep d :: attempts_between r d n'
  end.

(** [n] attempts, each followed by a sleep of [d]. *)
Fixpoint attempts_each (r : request) (d n : nat) : list event :=
  match n with
  | O => []
  | S n' => Post r :: Sleep d :: attempts_each r d n'
  end.

(** The columns each table must have, and the violations of a workbook:
    every (table, column) pair that is required and absent. *)
Definition required_columns : list (Py.str * list Py.str) :=
  [($"codeframe", [$"QID"; $"CID"; $"Tag"]);
   ($"question", [$"QID"; $"Question"]);
   ($"data", [$"ID"])].

Definition violations (excel_data : workbook) : list (Py.str * Py.str) :=
  required_columns ≫= fun tc =>
    (fun c => (tc.1, c)) <$>
      List.filter (fun c => negb (bool_decide (c ∈ sheet_columns excel_data tc.1))) tc.2.

(** A message lists a violation when it names its table and its column. *)
Definition mentions (message : Py.str) (v : Py.str * Py.str) : bool :=
  Py.contains v.1 message && Py.contains v.2 message.

(** The required sheets the workbook does not have, in the order
    codeframe, question, data. *)
Definition missing_sheets (excel_data : workbook) : list Py.str :=
  List.filter (fun s => negb (bool_decide (s ∈ sheet_names excel_data)))
              required_sheets.

(** The tables with a violation, in the order the checks are made. *)
Definition failing_tables (excel_data : workbook) : list Py.str :=
  (List.filter (fun tc => negb (has_all (sheet_columns excel_data tc.1) tc.2))
               required_columns).*1.

Definition table_message (lang table : Py.str) : Py.str :=
  if bool_decide (table = $"codeframe") then codeframe_message lang
  else if bool_decide (table = $"question") then question_message lang
  else data_message lang.

(** The parts of a markdown reply: its non-blank lines, the header cells,
    and the lines after the header and the optional separator. *)
Definition table_lines (md_table : Py.str) : list Py.str :=
  List.filter Py.truthy (List.map Py.strip (Py.split 10 (Py.strip md_table))).

Definition header_of (md_table : Py.str) : list Py.str :=
  md_cells (nth 0 (table_lines md_table) []).

Definition data_lines_of (md_table : Py.str) : list Py.str :=
  drop (if Py.contains $"---" (nth 1 (table_lines md_table) []) then 2 else 1)%nat
       (table_lines md_table).

(** A data line read as a (CodeId, Label) row: two cells, the first one
    numeric. *)
Definition coded_row {number} (to_numeric : Py.str -> option number)
    (cells : list Py.str) : option (number * Py.str) :=
  match cells with
  | [c; label] => (fun n => (n, label)) <$> to_numeric c
  | _ => None
  end.

(** The coerced code column of a table: the first cell of every two-cell
    data line, NaN included. *)
Definition coerced_codes {number} (to_numeric : Py.str -> option number)
    (md_table : Py.str) : list (option number) :=
  (fun cells => to_numeric (nth 0 cells []))
    <$> List.filter (fun cells => (length cells =? 2)%nat)
                    (md_cells <$> data_lines_of md_table).

(** The rows with a numeric code, before the cast. *)
Definition numeric_rows {number} (to_numeric : Py.str -> option number)
    (md_table : Py.str) : list (number * Py.str) :=
  omap (coded_row to_numeric) (md_cells <$> data_lines_of md_table).

(** The text under which a code cell is counted. *)
Definition cell_code (c : option Py.str) : Py.str := Py.strip (astype_str c).

(** The number of code cells of a frame that hold a code. *)
Definition occurrences (df : frame) (code : Py.str) : nat :=
  length (List.filter (fun c => bool_decide (cell_code c = code)) (mjoin (rows df).*2)).

(** The number of respondents of a frame assigned a code: the distinct
    identifiers of the rows with a cell holding it. *)
Definition respondents_with (df : frame) (code : Py.str) : nat :=
  length (remove_dups
    (List.filter (fun r => bool_decide (code ∈ cell_code <$> r.2)) (rows df)).*1).

(** What the loop keeps for a processed question: a non-empty frame whose
    code columns carry the question's prefix and whose rows have one cell
    per code column. *)
Definition frame_ok (qid : Py.str) (df : frame) : Prop :=
  (forall c, c ∈ tl (columns df) -> Py.startswith c (qid ++ $"_") = true)
  /\ Forall (fun r => length r.2 = width df) (rows df).

Definition retained (st : coding_state) : Prop :=
  Forall2 (fun qid df => frame_ok qid df /\ frame_empty df = false)
          (processed_qids st) (dfs st).

Definition initial_state : coding_state := CodingState ∅ [] [] [].

(** A run on one question whose reply repeats a code for a respondent. *)
Definition repeated_code_reply : Py.str := $"1,5,5;2,7".

Definition repeated_code_net : transport := fun _ _ => Json repeated_code_reply.

Definition repeated_code_triple : frame :=
  Frame [$"ID"; $"Q1_1"; $"Q1_2"]
        [(1%Z, [Some $"5"; Some $"5"]); (2%Z, [Some $"7"; None])].

Definition repeated_code_state : coding_state :=
  CodingState (<[$"Q1" := ($"p", repeated_code_reply)]> ∅) []
              [repeated_code_triple] [$"Q1"].

Definition repeated_code_summary : list summary_row :=
  [SummaryRow $"Q1" $"5" [] [] 2 (truediv 2 2); SummaryRow $"Q1" $"7" [] [] 1 (truediv 1 2)].

(** A run on three questions: the first two are answered at once, the
    second answer naming a respondent the first does not have, and every
    later request raises, so that the third question fails. *)
Definition second_reply : Py.str := $"3,4;2,9".

Definition two_answers_net : transport :=
  fun n _ =>
    match n with
    | 0%nat => Json repeated_code_reply
    | 1%nat => Json second_reply
    | _ => RequestException
    end.

Definition second_frame : frame :=
  Frame [$"ID"; $"Q2_1"] [(3%Z, [Some $"4"]); (2%Z, [Some $"9"])].

Definition three_question_state : coding_state :=
  CodingState (<[$"Q2" := ($"p", second_reply)]>
                 (<[$"Q1" := ($"p", repeated_code_reply)]> ∅))
              [$"Q3"] [repeated_code_triple; second_frame] [$"Q1"; $"Q2"].

Definition three_question_world : world :=
  World 8 ([Post (Request $"p" 2000%N); Post (Request $"p" 2000%N)]
             ++ attempts_between (Request $"p" 2000%N) 10 6).

Definition three_question_triple : frame :=
  Frame [$"ID"; $"Q1_1"; $"Q1_2"; $"Q2_1"]
        [(1%Z, [Some $"5"; Some $"5"; None]);
         (2%Z, [Some $"7"; None; Some $"9"]);
         (3%Z, [None; None; Some $"4"])].

Definition three_question_summary : list summary_row :=
  [SummaryRow $"Q1" $"5" [] [] 2 (truediv 2 3);
   SummaryRow $"Q1" $"7" [] [] 1 (truediv 1 3);
   SummaryRow $"Q2" $"4" [] [] 1 (truediv 1 3);
   SummaryRow $"Q2" $"9" [] [] 1 (truediv 1 3)].

(** ** Concrete inputs used below *)

Definition example_reply : Py.str := $"1,5,7;2,5;abc;3,".

Definition example_proposals : list (Z * Py.str) :=
  [(2%Z, $"dup"); (10%Z, $"new-a"); (1%Z, $"dup2"); (4%Z, $"seq")].

Definition example_codebook : list codebook_row :=
  [CodebookRow (VStr $"Q1") 1 $"a" None; CodebookRow (VStr $"Q1") 2 $"b" None;
   CodebookRow (VStr $"Q2") 9 $"z" None; CodebookRow (VStr $"Q1") 3 $"c" None].

(** A codebook whose [QID] column holds numbers, and a table proposed for
    its question 7. *)
Definition numeric_codebook : list codebook_row :=
  [CodebookRow (VInt 7) 1 $"a" None; CodebookRow (VInt 7) 2 $"b" None].

Definition numeric_proposals : list (Z * Py.str) := [(1%Z, $"x"); (4%Z, $"y")].

(** The cast of a column of integers: the identity. *)
Definition int64_cast (codes : list (option Z)) (z : Z) : option Z := Some z.

(** Numbers as [pd.to_numeric] reads them, where a cell may hold [inf]:
    with such a cell the column holds floats, and the cast to integers
    raises on [inf]; it is exact on the integers below 2^53. *)
Inductive float64 :=
| Finite (z : Z)
| Infinity.

Definition to_numeric_float (s : Py.str) : option float64 :=
  if bool_decide (s = $"inf") then Some Infinity else Finite <$> to_numeric_int s.

Definition float64_cast (codes : list (option float64)) (x : float64) : option Z :=
  match x with
  | Finite z => Some z
  | Infinity => None
  end.


Definition html_page : Py.str := $"<!DOCTYPE html><html><body>403</body></html>".

Definition coding_answer_with_marker : Py.str :=
  $"1,5;2,7;3,5 (Forbidden fruit)".

Definition incomplete_workbook : workbook :=
  [($"codeframe", [$"QID"; $"Tag"]); ($"question", [$"QID"]); ($"data", [$"Answer"])].

Definition table_with_short_row : Py.str :=
  $"| کد گزینه | عنوان گزینه |" ++ [10%N] ++
  $"|---|---|" ++ [10%N] ++
  $"| 1 | first |" ++ [10%N] ++
  $"| stray |".

(** A transport whose first call raises and whose later calls answer with
    an HTML page. *)
Definition html_after_failure : transport :=
  fun n _ => match n with O => RequestException | S _ => Text html_page end.

(** The text the loop records for a reply that delivers a body. *)
Definition recorded (r : reply) (output : Py.str) : Prop :=
  match r with
  | Json c => output = c
  | Text body =>
    output = if Py.contains $"<!doctype" (Py.lower body)
             then $"Forbidden HTML response" else body
  | RequestException | JSONDecodeError | JsonOther _ | Unreadable _ => False
  end.

Definition raises (r : reply) : Prop :=
  r = RequestException \/ r = JSONDecodeError.

(** What the request loop of the coding view ends with when [r] is the
    last reply it receives, [output0] being the text it started with. *)
Definition call_result (r : reply) (output0 : pyval) : outcome (bool * pyval) :=
  match r with
  | Json c => Returned (true, Str c)
  | JsonOther k => Returned (true, NonText k)
  | Unreadable e => Raised e
  | Text body =>
    Returned (true, Str (if Py.contains $"<!doctype" (Py.lower body)
                         then $"Forbidden HTML response" else body))
  | RequestException | JSONDecodeError => Returned (false, output0)
  end.

(** The exception that leaves the coding view when [r] is the last reply of
    a question: the lookup of the content raises, or the content is a
    truthy value that is not a text, on which the search for a marker or
    [strip] raises. *)
Definition coding_raises (r : reply) : option exception :=
  match r with
  | Unreadable e => Some e
  | JsonOther Scalar => Some TypeError
  | JsonOther (Container false) => Some AttributeError
  | _ => None
  end.

(** ** The views as a whole

    The [POST] branch of the two views, from the posted form to the page
    that is rendered.  The form is a dictionary of texts; the uploaded file
    is a workbook that opens ([None]: no file was uploaded). *)

(** [d.get(key, '')] *)
Definition get_or_empty (d : gmap Py.str Py.str) (key : Py.str) : Py.str :=
  default [] (d !! key).

(** [errors.append(message)] when the field is empty. *)
Definition require_field (errors : list Py.str) (field message : Py.str)
    : list Py.str :=
  if Py.truthy field then errors else errors ++ [message].

Definition api_key_message (lang : Py.str) : Py.str :=
  trans lang $"Please enter your API key." $"لطفاً کلید API خود را وارد کنید.".

Definition project_name_message (lang : Py.str) : Py.str :=
  trans lang $"Please enter a project name." $"لطفاً نام پروژه را وارد کنید.".

Definition question_domain_message (lang : Py.str) : Py.str :=
  trans lang $"Please enter a question domain." $"لطفاً حوزهٔ سؤال را وارد کنید.".

Definition domain_message (lang : Py.str) : Py.str :=
  trans lang $"Please enter a project domain." $"لطفاً حوزهٔ پروژه را وارد کنید.".

(** The errors of the three text fields of the coding form. *)
Definition coding_field_errors (lang : Py.str) (POST : gmap Py.str Py.str)
    : list Py.str :=
  let api_key := Py.strip (get_or_empty POST $"api_key") in
  let project_name := Py.strip (get_or_empty POST $"project_name") in
  let question_domain := Py.strip (get_or_empty POST $"question_domain") in
  let errors := require_field [] api_key (api_key_message lang) in
  let errors := require_field errors project_name (project_name_message lang) in
  require_field errors question_domain (question_domain_message lang).

(** The errors of the two text fields of the category form. *)
Definition category_field_errors (lang : Py.str) (POST : gmap Py.str Py.str)
    : list Py.str :=
  let api_key := Py.strip (get_or_empty POST $"api_key") in
  let domain := Py.strip (get_or_empty POST $"domain") in
  let errors := require_field [] api_key (api_key_message lang) in
  require_field errors domain (domain_message lang).

Definition file_message (lang : Py.str) : Py.str :=
  trans lang $"Please upload an Excel file." $"لطفاً فایل اکسل را بارگذاری کنید.".

Definition connection_message (lang str_e : Py.str) : Py.str :=
  trans lang $"API connection failed: " $"اتصال به API ناموفق بود: " ++ str_e.

Definition no_data_message (lang : Py.str) : Py.str :=
  trans lang $"No valid data processed." $"هیچ دادهٔ معتبری پردازش نشد.".

(** [question_df['QID'].dropna().unique().tolist()] on a column of texts
    ([None]: an empty cell). *)
Definition unique_qids_of (QID_column : list (option Py.str)) : list Py.str :=
  unique (omap id QID_column).

(** *** The binary sheet of the coding view *)

(** The binary sheet: the identifiers, and the named columns in the order
    they were first assigned; a cell is 1 or NA ([None]). *)
Record binary_frame := BinaryFrame {
  b_ID : list Z;
  b_columns : list (Py.str * list (option Z))
}.

(** One assigned column: 1 for the identifiers with a melted row of the
    code, NA for the others. *)
Definition binary_column (melted : list (Z * Py.str)) (ids : list Z)
    (code : Py.str) : list (option Z) :=
  (fun id_val =>
     if existsb (fun p => bool_decide (p.1 = id_val) && bool_decide (p.2 = code))
                melted
     then Some 1%Z else None) <$> ids.

Section Binary.

Variable to_numeric : Py.str -> option Z.

(** The [for code in unique_codes] loop for one processed question;
    [binary_df[col_name] = ...] replaces a column of that name. *)
Definition binary_question (ids : list Z)
    (cols : list (Py.str * list (option Z))) (qid : Py.str) (qid_df : frame)
    : list (Py.str * list (option Z)) :=
  let melted := melted_codes to_numeric qid qid_df in
  foldl (fun cols code =>
           dict_set cols (qid ++ $"-" ++ code) (binary_column melted ids code))
        cols (unique melted.*2).

Definition binary_sheet (merged_df : frame)
    (processed : list Py.str) (frames : list frame) : binary_frame :=
  let ids := merge_sort Z.le (unique (IDs merged_df)) in
  BinaryFrame ids
    (foldl (fun cols qf => binary_question ids cols qf.1 qf.2)
           [] (zip processed frames)).

End Binary.

(** *** The coding view *)

(** What the coding view reads from an uploaded workbook: the sheets with
    their columns, the [QID] column of the question sheet and the rows of
    the codeframe sheet. *)
Record coding_upload := CodingUpload {
  cu_excel : workbook;
  cu_question_QID : list (option Py.str);
  cu_codeframe : list codeframe_row
}.

Inductive coding_page :=
| CodingErrors (errors : list Py.str)
| CodingResults (triple : frame) (codeframe : list summary_row)
                (binary : binary_frame) (processed failed : list Py.str).

Section CodingView.

Variable to_numeric : Py.str -> option Z.
Variable net : transport.
Variable prompt_of : Py.str -> Py.str.
(** The text of the exception raised by the connection test. *)
Variable str_e : Py.str.

(** The run once the form is accepted: connection test, validation of the
    workbook, the questions, the sheets. *)
Definition coding_run (lang : Py.str) (up : coding_upload)
    : io (outcome coding_page) :=
  test_response ← post net (Request $"Hello" 1%N);
  match test_response with
  | RequestException => mret (Returned (CodingErrors [connection_message lang str_e]))
  | _ =>
    match validate lang (cu_excel up) with
    | Abort errors => mret (Returned (CodingErrors errors))
    | Proceed =>
      r ← coding_loop to_numeric net prompt_of (S max_retries) initial_state
                      (unique_qids_of (cu_question_QID up));
      match r with
      | OutOfFuel => mret OutOfFuel
      | Raised e => mret (Raised e)
      | Returned st =>
        match coding_outputs to_numeric (cu_codeframe up) st with
        | NoValidData => mret (Returned (CodingErrors [no_data_message lang]))
        | Outputs merged_df df_codeframe processed failed =>
          mret (Returned (CodingResults merged_df df_codeframe
                            (binary_sheet to_numeric merged_df processed (dfs st))
                            processed failed))
        end
      end
    end
  end.

Definition coding_view_post (lang : Py.str) (POST : gmap Py.str Py.str)
    (uploaded_file : option coding_upload) : io (outcome coding_page) :=
  let errors := coding_field_errors lang POST in
  match uploaded_file with
  | None => mret (Returned (CodingErrors (errors ++ [file_message lang])))
  | Some up =>
    match errors with
    | [] => coding_run lang up
    | _ => mret (Returned (CodingErrors errors))
    end
  end.

End CodingView.

(** *** The category view *)

(** The [QID] column of the [question] sheet and the [codeframe] sheet hold
    their cells as the workbook has them, texts or numbers ([VNaN]: an
    empty cell). *)
Record category_upload := CategoryUpload {
  gu_excel : workbook;
  gu_question_QID : list value;
  gu_codeframe : list codebook_row
}.

Inductive category_page :=
| CategoryErrors (errors : list Py.str)
| CategoryResults (updated_codeframe : list codebook_row).

#[global] Instance value_eq_dec : EqDecision value.
Proof. solve_decision. Defined.

(** [df_question['QID'].dropna().unique().tolist()] *)
Definition unique_values (QID_column : list value) : list value :=
  unique (List.filter (fun v => negb (bool_decide (v = VNaN))) QID_column).

Section CategoryView.

Context {number : Type}.
Variable to_numeric : Py.str -> option number.
Variable astype_int : list (option number) -> number -> option Z.
Variable net : transport.
Variable prompt_of : value -> Py.str.
Variable str_e : Py.str.

(** [for qid in unique_qids] of the category view. *)
Fixpoint discovery_all (fuel : nat)
    (new_dfs : list (Py.str * list (Z * Py.str))) (unique_qids : list value)
    : io (outcome (list (Py.str * list (Z * Py.str)))) :=
  match unique_qids with
  | [] => mret (Returned new_dfs)
  | qid :: qids =>
    r ← discovery_question to_numeric astype_int net prompt_of fuel new_dfs qid;
    match r with
    | OutOfFuel => mret OutOfFuel
    | Raised e => mret (Raised e)
    | Returned new_dfs' => discovery_all fuel new_dfs' qids
    end
  end.

Definition category_run (lang : Py.str) (up : category_upload)
    : io (outcome category_page) :=
  test_response ← post net (Request $"test" 1%N);
  match test_response with
  | RequestException => mret (Returned (CategoryErrors [connection_message lang str_e]))
  | _ =>
    match validate lang (gu_excel up) with
    | Abort errors => mret (Returned (CategoryErrors errors))
    | Proceed =>
      r ← discovery_all (S max_attempts) [] (unique_values (gu_question_QID up));
      match r with
      | OutOfFuel => mret OutOfFuel
      | Raised e => mret (Raised e)
      | Returned new_dfs =>
        mret (Returned (CategoryResults (merge_new_dfs (gu_codeframe up) new_dfs)))
      end
    end
  end.

Definition category_view_post (lang : Py.str) (POST : gmap Py.str Py.str)
    (uploaded_file : option category_upload) : io (outcome category_page) :=
  let errors := category_field_errors lang POST in
  match uploaded_file with
  | None => mret (Returned (CategoryErrors (errors ++ [file_message lang])))
  | Some up =>
    match errors with
    | [] => category_run lang up
    | _ => mret (Returned (CategoryErrors errors))
    end
  end.

End CategoryView.

(** *** The session preferences ([set_theme], [set_language]) *)

(** [x or y] on an optional text. *)
Definition or_else (x : option Py.str) (y : Py.str) : Py.str :=
  match x with
  | Some s => if Py.truthy s then s else y
  | None => y
  end.

Section Session.

(** [redirect] is Django's function: it takes the text [next_url] and gives
    the response of the view.  What it makes of the text (it resolves the
    name of a URL pattern, keeps a path as it is, and raises on a text that
    is neither) is Django's; the views are written over any such function,
    [response] being what the call comes to, a raise included.  The
    assignment to the session precedes the call. *)
Context {response : Type}.
Variable redirect : Py.str -> response.

(** [set_theme]: the session after the assignment and what [redirect]
    returns on [next_url]; [dashboard] is [reverse('dashboard')]. *)
Definition set_theme (GET META session : gmap Py.str Py.str) (dashboard : Py.str)
    : gmap Py.str Py.str * response :=
  let theme := default $"dark" (GET !! $"theme") in
  let theme := if bool_decide (theme ∈ [$"dark"; $"light"]) then theme else $"dark" in
  let next_url := or_else (META !! $"HTTP_REFERER") dashboard in
  (<[$"theme" := theme]> session, redirect next_url).

Definition set_language (GET META session : gmap Py.str Py.str) (dashboard : Py.str)
    : gmap Py.str Py.str * response :=
  let lang := default $"en" (GET !! $"lang") in
  let lang := if bool_decide (lang ∈ [$"en"; $"fa"]) then lang else $"en" in
  let next_url := or_else (META !! $"HTTP_REFERER") dashboard in
  (<[$"lang" := lang]> session, redirect next_url).

End Session.

(** [request.session.get('lang', 'en')] and [request.session.get('theme',
    'dark')], as every view reads them. *)
Definition session_lang (session : gmap Py.str Py.str) : Py.str :=
  default $"en" (session !! $"lang").

Definition session_theme (session : gmap Py.str Py.str) : Py.str :=
  default $"dark" (session !! $"theme").

(** ** Further reference notions *)

(** A segment of a coding reply that yields data: it is not blank and has
    at least two comma-separated fields; its identifier text and its
    non-blank codes, trimmed. *)
Definition segment (part : Py.str) : option (Py.str * list Py.str) :=
  let items := Py.split 44 (Py.strip part) in
  if Py.truthy (Py.strip part) && (2 <=? length items)%nat
  then Some (Py.strip (hd [] items),
             List.filter Py.truthy (List.map Py.strip (tl items)))
  else None.

Definition segments (output : Py.str) : list (Py.str * list Py.str) :=
  omap segment (Py.split 59 (Py.strip output)).

(** The largest number of codes of a segment. *)
Definition most_codes (data : list (Py.str * list Py.str)) : nat :=
  foldr (fun d m => Nat.max (length d.2) m) 0%nat data.

(** The codes of a segment laid out on [m] code columns. *)
Definition padded (m : nat) (codes : list Py.str) : list (option Py.str) :=
  (Some <$> codes) ++ replicate (m - length codes) None.

(** A text without any character other than white space. *)
Definition blank (s : Py.str) : bool := forallb Py.isspace s.

(** The message of a field, when the field is blank, and the message for
    the file, when none is uploaded. *)
Definition when_blank (field message : Py.str) : list Py.str :=
  if blank field then [message] else [].

Definition when_absent {A} (uploaded_file : option A) (message : Py.str)
    : list Py.str :=
  match uploaded_file with
  | None => [message]
  | Some _ => []
  end.

Definition reply_without_comma : Py.str := $" abc; 12 ;;x y ".

(** The state of a question that has been processed with a reply. *)
Definition mark_processed (st : coding_state) (qid prompt output : Py.str)
    (df_parsed : frame) : coding_state :=
  CodingState (<[qid := (prompt, output)]> (results st)) (fail_qids st)
              (dfs st ++ [df_parsed]) (processed_qids st ++ [qid]).

(** A transport that raises once and then delivers a coding answer. *)
Definition answer_after_failure : transport :=
  fun n _ => match n with O => RequestException | S _ => Json repeated_code_reply end.

(** The requests of the connection tests. *)
Definition coding_probe : request := Request $"Hello" 1%N.
Definition category_probe : request := Request $"test" 1%N.

(** A posted coding form, complete or with two blank fields, a complete
    workbook with one question column, and transports whose calls raise
    from the first or from the second one on. *)
Definition complete_form : gmap Py.str Py.str :=
  <[$"api_key" := $" key "]> (<[$"project_name" := $"survey"]>
    (<[$"question_domain" := $"retail"]> (<[$"domain" := $"retail"]> ∅))).

Definition half_blank_form : gmap Py.str Py.str :=
  <[$"api_key" := $"   "]> (<[$"project_name" := $"survey"]> ∅).

Definition complete_workbook : workbook :=
  [($"codeframe", [$"QID"; $"CID"; $"Tag"]);
   ($"question", [$"QID"; $"Question"]);
   ($"data", [$"ID"; $"Q1"])].

Definition complete_upload : coding_upload :=
  CodingUpload complete_workbook [Some $"Q1"; None; Some $"Q2"; Some $"Q1"] [].

Definition fails_after_probe : transport :=
  fun n _ => match n with O => Text $"ok" | S _ => RequestException end.

(** A codeframe sheet with integer codes, and one with text codes where two
    questions share a code; its last code is no number, so that the column
    is read as text. *)
Definition integer_codeframe : list codeframe_row :=
  [CodeframeRow (VStr $"Q1") (VInt 5) $"price";
   CodeframeRow (VStr $"Q1") (VInt 7) $"taste"].

Definition text_codeframe : list codeframe_row :=
  [CodeframeRow (VStr $"Q1") (VStr $"7") $"taste";
   CodeframeRow (VStr $"Q1") (VStr $"5") $"price";
   CodeframeRow (VStr $"Q2") (VStr $"5") $"colour";
   CodeframeRow (VStr $"Q2") (VStr $"9b") $"other"].

(** A frame is rectangular when every row has one cell per code column. *)
Definition rectangular (df : frame) : Prop :=
  Forall (fun r => length r.2 = width df) (rows df).

(** The position of the code columns of the [i]-th retained frame among
    the code columns of the merged table. *)
Definition offset (frames : list frame) (i : nat) : nat :=
  sum_list_with width (take i frames).

(** A frame with an [ID] column at least, and rectangular. *)
Definition well_formed (df : frame) : Prop := columns df <> [] /\ rectangular df.

(** What a column of the binary sheet is: the column of a code observed
    for a processed question. *)
Definition binary_column_of (to_numeric : Py.str -> option Z) (ids : list Z)
    (questions : list (Py.str * frame)) (col : Py.str * list (option Z)) : Prop :=
  exists qid df code,
    (qid, df) ∈ questions
    /\ code ∈ (melted_codes to_numeric qid df).*2
    /\ col.1 = qid ++ $"-" ++ code
    /\ col.2 = (fun id_val =>
                  if bool_decide ((id_val, code) ∈ melted_codes to_numeric qid df)
                  then Some 1%Z else None) <$> ids.

(** The text the discovery loop reads from a delivered reply: the text
    content of a JSON reply, the body of another one, emptied when it is an
    HTML page; a call that raises, a content that cannot be read and a
    content that is no text give no text. *)
Definition body_of (r : reply) : option Py.str :=
  match r with
  | Json c => Some c
  | Text body => Some (if Py.contains $"<!doctype" (Py.lower body) then [] else body)
  | RequestException | JSONDecodeError | JsonOther _ | Unreadable _ => None
  end.

(** What [response_md] holds after the reply [r]: a content or a body is
    assigned, a reply after which an exception is caught before the
    assignment leaves it as it is. *)
Definition assigned (response_md : option pyval) (r : reply) : option pyval :=
  match r with
  | Json c => Some (Str c)
  | Text body =>
    Some (Str (if Py.contains $"<!doctype" (Py.lower body) then [] else body))
  | JsonOther k => Some (NonText k)
  | RequestException | JSONDecodeError | Unreadable _ => response_md
  end.

(** The replies to [k] requests, the first of which is the [start]-th
    request made, and what [response_md] holds after them. *)
Definition replies_from (net : transport) (req : request) (start k : nat)
    : list reply :=
  (fun i => net (start + i)%nat req) <$> seq 0 k.

Definition response_after (net : transport) (req : request) (start k : nat)
    : option pyval :=
  foldl assigned None (replies_from net req start k).

(** A reply that ends the discovery loop: it delivers a text that is not
    blank. *)
Definition ends_discovery (r : reply) : bool :=
  match body_of r with
  | Some md => negb (blank md)
  | None => false
  end.

(** The exceptions that leave the category view after the loop of a
    question, [response_md] being what the loop has read last:
    [AttributeError] on a truthy value that is no text, and
    [IntCastingNaNError] on a text the cast of whose codes fails. *)
Definition raised_by_discovery {number} (to_numeric : Py.str -> option number)
    (astype_int : list (option number) -> number -> option Z)
    (response_md : option pyval) (e : exception) : Prop :=
  (e = AttributeError /\ exists c, response_md = Some (NonText c))
  \/ (e = IntCastingNaNError
      /\ exists md, response_md = Some (Str md)
           /\ parse_md_table to_numeric astype_int md = Raised IntCastingNaNError).

(** The events of a discovery call: its request, and sleeps of 5. *)
Definition discovery_event (req : request) (e : event) : Prop :=
  e = Post req \/ e = Sleep 5.

(** An endpoint that answers with an HTML page, then with white space,
    then with a table. *)
Definition pages_then_table : transport :=
  fun n _ =>
    match n with
    | 0%nat => Text html_page
    | 1%nat => Json $"  "
    | _ => Json table_with_short_row
    end.

(** The proposals of a table whose code the question does not have yet,
    and a proposal taken as it is. *)
Definition fresh_proposals (updated : list codebook_row) (qid : Py.str)
    (df_new : list (Z * Py.str)) : list (Z * Py.str) :=
  List.filter
    (fun p => negb (bool_decide
                      (p.1 ∈ cb_CID <$> List.filter
                                          (fun r => bool_decide (cb_QID r = VStr qid))
                                          updated)))
    df_new.

Definition as_proposed (qid : Py.str) (p : Z * Py.str) : codebook_row :=
  CodebookRow (VStr qid) p.1 p.2 None.

Definition increasing_proposals : list (Z * Py.str) :=
  [(4%Z, $"d"); (7%Z, $"e"); (8%Z, $"f")].

(** A posted category form, and a transport whose first call raises. *)
Definition blank_category_form : gmap Py.str Py.str :=
  <[$"api_key" := $"key"]> (<[$"domain" := $" "]> ∅).

Definition complete_category_upload : category_upload :=
  CategoryUpload complete_workbook [VStr $"Q1"; VNaN; VStr $"Q2"; VStr $"Q1"]
                 example_codebook.

(** An upload whose sheets hold numbers as question identifiers, and an
    endpoint that proposes a table for its question 7. *)
Definition numeric_category_upload : category_upload :=
  CategoryUpload complete_workbook [VInt 7] numeric_codebook.

Definition numeric_table : Py.str :=
  $"| کد گزینه | عنوان گزینه |" ++ [10%N] ++
  $"|---|---|" ++ [10%N] ++
  $"| 1 | x |" ++ [10%N] ++
  $"| 4 | y |".

Definition proposes_numeric_table : transport := fun _ _ => Json numeric_table.

(** * Properties *)

(** ** [parse_output] *)

(** C1, as stated, fails: on the reply "1,5,7;2,5;abc;3," the frame does
    not have exactly two rows. *)
Lemma parse_output_example_not_two_rows :
  length (rows (parse_output to_numeric_int example_reply $"Q1")) <> 2%nat.
Proof. vm_compute. discriminate. Qed.

(** C1, amended: on the reply "1,5,7;2,5;abc;3," with question id "Q1",
    for any coercion that reads "1", "2" and "3" as 1, 2 and 3, the frame
    has the columns ID, Q1_1, Q1_2 and exactly three rows: respondent 1
    with codes "5" and "7", respondent 2 with code "5", and respondent 3
    with no code.  The segment "abc" never reaches the data (it has a single
    field); the segment "3," has two fields and is kept. *)
Theorem parse_output_example (to_numeric : Py.str -> option Z) :
  to_numeric $"1" = Some 1%Z ->
  to_numeric $"2" = Some 2%Z ->
  to_numeric $"3" = Some 3%Z ->
  (parse_parts (Py.split 59 (Py.strip example_reply)) [] 0).1
    = [($"1", [$"5"; $"7"]); ($"2", [$"5"]); ($"3", [])]
  /\ parse_output to_numeric example_reply $"Q1"
    = Frame [$"ID"; $"Q1_1"; $"Q1_2"]
            [(1%Z, [Some $"5"; Some $"7"]);
             (2%Z, [Some $"5"; None]);
             (3%Z, [None; None])].
Proof.
  intros H1 H2 H3. split; [reflexivity|].
  unfold parse_output.
  change (parse_parts (Py.split 59 (Py.strip example_reply)) [] 0)
    with ([($"1", [$"5"; $"7"]); ($"2", [$"5"]); ($"3", @nil Py.str)], 2%nat).
  cbv beta iota. f_equal.
  unfold dropna_ID, parsed_row. cbn -[Py.lit]. rewrite H1, H2, H3. reflexivity.
Qed.

Lemma parse_output_example_witness :
  parse_output to_numeric_int example_reply $"Q1"
    = Frame [$"ID"; $"Q1_1"; $"Q1_2"]
            [(1%Z, [Some $"5"; Some $"7"]);
             (2%Z, [Some $"5"; None]);
             (3%Z, [None; None])].
Proof.
  apply (parse_output_example to_numeric_int); reflexivity.
Defined.

(** ** The merge step of the category flow *)

Section MergeFacts.

Implicit Types (r : codebook_row) (df_new : list (Z * Py.str)) (qid : Py.str).
Implicit Types (ex : gset Z) (m : Z).

Lemma value_eq_str_spec (v : value) (s : Py.str) :
  value_eq_str v s = true <-> v = VStr s.
Proof.
  destruct v as [z|t|]; cbn [value_eq_str]; [done| |done].
  rewrite bool_decide_eq_true. split; [by intros ->|by intros [= ->]].
Qed.

Lemma filter_value_eq_str (updated : list codebook_row) qid :
  List.filter (fun r => value_eq_str (cb_QID r) qid) updated
    = List.filter (fun r => bool_decide (cb_QID r = VStr qid)) updated.
Proof.
  apply filter_ext. intros r. destruct (value_eq_str (cb_QID r) qid) eqn:Hq.
  - apply value_eq_str_spec in Hq. by rewrite bool_decide_eq_true_2.
  - rewrite bool_decide_eq_false_2; [done|]. intros Hr.
    apply value_eq_str_spec in Hr. congruence.
Qed.

Lemma max_of_upper (s : gset Z) (x : Z) : x ∈ s -> (x <= max_of s)%Z.
Proof.
  intros Hx. apply elem_of_elements in Hx. unfold max_of.
  destruct (elements s) as [|y l]; [by apply elem_of_nil in Hx|].
  revert Hx. generalize y. clear y. induction l as [|z l IH]; intros y Hx.
  - apply list_elem_of_singleton in Hx. subst. simpl. lia.
  - simpl. apply elem_of_cons in Hx as [->|Hx].
    + specialize (IH y (list_elem_of_here _ _)). lia.
    + apply elem_of_cons in Hx as [->|Hx]; [lia|].
      specialize (IH y (list_elem_of_further _ _ _ Hx)).
      assert (foldr Z.max y l <= Z.max z (foldr Z.max y l))%Z by lia. lia.
Qed.

Lemma assign_cids_acc qid ex m df_new acc :
  assign_cids qid ex m df_new acc = acc ++ assign_cids qid ex m df_new [].
Proof.
  revert m acc. induction df_new as [|[cid tag] df IH]; intros m acc; simpl.
  - by rewrite app_nil_r.
  - case_bool_decide; [apply IH|].
    destruct (m <? cid)%Z.
    + rewrite (IH _ (acc ++ _)), (IH _ [_]). by rewrite <- app_assoc.
    + rewrite (IH _ (acc ++ _)), (IH _ [_]). by rewrite <- app_assoc.
Qed.

(** The rows the loop produces carry the key as a text and strictly
    increasing codes, all above the running maximum it started from. *)
Lemma assign_cids_increasing qid ex df_new : forall m,
  Forall (fun r => cb_QID r = VStr qid /\ (m < cb_CID r)%Z)
         (assign_cids qid ex m df_new [])
  /\ StronglySorted Z.lt (cb_CID <$> assign_cids qid ex m df_new []).
Proof.
  induction df_new as [|[cid tag] df IH]; intros m; simpl.
  - split; constructor.
  - case_bool_decide; [apply IH|].
    destruct (m <? cid)%Z eqn:Hlt; rewrite assign_cids_acc; simpl.
    + apply Z.ltb_lt in Hlt. destruct (IH cid) as [Hall Hsort]. split.
      * constructor; [simpl; auto|].
        eapply Forall_impl; [exact Hall|]. simpl. intros r [? ?]. split; [done|lia].
      * constructor; [done|]. apply Forall_fmap.
        eapply Forall_impl; [exact Hall|]. simpl. intros r [? ?]. done.
    + apply Z.ltb_ge in Hlt. destruct (IH (m + 1)%Z) as [Hall Hsort]. split.
      * constructor; [simpl; split; [done|lia]|].
        eapply Forall_impl; [exact Hall|]. simpl. intros r [? ?]. split; [done|lia].
      * constructor; [done|]. apply Forall_fmap.
        eapply Forall_impl; [exact Hall|]. simpl. intros r [? ?]. done.
Qed.

Lemma StronglySorted_lt_NoDup (l : list Z) : StronglySorted Z.lt l -> NoDup l.
Proof.
  induction 1 as [|x l Hs IH Hall]; constructor; [|done].
  intros Hin. rewrite Forall_forall in Hall. specialize (Hall _ Hin). lia.
Qed.

(** The codes the merge finds for a key: those of the rows whose [QID]
    cell is that text. *)
Lemma existing_cids_iff (updated : list codebook_row) qid (cid : Z) :
  cid ∈ (list_to_set
           (cb_CID <$> List.filter (fun r => value_eq_str (cb_QID r) qid) updated)
         : gset Z)
  <-> exists r, r ∈ updated /\ cb_QID r = VStr qid /\ cb_CID r = cid.
Proof.
  rewrite elem_of_list_to_set, list_elem_of_fmap. split.
  - intros (r & -> & Hr). apply list_elem_of_In, filter_In in Hr as [Hr Hq].
    apply value_eq_str_spec in Hq. exists r. by rewrite <- list_elem_of_In in Hr.
  - intros (r & Hr & Hq & <-). exists r. split; [done|].
    apply list_elem_of_In, filter_In. split; [by apply list_elem_of_In|].
    by apply value_eq_str_spec.
Qed.

(** The rows appended under one key, on a codebook whose [QID] cells are
    texts: fresh keys, pairwise distinct. *)
Lemma new_rows_for_fresh (updated : list codebook_row) qid df_new :
  NoDup (cb_key <$> new_rows_for updated qid df_new)
  /\ forall r, r ∈ new_rows_for updated qid df_new ->
       cb_QID r = VStr qid
       /\ (Forall (fun r' => is_text (cb_QID r')) updated ->
           cb_key r ∉ cb_key <$> updated).
Proof.
  unfold new_rows_for.
  set (ex := list_to_set _ : gset Z).
  destruct (assign_cids_increasing qid ex df_new (max_of ex)) as [Hall Hsort].
  split.
  - apply StronglySorted_lt_NoDup in Hsort.
    eapply (NoDup_fmap_1 snd). rewrite <- list_fmap_compose. exact Hsort.
  - intros r Hr. rewrite Forall_forall in Hall. destruct (Hall _ Hr) as [Hq Hlt].
    split; [done|]. intros Htext Hin.
    apply list_elem_of_fmap in Hin as (r' & Hk & Hr').
    rewrite Forall_forall in Htext. destruct (Htext r' Hr') as [s Hs].
    unfold cb_key in Hk. rewrite Hq, Hs in Hk. cbn [py_str] in Hk.
    injection Hk as <- Hc.
    assert (cb_CID r ∈ ex) as Hex.
    { unfold ex. apply existing_cids_iff. by exists r'. }
    apply max_of_upper in Hex. lia.
Qed.

Lemma merge_question_appends (updated : list codebook_row) qid df_new :
  merge_question updated qid df_new = updated ++ new_rows_for updated qid df_new.
Proof.
  unfold merge_question. destruct (new_rows_for updated qid df_new); [|done].
  by rewrite app_nil_r.
Qed.

Lemma merge_new_dfs_appends (new_dfs : list (Py.str * list (Z * Py.str))) :
  forall updated : list codebook_row,
  Forall (fun r => is_text (cb_QID r)) updated ->
  exists added,
    merge_new_dfs updated new_dfs = updated ++ added
    /\ Forall (fun r => is_text (cb_QID r)) added
    /\ NoDup (cb_key <$> added)
    /\ forall r, r ∈ added -> cb_key r ∉ cb_key <$> updated.
Proof.
  induction new_dfs as [|[qid df] rest IH]; intros updated Htext.
  - exists []. simpl. rewrite app_nil_r. split; [done|]. split; [constructor|].
    split; [constructor|]. intros r Hr. by apply elem_of_nil in Hr.
  - unfold merge_new_dfs. cbn [foldl fst snd]. rewrite merge_question_appends.
    fold (merge_new_dfs (updated ++ new_rows_for updated qid df) rest).
    destruct (new_rows_for_fresh updated qid df) as [Hnd1 Hfresh1].
    assert (Forall (fun r => is_text (cb_QID r)) (new_rows_for updated qid df))
      as Htext1.
    { apply Forall_forall. intros r Hr. destruct (Hfresh1 r Hr) as [Hq _].
      by exists qid. }
    destruct (IH (updated ++ new_rows_for updated qid df)) as (added & Heq & Hta & Hnd & Hfresh).
    { by apply Forall_app. }
    exists (new_rows_for updated qid df ++ added).
    split; [by rewrite Heq, <- app_assoc|].
    split; [by apply Forall_app|]. split.
    + rewrite fmap_app. apply NoDup_app. split; [done|]. split; [|done].
      intros k Hk1 Hk2. apply list_elem_of_fmap in Hk2 as (r & -> & Hr).
      apply (Hfresh r Hr). rewrite fmap_app. apply elem_of_app. by right.
    + intros r Hr. apply elem_of_app in Hr as [Hr|Hr].
      * by apply Hfresh1.
      * intros Hin. apply (Hfresh r Hr). rewrite fmap_app. apply elem_of_app. by left.
Qed.

End MergeFacts.

(** C2, as stated, fails: with the codes 1, 2, 3 present for "Q1", the rows
    appended for the four proposals are not [(10,"new-a"); (5,"seq")]. *)
Lemma merge_example_not_five :
  new_rows_for example_codebook $"Q1" example_proposals
    <> [CodebookRow (VStr $"Q1") 10 $"new-a" None;
        CodebookRow (VStr $"Q1") 5 $"seq" None].
Proof. vm_compute. discriminate. Qed.

(** C2, amended: given a codebook whose codes for "Q1" are {1,2,3} and the
    proposals (2,"dup"), (10,"new-a"), (1,"dup2"), (4,"seq") in that order,
    the rows appended for "Q1" are exactly (10,"new-a") and (11,"seq"): the
    running maximum is 10 once the second proposal is accepted, so the
    fourth is numbered 11. *)
Theorem merge_example (updated : list codebook_row) :
  list_to_set (cb_CID <$> List.filter (fun r => bool_decide (cb_QID r = VStr $"Q1"))
                                      updated)
    = ({[1%Z; 2%Z; 3%Z]} : gset Z) ->
  merge_new_dfs updated [($"Q1", example_proposals)]
    = updated ++ [CodebookRow (VStr $"Q1") 10 $"new-a" None;
                  CodebookRow (VStr $"Q1") 11 $"seq" None].
Proof.
  intros Hex. unfold merge_new_dfs. cbn [foldl fst snd].
  rewrite merge_question_appends. f_equal.
  unfold new_rows_for. rewrite filter_value_eq_str, Hex. by vm_compute.
Qed.

Lemma merge_example_witness :
  merge_new_dfs example_codebook [($"Q1", example_proposals)]
    = example_codebook ++ [CodebookRow (VStr $"Q1") 10 $"new-a" None;
                           CodebookRow (VStr $"Q1") 11 $"seq" None].
Proof. apply (merge_example example_codebook). by vm_compute. Defined.

(** C3 (the code departs from the claim): the table found for a question is
    stored under the text of its identifier, and the merge looks for the
    codes of the rows whose [QID] cell is that text.  On a codebook whose
    identifiers are numbers no row is found: for question 7 with the codes
    1 and 2 and the proposals (1,"x") and (4,"y"), the view appends a row
    with the code 1 under the text "7", so that question 7 has the code 1
    twice, where the codebook had no repeated (QuestionId, CodeId).  On a
    codebook whose identifiers are texts the claim holds: the merge only
    appends rows, with pairwise distinct keys, none of which is a key of
    the input codebook, and a codebook with unique keys stays one. *)
Theorem merge_repeats_code_of_numeric_question :
  category_view_post to_numeric_int int64_cast proposes_numeric_table
                     (fun _ => $"p") $"down" $"en" complete_form
                     (Some numeric_category_upload) (World 0 [])
    = (Returned (CategoryResults
                   (numeric_codebook
                      ++ [CodebookRow (VStr $"7") 1 $"x" None;
                          CodebookRow (VStr $"7") 4 $"y" None])),
       World 2 [Post (Request $"test" 1%N); Post (Request $"p" 16384%N)])
  /\ merge_new_dfs numeric_codebook [(py_str (VInt 7), numeric_proposals)]
     = numeric_codebook ++ [CodebookRow (VStr $"7") 1 $"x" None;
                            CodebookRow (VStr $"7") 4 $"y" None]
  /\ NoDup (cb_key <$> numeric_codebook)
  /\ ~ NoDup (cb_key <$> merge_new_dfs numeric_codebook
                           [(py_str (VInt 7), numeric_proposals)])
  /\ forall (updated : list codebook_row)
            (new_dfs : list (Py.str * list (Z * Py.str))),
       Forall (fun r => is_text (cb_QID r)) updated ->
       exists added,
         merge_new_dfs updated new_dfs = updated ++ added
         /\ NoDup (cb_key <$> added)
         /\ (forall r, r ∈ added -> cb_key r ∉ cb_key <$> updated)
         /\ (NoDup (cb_key <$> updated) ->
             NoDup (cb_key <$> merge_new_dfs updated new_dfs)).
Proof.
  split; [by vm_compute|]. split; [by vm_compute|].
  split; [apply (bool_decide_unpack _); by vm_compute|].
  split; [apply (bool_decide_unpack _); by vm_compute|].
  intros updated new_dfs Htext.
  destruct (merge_new_dfs_appends new_dfs updated Htext)
    as (added & Heq & _ & Hnd & Hfresh).
  exists added. repeat split; try done.
  intros Hu. rewrite Heq, fmap_app. apply NoDup_app. split; [done|]. split; [|done].
  intros k Hk1 Hk2. apply list_elem_of_fmap in Hk2 as (r & -> & Hr).
  by apply (Hfresh r Hr).
Qed.

(** ** The completion calls *)

Section CallFacts.

Variable to_numeric : Py.str -> option Z.
Variable net : transport.
Variable prompt_of : Py.str -> Py.str.

Lemma call_loop_step fuel req success retries output :
  call_loop net (S fuel) req success retries output =
    if negb success && (retries <? max_retries)%nat then
      r ← post net req;
      match r with
      | Json c => call_loop net fuel req true retries (Str c)
      | JsonOther k => call_loop net fuel req true retries (NonText k)
      | Unreadable e => mret (Raised e)
      | Text body =>
        call_loop net fuel req true retries
          (Str (if Py.contains $"<!doctype" (Py.lower body)
                then $"Forbidden HTML response" else body))
      | RequestException | JSONDecodeError =>
        _ ← (if (S retries <? max_retries)%nat then sleep 10 else mret tt);
        call_loop net fuel req success (S retries) output
      end
    else mret (Returned (success, output)).
Proof. reflexivity. Qed.

(** After [k] calls that raise, a call that delivers a body ends the loop:
    [k] sleeps, one after each failure, and no request after the body. *)
Lemma call_loop_reply_after (req : request) (output : Py.str) (k : nat) :
  forall (extra retries : nat) (output0 : pyval) (w : world),
  (retries + k < max_retries)%nat ->
  (forall i, (i < k)%nat -> raises (net (posted w + i) req)) ->
  recorded (net (posted w + k) req) output ->
  call_loop net (k + 2 + extra) req false retries output0 w
    = (Returned (true, Str output),
       World (posted w + k + 1) (trace w ++ attempts_each req 10 k ++ [Post req])).
Proof.
  induction k as [|k IH]; intros extra retries output0 w Hlt Hfail Hrec.
  - rewrite Nat.add_0_r in *. cbn [Nat.add attempts_each app].
    rewrite call_loop_step.
    rewrite (proj2 (Nat.ltb_lt _ _) Hlt). cbn [negb andb].
    unfold mbind, io_bind, post. cbv beta iota.
    rewrite Nat.add_1_r.
    destruct (net (posted w) req); try done; cbn [recorded] in Hrec;
      subst output; reflexivity.
  - cbn [Nat.add]. rewrite call_loop_step.
    assert ((retries <? max_retries)%nat = true) as -> by (apply Nat.ltb_lt; lia).
    assert ((S retries <? max_retries)%nat = true) as Hs by (apply Nat.ltb_lt; lia).
    cbn [negb andb]. unfold mbind at 1, io_bind at 1, post at 1. cbv beta iota.
    pose proof (Hfail 0%nat ltac:(lia)) as H0. rewrite Nat.add_0_r in H0.
    assert (call_loop net (k + 2 + extra) req false (S retries) output0
              (World (S (posted w)) ((trace w ++ [Post req]) ++ [Sleep 10]))
            = (Returned (true, Str output),
               World (posted w + S k + 1)
                     (trace w ++ attempts_each req 10 (S k) ++ [Post req]))) as Hnext.
    { rewrite (IH extra (S retries) output0
                  (World (S (posted w)) ((trace w ++ [Post req]) ++ [Sleep 10]))).
      - cbn [posted trace attempts_each]. f_equal. f_equal; [lia|].
        by rewrite <- !app_assoc.
      - lia.
      - intros i Hi. cbn [posted].
        replace (S (posted w) + i)%nat with (posted w + S i)%nat by lia.
        apply Hfail. lia.
      - cbn [posted].
        by replace (S (posted w) + k)%nat with (posted w + S k)%nat by lia. }
    destruct H0 as [-> | ->]; rewrite Hs; unfold mbind, io_bind, sleep;
      cbv beta iota; cbn [posted trace]; exact Hnext.
Qed.

Lemma coding_question_rejected fuel st qid w w' output :
  call_loop net fuel (Request (prompt_of qid) 2000%N) false 0 (Str []) w
    = (Returned (true, Str output), w') ->
  rejected true output = true ->
  coding_question to_numeric net prompt_of fuel st qid w
    = (Returned (mark_failed st qid), w').
Proof.
  intros Hcall Hrej. unfold coding_question, mbind, io_bind.
  rewrite Hcall, Hrej. reflexivity.
Qed.

(** The same for a whole question, when the text is rejected by the check
    that follows the loop. *)
Lemma coding_question_reply_rejected st qid w (k extra : nat) output :
  let api_payload := Request (prompt_of qid) 2000%N in
  (k < max_retries)%nat ->
  (forall i, (i < k)%nat -> raises (net (posted w + i) api_payload)) ->
  recorded (net (posted w + k) api_payload) output ->
  rejected true output = true ->
  call_loop net (S max_retries + extra) api_payload false 0 (Str []) w
    = (Returned (true, Str output),
       World (posted w + k + 1)
             (trace w ++ attempts_each api_payload 10 k ++ [Post api_payload]))
  /\ coding_question to_numeric net prompt_of (S max_retries + extra) st qid w
    = (Returned (mark_failed st qid),
       World (posted w + k + 1)
             (trace w ++ attempts_each api_payload 10 k ++ [Post api_payload])).
Proof.
  intros api_payload Hk Hfail Hrec Hrej.
  assert (call_loop net (S max_retries + extra) api_payload false 0 (Str []) w
          = (Returned (true, Str output),
             World (posted w + k + 1)
                   (trace w ++ attempts_each api_payload 10 k ++ [Post api_payload])))
    as Hcall.
  { replace (S max_retries + extra)%nat
      with (k + 2 + (max_retries - S k + extra))%nat by (unfold max_retries in *; lia).
    by apply call_loop_reply_after. }
  split; [exact Hcall|]. by apply coding_question_rejected with (output := output).
Qed.

(** A question that returns is failed, or processed with the frame of a
    text. *)
Lemma coding_question_outcome fuel st qid w st' w' :
  coding_question to_numeric net prompt_of fuel st qid w = (Returned st', w') ->
  st' = mark_failed st qid
  \/ exists output,
       frame_empty (parse_output to_numeric output qid) = false
       /\ st' = mark_processed st qid (prompt_of qid) output
                               (parse_output to_numeric output qid).
Proof.
  unfold coding_question, mbind, io_bind.
  destruct (call_loop net fuel _ false 0 (Str []) w)
    as [[[success [output|k]]|e|] w1]; [| |intros [=]|intros [=]].
  - destruct (rejected success output); [intros [= <- <-]; by left|].
    destruct (frame_empty _) eqn:Hempty; intros [= <- <-]; [by left|].
    right. by exists output.
  - destruct success; cbn [negb]; [|intros [= <- <-]; by left].
    destruct k as [|[|]]; intros Heq; try discriminate Heq.
    injection Heq as <- <-. by left.
Qed.

End CallFacts.

(** C4 (the code departs from the claim in the category flow): on a
    transport whose every call raises, the coding loop makes exactly 6
    requests with a sleep of 10 between consecutive ones and none after the
    last, and the question is marked failed; the discovery loop makes
    exactly 5 requests and sleeps 5 after each of them, the last included:
    5 sleeps, not 4, before the question is skipped. *)
Theorem retry_exhaustion {number : Type} (to_numeric : Py.str -> option Z)
    (prompt_of : Py.str -> Py.str) (qid : Py.str)
    (to_number : Py.str -> option number)
    (astype_int : list (option number) -> number -> option Z)
    (discovery_prompt_of : value -> Py.str) (discovery_qid : value) (extra : nat)
    (st : coding_state) (new_dfs : list (Py.str * list (Z * Py.str))) (w : world) :
  let coding_request := Request (prompt_of qid) 2000%N in
  let discovery_request := Request (discovery_prompt_of discovery_qid) 16384%N in
  coding_question to_numeric always_fails prompt_of (S max_retries + extra) st qid w
    = (Returned (mark_failed st qid),
       World (6 + posted w) (trace w ++ attempts_between coding_request 10 6))
  /\ posts (attempts_between coding_request 10 6) = 6%nat
  /\ sleeps (attempts_between coding_request 10 6) = 5%nat
  /\ discovery_question to_number astype_int always_fails discovery_prompt_of
                        (S max_attempts + extra) new_dfs discovery_qid w
    = (Returned new_dfs,
       World (5 + posted w) (trace w ++ attempts_each discovery_request 5 5))
  /\ posts (attempts_each discovery_request 5 5) = 5%nat
  /\ sleeps (attempts_each discovery_request 5 5) = 5%nat.
Proof.
  intros creq dreq. repeat split.
  - destruct w as [n t]. cbv -[Py.lit app mark_failed].
    rewrite <- !app_assoc. reflexivity.
  - destruct w as [n t]. cbv -[Py.lit app].
    rewrite <- !app_assoc. reflexivity.
Qed.

(** C9: when a request of a question's coding call, made after [k]
    requests that raised, is answered with an HTTP success whose non-JSON
    body contains the HTML document marker, the loop stops there: no retry
    and no sleep follow that request; the output text is the
    forbidden-response marker; the question is appended to the fail-list and
    nothing is added to the results, the frames or the processed
    questions. *)
Theorem html_reply_fails_without_retry (to_numeric : Py.str -> option Z)
    (net : transport) (prompt_of : Py.str -> Py.str) (qid body : Py.str)
    (k extra : nat) (st : coding_state) (w : world) :
  let api_payload := Request (prompt_of qid) 2000%N in
  (k < max_retries)%nat ->
  (forall i, (i < k)%nat -> raises (net (posted w + i) api_payload)) ->
  net (posted w + k) api_payload = Text body ->
  Py.contains $"<!doctype" (Py.lower body) = true ->
  let w' := World (posted w + k + 1)
                  (trace w ++ attempts_each api_payload 10 k ++ [Post api_payload]) in
  call_loop net (S max_retries + extra) api_payload false 0 (Str []) w
    = (Returned (true, Str $"Forbidden HTML response"), w')
  /\ exists st',
      coding_question to_numeric net prompt_of (S max_retries + extra) st qid w
        = (Returned st', w')
      /\ fail_qids st' = fail_qids st ++ [qid]
      /\ results st' = results st
      /\ dfs st' = dfs st
      /\ processed_qids st' = processed_qids st.
Proof.
  intros api_payload Hk Hfail Hnet Hdoc w'.
  destruct (coding_question_reply_rejected to_numeric net prompt_of st qid w k extra
              $"Forbidden HTML response" Hk Hfail) as [Hcall Hq].
  - unfold recorded. fold api_payload. by rewrite Hnet, Hdoc.
  - reflexivity.
  - split; [exact Hcall|]. by exists (mark_failed st qid).
Qed.

Lemma html_reply_fails_without_retry_witness :
  call_loop html_after_failure (S max_retries) (Request $"p" 2000%N)
            false 0 (Str []) (World 0 [])
    = (Returned (true, Str $"Forbidden HTML response"),
       World 2 [Post (Request $"p" 2000%N); Sleep 10; Post (Request $"p" 2000%N)]).
Proof.
  apply (html_reply_fails_without_retry to_numeric_int html_after_failure
           (fun _ => $"p") $"Q1" html_page 1 0 initial_state (World 0 [])).
  - unfold max_retries. lia.
  - intros i Hi. assert (i = 0%nat) as -> by lia. by left.
  - reflexivity.
  - reflexivity.
Defined.

(** C10: in the coding flow, a reply received with HTTP success, after
    [k] requests that raised, whose text contains "Forbidden" or "API
    error" anywhere makes the question fail: no further request, the
    question appended to the fail-list, nothing added to the results, the
    frames or the processed questions, whatever the text would parse to. *)
Theorem marker_substring_fails (to_numeric : Py.str -> option Z)
    (net : transport) (prompt_of : Py.str -> Py.str) (qid text : Py.str)
    (k extra : nat) (st : coding_state) (w : world) :
  let api_payload := Request (prompt_of qid) 2000%N in
  (k < max_retries)%nat ->
  (forall i, (i < k)%nat -> raises (net (posted w + i) api_payload)) ->
  net (posted w + k) api_payload = Json text
  \/ net (posted w + k) api_payload = Text text ->
  Py.contains $"Forbidden" text = true \/ Py.contains $"API error" text = true ->
  exists st',
    coding_question to_numeric net prompt_of (S max_retries + extra) st qid w
      = (Returned st',
         World (posted w + k + 1)
               (trace w ++ attempts_each api_payload 10 k ++ [Post api_payload]))
    /\ fail_qids st' = fail_qids st ++ [qid]
    /\ results st' = results st
    /\ dfs st' = dfs st
    /\ processed_qids st' = processed_qids st.
Proof.
  intros api_payload Hk Hfail Hnet Hmark.
  exists (mark_failed st qid). split; [|done].
  assert (rejected true text = true) as Hrej.
  { unfold rejected. destruct Hmark as [-> | ->]; by rewrite ?orb_true_r. }
  destruct Hnet as [Hnet|Hnet].
  - apply (coding_question_reply_rejected to_numeric net prompt_of st qid w k extra text);
      try done.
    unfold recorded. fold api_payload. by rewrite Hnet.
  - destruct (Py.contains $"<!doctype" (Py.lower text)) eqn:Hdoc.
    + apply (coding_question_reply_rejected to_numeric net prompt_of st qid w k extra
               $"Forbidden HTML response"); try done.
      unfold recorded. fold api_payload. by rewrite Hnet, Hdoc.
    + apply (coding_question_reply_rejected to_numeric net prompt_of st qid w k extra text);
        try done.
      unfold recorded. fold api_payload. by rewrite Hnet, Hdoc.
Qed.

Lemma marker_substring_fails_witness :
  frame_empty (parse_output to_numeric_int coding_answer_with_marker $"Q1") = false
  /\ exists st',
    coding_question to_numeric_int (fun _ _ => Json coding_answer_with_marker)
                    (fun _ => $"p") (S max_retries) initial_state $"Q1"
                    (World 0 [])
      = (Returned st', World 1 [Post (Request $"p" 2000%N)])
    /\ fail_qids st' = [$"Q1"]
    /\ results st' = ∅
    /\ dfs st' = []
    /\ processed_qids st' = [].
Proof.
  split; [reflexivity|].
  apply (marker_substring_fails to_numeric_int (fun _ _ => Json coding_answer_with_marker)
           (fun _ => $"p") $"Q1" coding_answer_with_marker 0 0
           initial_state (World 0 [])).
  - unfold max_retries. lia.
  - intros i Hi. lia.
  - left. reflexivity.
  - left. reflexivity.
Defined.

(** ** Workbook validation *)

(** C5, as stated, fails: on a workbook whose three tables each miss a
    required column, the run aborts with the single codeframe message; the
    violations of the question and data tables are not listed. *)
Lemma validate_omits_later_violations :
  validate $"en" incomplete_workbook = Abort [codeframe_message $"en"]
  /\ ($"question", $"Question") ∈ violations incomplete_workbook
  /\ mentions (codeframe_message $"en") ($"question", $"Question") = false
  /\ ($"data", $"ID") ∈ violations incomplete_workbook
  /\ mentions (codeframe_message $"en") ($"data", $"ID") = false.
Proof.
  repeat split; try (vm_compute; reflexivity);
    apply (bool_decide_unpack _); vm_compute; exact I.
Qed.

Lemma filter_present (names l : list Py.str) :
  (forall s, s ∈ l -> s ∈ names) ->
  List.filter (fun s => negb (bool_decide (s ∈ names))) l = [].
Proof.
  induction l as [|s l IH]; intros Hl; [done|]. simpl.
  rewrite bool_decide_eq_true_2 by (apply Hl; left). simpl.
  apply IH. intros s' Hs'. apply Hl. by right.
Qed.

Lemma table_message_cases (lang : Py.str) :
  table_message lang $"codeframe" = codeframe_message lang
  /\ table_message lang $"question" = question_message lang
  /\ table_message lang $"data" = data_message lang.
Proof.
  unfold table_message.
  assert (bool_decide ($"codeframe" = $"codeframe") = true) as -> by by vm_compute.
  assert (bool_decide ($"question" = $"codeframe") = false) as -> by by vm_compute.
  assert (bool_decide ($"question" = $"question") = true) as -> by by vm_compute.
  assert (bool_decide ($"data" = $"codeframe") = false) as -> by by vm_compute.
  assert (bool_decide ($"data" = $"question") = false) as -> by by vm_compute.
  done.
Qed.

Lemma startswith_app_l (s p t : Py.str) :
  Py.startswith s p = true -> Py.startswith (s ++ t) p = true.
Proof.
  revert s. induction p as [|a p IH]; intros s; [intros _; by destruct (s ++ t)|].
  destruct s as [|b s]; [done|]. cbn [Py.startswith app].
  intros [Hab Hp]%andb_true_iff. by rewrite Hab, (IH s Hp).
Qed.

Lemma contains_app_l (p s t : Py.str) :
  Py.contains p s = true -> Py.contains p (s ++ t) = true.
Proof.
  induction s as [|c s IH].
  - cbn [Py.contains app]. rewrite orb_false_r. destruct p; [|done].
    intros _. by destruct t.
  - cbn [Py.contains app]. intros [Hs|Hc]%orb_true_iff.
    + pose proof (startswith_app_l (c :: s) p t Hs) as Hst. cbn [app] in Hst.
      by rewrite Hst.
    + rewrite (IH Hc). apply orb_true_r.
Qed.

Lemma contains_app_r (p s t : Py.str) :
  Py.contains p s = true -> Py.contains p (t ++ s) = true.
Proof.
  intros Hs. induction t as [|c t IH]; [done|].
  cbn [Py.contains app]. rewrite IH. apply orb_true_r.
Qed.

Lemma contains_refl (p : Py.str) : Py.contains p p = true.
Proof.
  assert (Py.startswith p p = true) as Hp.
  { induction p as [|a p IH]; [done|]. cbn [Py.startswith]. by rewrite N.eqb_refl. }
  destruct p; [done|]. cbn [Py.contains]. by rewrite Hp.
Qed.

(** Every joined text is part of the result of [join]. *)
Lemma contains_join (sep s : Py.str) (l : list Py.str) :
  s ∈ l -> Py.contains s (Py.join sep l) = true.
Proof.
  induction l as [|x l IH]; intros Hs; [by apply elem_of_nil in Hs|].
  destruct l as [|y l].
  - apply list_elem_of_singleton in Hs as ->. apply contains_refl.
  - change (Py.join sep (x :: y :: l)) with (x ++ sep ++ Py.join sep (y :: l)).
    apply elem_of_cons in Hs as [->|Hs].
    + apply contains_app_l, contains_refl.
    + by apply contains_app_r, contains_app_r, IH.
Qed.

(** C5, amended: validation aborts with exactly one message.  When
    required sheets are missing the message is the missing-sheets message,
    which names every missing sheet, and no column is checked.  When the
    workbook has its three sheets the message is that of the first table, in
    the order codeframe, question, data, that misses a required column; the
    message names that table with its whole list of required columns, and
    violations of later tables are not listed.  With no missing sheet and no
    failing table the run proceeds.  The message of a table names the table
    and each of its required columns, in both languages. *)
Theorem validate_reports_first_failing_table (lang : Py.str) (excel_data : workbook) :
  validate lang excel_data =
    match missing_sheets excel_data, failing_tables excel_data with
    | _ :: _, _ => Abort [missing_sheets_message lang (missing_sheets excel_data)]
    | [], table :: _ => Abort [table_message lang table]
    | [], [] => Proceed
    end
  /\ (forall s, s ∈ missing_sheets excel_data <->
                s ∈ required_sheets /\ (s ∉ sheet_names excel_data))
  /\ (forall s, s ∈ missing_sheets excel_data ->
        Py.contains s (missing_sheets_message lang (missing_sheets excel_data)) = true)
  /\ (forall tc col, tc ∈ required_columns -> col ∈ tc.2 ->
        mentions (table_message lang tc.1) (tc.1, col) = true).
Proof.
  split; [|split; [|split]].
  - unfold validate. cbv zeta. fold (missing_sheets excel_data).
    destruct (missing_sheets excel_data) as [|s missing]; [|done].
    change (negb (length (@nil Py.str) =? 0)%nat) with false. cbv iota.
    unfold failing_tables, required_columns.
    cbn [List.filter fst snd].
    destruct (table_message_cases lang) as (Hc & Hq & Hd).
    destruct (has_all (sheet_columns excel_data $"codeframe") _); cbn [negb].
    2:{ cbn [fmap list_fmap fst]. by rewrite Hc. }
    destruct (has_all (sheet_columns excel_data $"question") _); cbn [negb].
    2:{ cbn [fmap list_fmap fst]. by rewrite Hq. }
    unfold has_all at 1. cbn [forallb]. rewrite andb_true_r.
    destruct (bool_decide ($"ID" ∈ sheet_columns excel_data $"data")); cbn [negb].
    + done.
    + cbn [fmap list_fmap fst]. by rewrite Hd.
  - intros s. unfold missing_sheets. split.
    + intros Hs. apply list_elem_of_In, filter_In in Hs as [Hs Hn].
      split; [by apply list_elem_of_In|].
      by apply negb_true_iff, bool_decide_eq_false in Hn.
    + intros [Hs Hn]. apply list_elem_of_In, filter_In.
      split; [by apply list_elem_of_In|].
      by apply negb_true_iff, bool_decide_eq_false.
  - intros s Hs. unfold missing_sheets_message, trans.
    destruct (bool_decide (lang = $"fa"));
      by apply contains_app_r, contains_join.
  - intros tc col Htc Hcol. unfold required_columns in Htc.
    destruct (table_message_cases lang) as (Hc & Hq & Hd).
    apply list_elem_of_In in Htc. cbn [In] in Htc.
    destruct Htc as [<-|[<-|[<-|[]]]]; cbn [fst snd] in *;
      apply list_elem_of_In in Hcol; cbn [In] in Hcol;
      rewrite ?Hc, ?Hq, ?Hd;
      unfold codeframe_message, question_message, data_message, trans;
      destruct (bool_decide (lang = $"fa"));
      repeat (destruct Hcol as [<-|Hcol]; [by vm_compute|]); done.
Qed.

(** ** [parse_md_table] *)


Section ParseMdTableFacts.

Context {number : Type}.
Variable to_numeric : Py.str -> option number.
Variable astype_int : list (option number) -> number -> option Z.

Lemma omap_md_row_two (l : list (list Py.str)) :
  omap (md_row to_numeric) (List.filter (fun cells => (length cells =? 2)%nat) l)
    = omap (coded_row to_numeric) l.
Proof.
  induction l as [|cells l IH]; [done|].
  destruct cells as [|c [|label [|x cells]]];
    cbn [List.filter length Nat.eqb omap list_omap coded_row]; try exact IH.
  unfold md_row at 1. cbn [nth]. rewrite IH.
  by destruct (to_numeric c).
Qed.


(** The parser as a single pass over the data lines, followed by the cast
    of the codes. *)
Lemma parse_md_table_eq (md_table : Py.str) :
  parse_md_table to_numeric astype_int md_table =
    if (length (table_lines md_table) <? 2)%nat then Returned None
    else if bool_decide (header_of md_table = expected_cols) then
      match mapM (cast_row astype_int (coerced_codes to_numeric md_table))
                 (numeric_rows to_numeric md_table) with
      | None => Raised IntCastingNaNError
      | Some [] => Returned None
      | Some df_out => Returned (Some df_out)
      end
    else Returned None.
Proof.
  unfold parse_md_table. fold (table_lines md_table).
  destruct (length (table_lines md_table) <? 2)%nat eqn:Hlen; [done|].
  fold (header_of md_table).
  assert ((1 <? length (table_lines md_table))%nat = true) as ->.
  { apply Nat.ltb_ge in Hlen. apply Nat.ltb_lt. lia. }
  rewrite andb_true_l.
  replace (drop (if Py.contains $"---" (nth 1 (table_lines md_table) []) then 2%nat else 1%nat)
                (table_lines md_table)) with (data_lines_of md_table)
    by (unfold data_lines_of; by destruct (Py.contains _ _)).
  case_bool_decide as Hhead.
  - rewrite Hhead. change (length expected_cols) with 2%nat.
    change (List.map md_cells (data_lines_of md_table))
      with (md_cells <$> data_lines_of md_table).
    unfold numeric_rows, coerced_codes. rewrite <- omap_md_row_two.
    by destruct (List.filter _ _).
  - by destruct (List.filter _ _).
Qed.



Lemma parse_md_table_nonempty (md_table : Py.str) (df : list (Z * Py.str)) :
  parse_md_table to_numeric astype_int md_table = Returned (Some df) -> df <> [].
Proof.
  rewrite parse_md_table_eq.
  destruct (_ <? _)%nat; [done|]. case_bool_decide; [|done].
  destruct (mapM _ _) as [[|row df']|]; [done| |done]. by intros [= <-].
Qed.

Lemma parse_md_table_raises (md_table : Py.str) (e : exception) :
  parse_md_table to_numeric astype_int md_table = Raised e -> e = IntCastingNaNError.
Proof.
  rewrite parse_md_table_eq.
  destruct (_ <? _)%nat; [done|]. case_bool_decide; [|done].
  destruct (mapM _ _) as [[|row df']|]; [done|done|]. by intros [= <-].
Qed.

Lemma parse_md_table_fuel (md_table : Py.str) :
  parse_md_table to_numeric astype_int md_table <> OutOfFuel.
Proof.
  rewrite parse_md_table_eq.
  destruct (_ <? _)%nat; [done|]. case_bool_decide; [|done].
  by destruct (mapM _ _) as [[|row df']|].
Qed.

End ParseMdTableFacts.


(** ** The codebook summary *)

Lemma startswith_app (p s : Py.str) : Py.startswith (p ++ s) p = true.
Proof. induction p as [|a p IH]; [by destruct s|]. simpl. by rewrite N.eqb_refl. Qed.

Lemma filter_length_Permutation {A} (f : A -> bool) (l l' : list A) :
  l ≡ₚ l' -> length (List.filter f l) = length (List.filter f l').
Proof.
  induction 1 as [|x l l' _ IH|x y l|l l' l'' _ IH1 _ IH2]; simpl.
  - done.
  - destruct (f x); simpl; congruence.
  - destruct (f x), (f y); done.
  - congruence.
Qed.

Lemma filter_filter_absorb {A} (f g : A -> bool) (l : list A) :
  (forall x, f x = true -> g x = true) ->
  List.filter f (List.filter g l) = List.filter f l.
Proof.
  intros Hfg. induction l as [|x l IH]; [done|]. simpl.
  destruct (g x) eqn:Hg; simpl.
  - by rewrite IH.
  - destruct (f x) eqn:Hf; [|done]. apply Hfg in Hf. congruence.
Qed.

Lemma filter_fmap_snd {A B} (g : B -> bool) (l : list (A * B)) :
  (List.filter (fun p => g p.2) l).*2 = List.filter g l.*2.
Proof.
  induction l as [|[a b] l IH]; [done|].
  cbn [List.filter snd]. rewrite fmap_cons. cbn [List.filter snd].
  destruct (g b); rewrite ?fmap_cons, IH; done.
Qed.

Lemma bind_cons_split {A B} (a : A -> B) (g : A -> list B) (l : list A) :
  l ≫= (fun j => a j :: g j) ≡ₚ (a <$> l) ++ (l ≫= g).
Proof.
  induction l as [|x l IH]; [reflexivity|].
  rewrite !bind_cons, fmap_cons. simpl. constructor.
  rewrite IH. rewrite !app_assoc. apply Permutation_app_tail, Permutation_app_comm.
Qed.

Lemma lookup_seq_all {A} (r : list (option A)) :
  (fun j => mjoin (r !! j)) <$> seq 0 (length r) = r.
Proof.
  induction r as [|x r IH]; [done|]. simpl. f_equal.
  rewrite <- fmap_S_seq, <- list_fmap_compose. exact IH.
Qed.

(** Column after column or row after row, the cells are the same. *)
Lemma columns_rows_Permutation {A} (m : nat) (rs : list (list (option A))) :
  Forall (fun r => length r = m) rs ->
  seq 0 m ≫= (fun j => (fun r => mjoin (r !! j)) <$> rs) ≡ₚ mjoin rs.
Proof.
  induction 1 as [|r rs Hr _ IH]; simpl.
  - induction (seq 0 m) as [|j l IHl]; [reflexivity|]. by rewrite bind_cons.
  - rewrite bind_cons_split, IH. subst m. by rewrite lookup_seq_all.
Qed.

Lemma qid_cols_prefixed (qid : Py.str) (cols : list Py.str) (k : nat) :
  (forall c, c ∈ cols -> Py.startswith c (qid ++ $"_") = true) ->
  (List.filter (fun jc : nat * Py.str => Py.startswith jc.2 (qid ++ $"_"))
               (imap (fun j c => (k + j, c)%nat) cols)).*1 = seq k (length cols).
Proof.
  revert k. induction cols as [|c cols IH]; intros k Hall; [done|].
  rewrite imap_cons. cbn [List.filter snd].
  rewrite (Hall c (list_elem_of_here _ _)). cbn [fmap list_fmap fst length seq].
  rewrite Nat.add_0_r. f_equal.
  rewrite <- (IH (S k)) by (intros c' Hc'; apply Hall; by right).
  do 2 f_equal. apply imap_ext. intros j x _. simpl. f_equal. lia.
Qed.

Section SummaryFacts.

Variable to_numeric : Py.str -> option Z.

Lemma parse_output_ok (output qid : Py.str) :
  frame_ok qid (parse_output to_numeric output qid).
Proof.
  unfold parse_output.
  destruct (parse_parts _ _ _) as [data m].
  destruct data as [|d data].
  { split; [intros c Hc; by apply elem_of_nil in Hc|constructor]. }
  set (ds := d :: data). clearbody ds. split.
  - cbn [columns tl]. intros c Hc.
    apply list_elem_of_In, in_map_iff in Hc as (i & <- & _).
    unfold code_column. rewrite app_assoc. apply startswith_app.
  - unfold width. cbn [columns rows tl]. rewrite length_map, length_seq.
    unfold dropna_ID. apply Forall_forall. intros r Hr.
    apply list_elem_of_omap in Hr as (r0 & Hr0 & Hsome).
    apply list_elem_of_In, in_map_iff in Hr0 as (d0 & <- & _).
    unfold parsed_row in Hsome. cbn [fst snd] in Hsome.
    destruct (to_numeric d0.1); [|done]. injection Hsome as <-.
    cbn [snd]. by rewrite length_map, length_seq.
Qed.

End SummaryFacts.

Lemma fmap_bind_list {A B C} (f : B -> C) (g : A -> list B) (l : list A) :
  f <$> (l ≫= g) = l ≫= (fun x => f <$> g x).
Proof.
  induction l as [|x l IH]; [done|]. by rewrite !bind_cons, fmap_app, IH.
Qed.

Lemma filter_length_fmap {A B} (f : A -> B) (g : B -> bool) (l : list A) :
  length (List.filter g (f <$> l)) = length (List.filter (fun x => g (f x)) l).
Proof.
  induction l as [|x l IH]; [done|]. rewrite fmap_cons. cbn [List.filter].
  destruct (g (f x)); cbn [length]; by rewrite IH.
Qed.

Section CountFacts.

Variable to_numeric : Py.str -> option Z.

Lemma melted_codes_snd (qid : Py.str) (df : frame) :
  frame_ok qid df ->
  (melted_codes to_numeric qid df).*2
    = List.filter (usable to_numeric)
        (cell_code <$> (seq 0 (width df) ≫= fun j =>
                          (fun r => mjoin (r !! j)) <$> (rows df).*2)).
Proof.
  intros [Hcols _]. unfold melted_codes.
  rewrite (filter_fmap_snd (usable to_numeric)). f_equal.
  unfold melt, qid_cols.
  pose proof (qid_cols_prefixed qid (tl (columns df)) 0 Hcols) as Hq.
  cbn [Nat.add] in Hq. rewrite Hq. fold (width df).
  rewrite <- !list_fmap_compose, !fmap_bind_list.
  apply list_bind_ext; [|done]. intros j.
  by rewrite <- !list_fmap_compose.
Qed.

(** The count computed for a code is the number of its cells. *)
Lemma melted_count (qid : Py.str) (df : frame) (code : Py.str) :
  frame_ok qid df ->
  code ∈ (melted_codes to_numeric qid df).*2 ->
  length (List.filter (fun x => bool_decide (x = code))
                      (melted_codes to_numeric qid df).*2)
    = occurrences df code.
Proof.
  intros Hok Hin. rewrite (melted_codes_snd qid df Hok) in *.
  apply list_elem_of_In, filter_In in Hin as [_ Huse].
  rewrite filter_filter_absorb
    by (intros x Hx; apply bool_decide_eq_true in Hx; by subst).
  rewrite filter_length_fmap. unfold occurrences.
  apply filter_length_Permutation, columns_rows_Permutation.
  destruct Hok as [_ Hrows]. apply Forall_fmap.
  eapply Forall_impl; [exact Hrows|]. done.
Qed.

Lemma unique_elem_of {A} `{EqDecision A} (l : list A) (x : A) : x ∈ unique l <-> x ∈ l.
Proof.
  induction l as [|a l IH]; [done|]. cbn [unique].
  rewrite !elem_of_cons, <- IH. split.
  - intros [->|Hx]; [by left|]. right.
    by apply list_elem_of_In, filter_In in Hx as [Hx%list_elem_of_In _].
  - intros [->|Hx]; [by left|].
    destruct (decide (x = a)) as [->|Hne]; [by left|]. right.
    apply list_elem_of_In, filter_In. split; [by apply list_elem_of_In|].
    by rewrite bool_decide_eq_false_2.
Qed.

Lemma NoDup_filter_bool {A} (f : A -> bool) (l : list A) :
  NoDup l -> NoDup (List.filter f l).
Proof.
  induction 1 as [|x l Hx _ IH]; [constructor|]. cbn [List.filter].
  destruct (f x); [|done]. constructor; [|done].
  intros Hin. apply Hx.
  by apply list_elem_of_In, filter_In in Hin as [Hin%list_elem_of_In _].
Qed.

Lemma unique_NoDup {A} `{EqDecision A} (l : list A) : NoDup (unique l).
Proof.
  induction l as [|a l IH]; [constructor|]. cbn [unique].
  constructor; [|by apply NoDup_filter_bool].
  intros Hin. apply list_elem_of_In, filter_In in Hin as [_ Hne].
  by rewrite bool_decide_eq_true_2 in Hne.
Qed.

Lemma insert_count_Permutation (x : Py.str * nat) (l : list (Py.str * nat)) :
  insert_count x l ≡ₚ x :: l.
Proof.
  induction l as [|y l IH]; [done|]. cbn [insert_count].
  destruct (y.2 <=? x.2)%nat; [done|]. by rewrite IH, Permutation_swap.
Qed.

Lemma sort_counts_Permutation (l : list (Py.str * nat)) : sort_counts l ≡ₚ l.
Proof.
  induction l as [|x l IH]; [done|]. unfold sort_counts in *. cbn [foldr].
  by rewrite insert_count_Permutation, IH.
Qed.

Lemma insert_count_Sorted (x : Py.str * nat) (l : list (Py.str * nat)) :
  Sorted count_ge l -> Sorted count_ge (insert_count x l).
Proof.
  induction l as [|y l IH]; intros Hl; [by repeat constructor|].
  cbn [insert_count]. destruct (y.2 <=? x.2)%nat eqn:Hle.
  - apply Nat.leb_le in Hle. constructor; [done|]. by constructor.
  - apply Nat.leb_gt in Hle. apply Sorted_inv in Hl as [Hl Hhd].
    constructor; [by apply IH|].
    destruct l as [|z l]; cbn [insert_count].
    + constructor. unfold count_ge. lia.
    + apply HdRel_inv in Hhd. destruct (z.2 <=? x.2)%nat.
      * constructor. unfold count_ge. lia.
      * by constructor.
Qed.

Lemma sort_counts_Sorted (l : list (Py.str * nat)) : Sorted count_ge (sort_counts l).
Proof.
  induction l as [|x l IH]; [constructor|]. unfold sort_counts in *. cbn [foldr].
  by apply insert_count_Sorted.
Qed.

Lemma code_counts_row (codeframe_df : list codeframe_row) (total_ids : nat)
    (qid : Py.str) (df : frame) (row : summary_row) :
  row ∈ code_counts to_numeric codeframe_df total_ids qid df ->
  s_QID row = qid
  /\ s_Code row ∈ (melted_codes to_numeric qid df).*2
  /\ s_Count row
     = length (List.filter (fun x => bool_decide (x = s_Code row))
                           (melted_codes to_numeric qid df).*2)
  /\ s_Ratio row = ratio (s_Count row) total_ids.
Proof.
  unfold code_counts, value_counts. intros Hrow.
  apply list_elem_of_fmap in Hrow as ([c n] & -> & Hcn).
  rewrite sort_counts_Permutation in Hcn.
  apply list_elem_of_fmap in Hcn as (c' & [= -> ->] & Hc').
  apply (proj1 (unique_elem_of _ _)) in Hc'.
  cbn [s_QID s_Code s_Count s_Ratio fst snd]. done.
Qed.

(** *** What the loop over the questions keeps *)

Variable net : transport.
Variable prompt_of : Py.str -> Py.str.

Lemma coding_question_retained fuel st qid w st' w' :
  retained st ->
  coding_question to_numeric net prompt_of fuel st qid w = (Returned st', w') ->
  retained st'.
Proof.
  intros Hst Hq.
  apply coding_question_outcome in Hq as [->|(output & Hempty & ->)]; [done|].
  unfold retained. cbn [mark_processed processed_qids dfs].
  apply Forall2_app; [exact Hst|].
  constructor; [|constructor]. split; [apply parse_output_ok|exact Hempty].
Qed.

Lemma coding_loop_retained fuel qids : forall st w st' w',
  retained st ->
  coding_loop to_numeric net prompt_of fuel st qids w = (Returned st', w') ->
  retained st'.
Proof.
  induction qids as [|qid qids IH]; intros st w st' w' Hst.
  - by intros [= <- <-].
  - cbn [coding_loop]. unfold mbind at 1, io_bind at 1.
    destruct (coding_question _ _ _ _ _ _ _) as [[st1|e1|] w1] eqn:Hq;
      [|intros [=]|intros [=]].
    apply IH. eapply coding_question_retained; eauto.
Qed.

Lemma summary_row_frame (codeframe_df : list codeframe_row) (total_ids : nat)
    (qids : list Py.str) (frames : list frame) (row : summary_row) :
  row ∈ mjoin (zip_with (code_counts to_numeric codeframe_df total_ids) qids frames) ->
  exists i qid df,
    qids !! i = Some qid /\ frames !! i = Some df
    /\ row ∈ code_counts to_numeric codeframe_df total_ids qid df.
Proof.
  intros Hrow. apply list_elem_of_join in Hrow as (l & Hrow & Hl).
  apply elem_of_lookup_zip_with in Hl as (i & qid & df & -> & Hq & Hd).
  eauto 10.
Qed.

End CountFacts.

(** *** The merged table *)

Lemma rows_of_nonempty (k : Z) (df : frame) : k ∈ IDs df -> rows_of k df <> [].
Proof.
  unfold IDs, rows_of. intros Hk.
  apply list_elem_of_fmap in Hk as ([k' cells] & -> & Hr). cbn [fst].
  assert ((k', cells) ∈ List.filter (fun r : Z * list (option Py.str) =>
                                      bool_decide (r.1 = k')) (rows df)) as Hin.
  { apply list_elem_of_In, filter_In. split; [by apply list_elem_of_In|].
    by apply bool_decide_eq_true. }
  destruct (List.filter _ _); [by apply elem_of_nil in Hin|done].
Qed.

Lemma merge_outer_columns (left right : frame) :
  columns (merge_outer left right) = columns left ++ tl (columns right).
Proof. reflexivity. Qed.

(** The identifiers of an outer join are those of its two sides. *)
Lemma merge_outer_IDs (left right : frame) (x : Z) :
  x ∈ IDs (merge_outer left right) <-> x ∈ IDs left \/ x ∈ IDs right.
Proof.
  unfold merge_outer. unfold IDs at 1. cbn [rows].
  rewrite list_elem_of_fmap. split.
  - intros ([k cells] & -> & Hin). cbn [fst].
    apply list_elem_of_bind in Hin as (k' & Hrow & Hk').
    rewrite merge_sort_Permutation, elem_of_remove_dups, elem_of_app in Hk'.
    assert (k = k') as ->; [|done].
    destruct (rows_of k' left) as [|l ls], (rows_of k' right) as [|r rs].
    + by apply elem_of_nil in Hrow.
    + by apply list_elem_of_fmap in Hrow as (? & [= -> _] & _).
    + by apply list_elem_of_fmap in Hrow as (? & [= -> _] & _).
    + apply list_elem_of_bind in Hrow as (? & Hrow & _).
      by apply list_elem_of_fmap in Hrow as (? & [= -> _] & _).
  - intros Hx.
    assert (x ∈ merge_sort Z.le (remove_dups (IDs left ++ IDs right))) as Hkey
      by by rewrite merge_sort_Permutation, elem_of_remove_dups, elem_of_app.
    assert (rows_of x left <> [] \/ rows_of x right <> []) as Hne
      by (destruct Hx; [left|right]; by apply rows_of_nonempty).
    destruct (rows_of x left) as [|l ls] eqn:Hl, (rows_of x right) as [|r rs] eqn:Hr.
    + by destruct Hne.
    + exists (x, replicate (width left) None ++ r). split; [done|].
      apply list_elem_of_bind. exists x. split; [|done]. rewrite Hl, Hr. left.
    + exists (x, l ++ replicate (width right) None). split; [done|].
      apply list_elem_of_bind. exists x. split; [|done]. rewrite Hl, Hr. left.
    + exists (x, l ++ r). split; [done|].
      apply list_elem_of_bind. exists x. split; [|done]. rewrite Hl, Hr.
      rewrite bind_cons. apply elem_of_app. left. left.
Qed.

Lemma foldl_merge_outer_IDs (frames : list frame) : forall (df0 : frame) (x : Z),
  x ∈ IDs (foldl merge_outer df0 frames)
  <-> x ∈ IDs df0 \/ exists df, df ∈ frames /\ x ∈ IDs df.
Proof.
  induction frames as [|df frames IH]; intros df0 x; cbn [foldl].
  - split; [by left|]. intros [?|(df & Hdf & _)]; [done|by apply elem_of_nil in Hdf].
  - rewrite IH, merge_outer_IDs. split.
    + intros [[?|?]|(df' & Hdf' & ?)]; [by left|right..].
      * exists df. split; [left|done].
      * exists df'. split; [by right|done].
    + intros [?|(df' & Hdf' & ?)]; [by left; left|].
      apply elem_of_cons in Hdf' as [->|Hdf']; [by left; right|].
      right. by exists df'.
Qed.

Lemma foldl_merge_outer_columns (frames : list frame) : forall df0 : frame,
  columns df0 <> [] -> columns (foldl merge_outer df0 frames) <> [].
Proof.
  induction frames as [|df frames IH]; intros df0 Hc; [done|].
  cbn [foldl]. apply IH. rewrite merge_outer_columns. by destruct (columns df0).
Qed.

Lemma sort_values_ID_IDs (df : frame) (x : Z) :
  x ∈ IDs (sort_values_ID df) <-> x ∈ IDs df.
Proof.
  unfold IDs, sort_values_ID. cbn [rows]. by rewrite merge_sort_Permutation.
Qed.

Lemma frame_empty_false (df : frame) :
  frame_empty df = false <-> columns df <> [] /\ rows df <> [].
Proof.
  unfold frame_empty. destruct (columns df), (rows df); split; try done.
  all: intros [? ?]; done.
Qed.

(** The merged table of the retained frames: not empty, and holding exactly
    their identifiers. *)
Lemma merged_frames (frames : list frame) (merged : frame) :
  Forall (fun df => frame_empty df = false) frames ->
  reduce merge_outer frames = Some merged ->
  frame_empty (sort_values_ID merged) = false
  /\ forall x, x ∈ IDs (sort_values_ID merged) <-> exists df, df ∈ frames /\ x ∈ IDs df.
Proof.
  intros Hall Hred. destruct frames as [|df0 frames]; [done|].
  injection Hred as <-.
  apply Forall_cons in Hall as [H0 _]. apply frame_empty_false in H0 as [Hc0 Hr0].
  assert (forall x, x ∈ IDs (sort_values_ID (foldl merge_outer df0 frames))
                    <-> exists df, df ∈ df0 :: frames /\ x ∈ IDs df) as HIDs.
  { intros x. rewrite sort_values_ID_IDs, foldl_merge_outer_IDs. split.
    - intros [?|(df & Hdf & ?)]; [exists df0; split; [left|done]|].
      exists df. split; [by right|done].
    - intros (df & Hdf & ?). apply elem_of_cons in Hdf as [->|Hdf]; [by left|].
      right. by exists df. }
  split; [|exact HIDs].
  apply frame_empty_false. split.
  - cbn [sort_values_ID columns]. by apply foldl_merge_outer_columns.
  - destruct (rows df0) as [|[k cells] rs] eqn:Hrows0; [done|].
    assert (k ∈ IDs (sort_values_ID (foldl merge_outer df0 frames))) as Hk.
    { apply HIDs. exists df0. split; [left|]. unfold IDs. rewrite Hrows0. left. }
    unfold IDs in Hk. intros Hnil. rewrite Hnil in Hk. by apply elem_of_nil in Hk.
Qed.

(** When no identifier repeats and no row holds a code twice, the cells
    holding the code are as many as the respondents assigned it. *)
Lemma occurrences_respondents (df : frame) (code : Py.str) :
  NoDup (IDs df) ->
  (forall r, r ∈ rows df ->
     (length (List.filter (fun c => bool_decide (cell_code c = code)) r.2) <= 1)%nat) ->
  occurrences df code = respondents_with df code.
Proof.
  unfold occurrences, respondents_with, IDs.
  induction (rows df) as [|r rs IH]; intros Hnd Hone; [done|].
  rewrite fmap_cons in Hnd. apply NoDup_cons in Hnd as [Hr Hnd].
  specialize (IH Hnd (fun r' Hr' => Hone r' (list_elem_of_further _ _ _ Hr'))).
  specialize (Hone r (list_elem_of_here _ _)).
  rewrite fmap_cons.
  change (mjoin (r.2 :: rs.*2)) with (r.2 ++ mjoin rs.*2).
  rewrite List.filter_app, length_app, IH.
  cbn [List.filter].
  destruct (List.filter (fun c => bool_decide (cell_code c = code)) r.2)
    as [|c cs] eqn:Hcells.
  - rewrite bool_decide_eq_false_2; [done|].
    intros Hin. apply list_elem_of_fmap in Hin as (c & -> & Hc).
    assert (c ∈ List.filter (fun c0 => bool_decide (cell_code c0 = cell_code c)) r.2)
      as Hc'
      by (apply list_elem_of_In, filter_In; split;
          [by apply list_elem_of_In|by apply bool_decide_eq_true]).
    rewrite Hcells in Hc'. by apply elem_of_nil in Hc'.
  - destruct cs; [|simpl in Hone; lia].
    rewrite bool_decide_eq_true_2.
    2:{ assert (c ∈ List.filter (fun c0 => bool_decide (cell_code c0 = code)) r.2)
          as Hc by (rewrite Hcells; left).
        apply list_elem_of_In, filter_In in Hc as [Hc Heq].
        apply bool_decide_eq_true in Heq. subst code.
        apply list_elem_of_fmap_2. by apply list_elem_of_In. }
    rewrite fmap_cons. cbn [remove_dups].
    destruct (decide_rel elem_of r.1 _) as [Hin|_]; [|done].
    exfalso. apply Hr.
    apply list_elem_of_fmap in Hin as (r' & -> & Hr').
    apply list_elem_of_fmap_2.
    apply list_elem_of_In, filter_In in Hr' as [Hr' _]. by apply list_elem_of_In.
Qed.

Lemma retained_initial : retained initial_state.
Proof. constructor. Qed.

Lemma retained_lookup (st : coding_state) (i : nat) (qid : Py.str) (df : frame) :
  retained st ->
  processed_qids st !! i = Some qid -> dfs st !! i = Some df ->
  frame_ok qid df /\ frame_empty df = false.
Proof.
  intros Hst Hq Hd. unfold retained in Hst.
  by apply (Forall2_lookup_lr _ _ _ _ _ _ Hst Hq Hd).
Qed.

Lemma retained_frames (st : coding_state) :
  retained st -> Forall (fun df => frame_empty df = false) (dfs st).
Proof.
  unfold retained. generalize (processed_qids st) (dfs st).
  induction 1 as [|qid df qids frames [_ Hne] _ IH]; constructor; done.
Qed.

(** C7, as stated, fails: for the reply "1,5,5" one respondent is assigned
    the code "5", and the summary row of that code has Count 2. *)
Lemma count_example_counts_cells :
  code_counts to_numeric_int [] 1 $"Q1" (parse_output to_numeric_int $"1,5,5" $"Q1")
    = [SummaryRow $"Q1" $"5" [] [] 2 (truediv 2 1)]
  /\ respondents_with (parse_output to_numeric_int $"1,5,5" $"Q1") $"5" = 1%nat.
Proof. split; by vm_compute. Qed.

(** C7, amended: for every row of the codebook summary of a run, Count is
    the number of code cells of the frame of the row's question that hold
    the row's code (after trimming): every occurrence counts, so a
    respondent whose reply lists the same code twice for a question
    contributes 2.  Count is the number of respondents assigned the code
    when no respondent identifier repeats in the frame and no row holds the
    code twice. *)
Theorem summary_count_is_occurrences (to_numeric : Py.str -> option Z)
    (net : transport) (prompt_of : Py.str -> Py.str) (fuel : nat)
    (codeframe_df : list codeframe_row) (unique_qids : list Py.str)
    (w w' : world) (st : coding_state)
    (triple : frame) (summary : list summary_row) (processed failed : list Py.str)
    (row : summary_row) :
  coding_loop to_numeric net prompt_of fuel initial_state unique_qids w = (Returned st, w') ->
  coding_outputs to_numeric codeframe_df st = Outputs triple summary processed failed ->
  row ∈ summary ->
  exists i df,
    processed_qids st !! i = Some (s_QID row)
    /\ dfs st !! i = Some df
    /\ s_Count row = occurrences df (s_Code row)
    /\ (NoDup (IDs df) ->
        (forall r, r ∈ rows df ->
           (length (List.filter (fun c => bool_decide (cell_code c = s_Code row)) r.2)
            <= 1)%nat) ->
        s_Count row = respondents_with df (s_Code row)).
Proof.
  intros Hrun Hout Hrow.
  pose proof (coding_loop_retained _ _ _ _ _ _ _ _ _ retained_initial Hrun) as Hst.
  unfold coding_outputs in Hout.
  destruct (reduce merge_outer (dfs st)) as [merged|]; [|done].
  injection Hout as _ <- _ _.
  apply summary_row_frame in Hrow as (i & qid & df & Hq & Hd & Hrow).
  apply code_counts_row in Hrow as (Hqid & Hcode & Hcount & _).
  destruct (retained_lookup st i qid df Hst Hq Hd) as [Hok _].
  assert (s_Count row = occurrences df (s_Code row)) as Hocc
    by (rewrite Hcount; by apply melted_count with (qid := qid)).
  exists i, df. rewrite Hqid. split; [done|]. split; [done|]. split; [done|].
  intros Hnd Hone. rewrite Hocc. by apply occurrences_respondents.
Qed.

(** C8, as stated, fails: for the reply "1,5,5;2,7" the code "5" is
    assigned to 1 of the 2 respondents of the merged table, and its Ratio
    is the quotient 2 / 2 (1.0), not 1 / 2 (0.5). *)
Lemma ratio_example_not_respondent_share :
  coding_outputs to_numeric_int [] repeated_code_state
    = Outputs repeated_code_triple repeated_code_summary [$"Q1"] []
  /\ SummaryRow $"Q1" $"5" [] [] 2 (truediv 2 2) ∈ repeated_code_summary
  /\ respondents_with repeated_code_triple $"5" = 1%nat
  /\ length (remove_dups (IDs repeated_code_triple)) = 2%nat
  /\ s_Ratio (SummaryRow $"Q1" $"5" [] [] 2 (truediv 2 2)) <> truediv 1 2.
Proof.
  split; [by vm_compute|]. split; [left|].
  split; [by vm_compute|]. split; by vm_compute.
Qed.

(** C8, amended: for every row of the codebook summary of a run, Ratio is
    the float64 quotient Count / n (the binary64 number nearest to the exact
    quotient) of the row's Count (the number of cells holding the code) by
    the number n of distinct RespondentIds of the triple table, which are
    the identifiers of the retained frames; n is never 0 when a summary is
    built, and for n = 0 the quotient is replaced by 0. *)
Theorem summary_ratio_is_count_over_ids (to_numeric : Py.str -> option Z)
    (net : transport) (prompt_of : Py.str -> Py.str) (fuel : nat)
    (codeframe_df : list codeframe_row) (unique_qids : list Py.str)
    (w w' : world) (st : coding_state)
    (triple : frame) (summary : list summary_row) (processed failed : list Py.str)
    (row : summary_row) :
  coding_loop to_numeric net prompt_of fuel initial_state unique_qids w = (Returned st, w') ->
  coding_outputs to_numeric codeframe_df st = Outputs triple summary processed failed ->
  row ∈ summary ->
  let n := length (remove_dups (IDs triple)) in
  (0 < n)%nat
  /\ s_Ratio row = truediv (s_Count row) n
  /\ (forall x, x ∈ IDs triple <-> exists df, df ∈ dfs st /\ x ∈ IDs df)
  /\ (forall count, ratio count 0 = float_of_nat 0).
Proof.
  intros Hrun Hout Hrow n.
  pose proof (coding_loop_retained _ _ _ _ _ _ _ _ _ retained_initial Hrun) as Hst.
  unfold coding_outputs in Hout.
  destruct (reduce merge_outer (dfs st)) as [merged|] eqn:Hred; [|done].
  injection Hout as <- <- _ _.
  destruct (merged_frames _ _ (retained_frames st Hst) Hred) as [Hne HIDs].
  assert (0 < n)%nat as Hn.
  { apply frame_empty_false in Hne as [_ Hrows]. subst n. unfold IDs.
    destruct (rows (sort_values_ID merged)) as [|r rs]; [done|].
    assert (r.1 ∈ remove_dups (r :: rs).*1) as Hin
      by (apply elem_of_remove_dups; left).
    destruct (remove_dups _); [by apply elem_of_nil in Hin|simpl; lia]. }
  split; [exact Hn|]. split; [|split; [exact HIDs|done]].
  apply summary_row_frame in Hrow as (i & qid & df & Hq & Hd & Hrow).
  apply code_counts_row in Hrow as (_ & _ & _ & ->).
  unfold total_ids_of. rewrite Hne. fold n. unfold ratio.
  by rewrite (proj2 (Nat.ltb_lt 0 n) Hn).
Qed.

Lemma repeated_code_run :
  coding_loop to_numeric_int repeated_code_net (fun _ => $"p") (S max_retries)
              initial_state [$"Q1"] (World 0 [])
    = (Returned repeated_code_state, World 1 [Post (Request $"p" 2000%N)]).
Proof. by vm_compute. Qed.

Lemma repeated_code_outputs :
  coding_outputs to_numeric_int [] repeated_code_state
    = Outputs repeated_code_triple repeated_code_summary [$"Q1"] [].
Proof. by vm_compute. Qed.

Lemma three_question_run :
  coding_loop to_numeric_int two_answers_net (fun _ => $"p") (S max_retries)
              initial_state [$"Q1"; $"Q2"; $"Q3"] (World 0 [])
    = (Returned three_question_state, three_question_world).
Proof. by vm_compute. Qed.

Lemma three_question_outputs :
  coding_outputs to_numeric_int [] three_question_state
    = Outputs three_question_triple three_question_summary [$"Q1"; $"Q2"] [$"Q3"].
Proof. by vm_compute. Qed.

Lemma summary_count_is_occurrences_witness :
  exists i df,
    processed_qids repeated_code_state !! i
      = Some (s_QID (SummaryRow $"Q1" $"5" [] [] 2 (truediv 2 2)))
    /\ dfs repeated_code_state !! i = Some df
    /\ s_Count (SummaryRow $"Q1" $"5" [] [] 2 (truediv 2 2))
       = occurrences df (s_Code (SummaryRow $"Q1" $"5" [] [] 2 (truediv 2 2)))
    /\ (NoDup (IDs df) ->
        (forall r, r ∈ rows df ->
           (length (List.filter
                      (fun c => bool_decide
                         (cell_code c = s_Code (SummaryRow $"Q1" $"5" [] [] 2 (truediv 2 2))))
                      r.2)
            <= 1)%nat) ->
        s_Count (SummaryRow $"Q1" $"5" [] [] 2 (truediv 2 2))
        = respondents_with df (s_Code (SummaryRow $"Q1" $"5" [] [] 2 (truediv 2 2)))).
Proof.
  apply (summary_count_is_occurrences to_numeric_int repeated_code_net (fun _ => $"p")
           (S max_retries) [] [$"Q1"] (World 0 [])
           (World 1 [Post (Request $"p" 2000%N)]) repeated_code_state
           repeated_code_triple repeated_code_summary [$"Q1"] []).
  - exact repeated_code_run.
  - exact repeated_code_outputs.
  - left.
Defined.

Lemma summary_ratio_is_count_over_ids_witness :
  let n := length (remove_dups (IDs repeated_code_triple)) in
  (0 < n)%nat
  /\ s_Ratio (SummaryRow $"Q1" $"7" [] [] 1 (truediv 1 2))
     = truediv (s_Count (SummaryRow $"Q1" $"7" [] [] 1 (truediv 1 2))) n
  /\ (forall x, x ∈ IDs repeated_code_triple
                <-> exists df, df ∈ dfs repeated_code_state /\ x ∈ IDs df)
  /\ (forall count, ratio count 0 = float_of_nat 0).
Proof.
  apply (summary_ratio_is_count_over_ids to_numeric_int repeated_code_net (fun _ => $"p")
           (S max_retries) [] [$"Q1"] (World 0 [])
           (World 1 [Post (Request $"p" 2000%N)]) repeated_code_state
           repeated_code_triple repeated_code_summary [$"Q1"] []).
  - exact repeated_code_run.
  - exact repeated_code_outputs.
  - right. left.
Defined.

(** ** More on [parse_output] *)

Lemma lstrip_blank (s : Py.str) : blank s = true -> Py.lstrip s = [].
Proof.
  induction s as [|c s IH]; [done|]. cbn [blank forallb Py.lstrip].
  intros [Hc Hs]%andb_true_iff. rewrite Hc. by apply IH.
Qed.

Lemma lstrip_not_blank (s : Py.str) : blank s = false -> Py.lstrip s <> [].
Proof.
  induction s as [|c s IH]; [done|]. cbn [blank forallb Py.lstrip].
  destruct (Py.isspace c); [exact IH|done].
Qed.

(** A text is empty once trimmed exactly when it is blank. *)
Lemma truthy_strip (s : Py.str) : Py.truthy (Py.strip s) = negb (blank s).
Proof.
  unfold Py.strip, Py.rstrip.
  destruct (blank s) eqn:Hb.
  - by rewrite (lstrip_blank s Hb).
  - pose proof (lstrip_not_blank s Hb) as Hne.
    assert (blank (rev (Py.lstrip s)) = false) as Hrev.
    { destruct (Py.lstrip s) as [|c t] eqn:Hl; [done|].
      assert (Py.isspace c = false) as Hc.
      { clear -Hl. induction s as [|a s IH]; [done|]. cbn [Py.lstrip] in Hl.
        destruct (Py.isspace a) eqn:Ha; [by apply IH|]. by injection Hl as <- _. }
      unfold blank. apply not_true_iff_false. intros Hall.
      rewrite forallb_forall in Hall.
      specialize (Hall c). rewrite Hc in Hall. discriminate Hall.
      apply in_rev. rewrite rev_involutive. by left. }
    apply lstrip_not_blank in Hrev.
    destruct (rev (Py.lstrip (rev (Py.lstrip s)))) eqn:Hr; [|done].
    apply (f_equal (@rev N)) in Hr. rewrite rev_involutive in Hr. done.
Qed.

Lemma split_length (sep : N) (s : Py.str) :
  length (Py.split sep s) = S (length (List.filter (fun c => (c =? sep)%N) s)).
Proof.
  induction s as [|c s IH]; [done|]. cbn [Py.split List.filter].
  destruct (c =? sep)%N; cbn [length]; [by rewrite IH|].
  destruct (Py.split sep s); [done|]. exact IH.
Qed.

Section ParseOutputFacts.

Variable to_numeric : Py.str -> option Z.

Lemma parse_parts_segments (parts : list Py.str) :
  forall (data : list (Py.str * list Py.str)) (m : nat),
  parse_parts parts data m
    = (data ++ omap segment parts, Nat.max m (most_codes (omap segment parts))).
Proof.
  induction parts as [|part parts IH]; intros data m.
  - cbn. by rewrite app_nil_r, Nat.max_0_r.
  - cbn [parse_parts omap list_omap].
    assert (segment part =
              if Py.truthy (Py.strip part)
                 && (2 <=? length (Py.split 44 (Py.strip part)))%nat
              then Some (Py.strip (hd [] (Py.split 44 (Py.strip part))),
                         List.filter Py.truthy
                           (List.map Py.strip (tl (Py.split 44 (Py.strip part)))))
              else None) as Hseg by reflexivity.
    rewrite Nat.ltb_antisym.
    destruct (Py.truthy (Py.strip part)); cbn [negb andb] in *;
      [|rewrite Hseg; apply IH].
    destruct (2 <=? length (Py.split 44 (Py.strip part)))%nat; cbn [negb] in *;
      [|rewrite Hseg; apply IH].
    rewrite Hseg, IH. cbn [most_codes foldr snd].
    by rewrite <- app_assoc, Nat.max_assoc.
Qed.

Lemma most_codes_upper (data : list (Py.str * list Py.str)) (d : Py.str * list Py.str) :
  d ∈ data -> (length d.2 <= most_codes data)%nat.
Proof.
  induction data as [|d' data IH]; intros Hd; [by apply elem_of_nil in Hd|].
  cbn [most_codes foldr]. apply elem_of_cons in Hd as [->|Hd]; [lia|].
  specialize (IH Hd). unfold most_codes in IH. lia.
Qed.

Lemma lookup_padded (codes : list Py.str) : forall (j m : nat),
  (length codes <= m)%nat ->
  List.map (fun i => codes !! (i - j)%nat) (seq j m) = padded m codes.
Proof.
  induction codes as [|c codes IH]; intros j m Hm.
  - unfold padded. cbn [fmap list_fmap length app]. rewrite Nat.sub_0_r.
    clear Hm. rewrite (map_ext _ (fun _ => None)) by (intros i; apply lookup_nil).
    revert j. induction m as [|m IHm]; intros j; [done|].
    cbn [seq List.map replicate]. f_equal. apply IHm.
  - destruct m as [|m]; [cbn in Hm; lia|].
    cbn [seq List.map]. rewrite Nat.sub_diag. cbn [lookup list_lookup].
    transitivity (Some c :: padded m codes); [|reflexivity]. f_equal.
    rewrite <- (IH (S j) m) by (cbn in Hm; lia).
    apply map_ext_in. intros i Hi. apply in_seq in Hi.
    by replace (i - j)%nat with (S (i - S j)) by lia.
Qed.

(** The frame as one pass over the segments of the reply. *)
Lemma parse_output_segments (output qid : Py.str) :
  parse_output to_numeric output qid =
    match segments output with
    | [] => empty_frame
    | data =>
      Frame ($"ID" :: List.map (code_column qid) (seq 0 (most_codes data)))
            (omap (fun d => (fun z => (z, padded (most_codes data) d.2))
                              <$> to_numeric d.1) data)
    end.
Proof.
  unfold parse_output, segments. rewrite parse_parts_segments.
  cbn [app Nat.max].
  set (data := omap segment _). destruct data as [|d0 data0] eqn:Hdata; [done|].
  rewrite <- Hdata. f_equal.
  assert (forall l : list (Py.str * list Py.str),
            (forall d, d ∈ l -> d ∈ data) ->
            dropna_ID (List.map (parsed_row to_numeric (most_codes data)) l)
            = omap (fun d => (fun z => (z, padded (most_codes data) d.2))
                               <$> to_numeric d.1) l) as Hgen.
  { induction l as [|d l IH]; intros Hl; [done|].
    cbn [List.map]. unfold dropna_ID in *. cbn [omap list_omap].
    rewrite IH by (intros d' Hd'; apply Hl; by right).
    unfold parsed_row at 1. cbn [fst snd].
    pose proof (lookup_padded d.2 0 (most_codes data)
                  (most_codes_upper data d (Hl d (list_elem_of_here _ _)))) as Hpad.
    rewrite <- Hpad.
    replace (List.map (fun i => d.2 !! (i - 0)%nat) (seq 0 (most_codes data)))
      with (List.map (fun i => d.2 !! i) (seq 0 (most_codes data)))
      by (apply map_ext; intros i; by rewrite Nat.sub_0_r).
    done. }
  apply Hgen. done.
Qed.

End ParseOutputFacts.


Lemma lstrip_subset (s : Py.str) (c : N) : c ∈ Py.lstrip s -> c ∈ s.
Proof.
  induction s as [|a s IH]; [done|]. cbn [Py.lstrip].
  destruct (Py.isspace a); [|done]. intros Hc. right. by apply IH.
Qed.

Lemma strip_subset (s : Py.str) (c : N) : c ∈ Py.strip s -> c ∈ s.
Proof.
  unfold Py.strip, Py.rstrip. intros Hc.
  apply list_elem_of_In, in_rev, list_elem_of_In, lstrip_subset in Hc.
  apply list_elem_of_In, in_rev, list_elem_of_In in Hc.
  by apply lstrip_subset.
Qed.

Lemma split_subset (sep : N) (s part : Py.str) (c : N) :
  part ∈ Py.split sep s -> c ∈ part -> c ∈ s.
Proof.
  revert part. induction s as [|a s IH]; intros part Hpart Hc.
  - apply list_elem_of_singleton in Hpart. subst. by apply elem_of_nil in Hc.
  - cbn [Py.split] in Hpart. destruct (a =? sep)%N.
    + apply elem_of_cons in Hpart as [->|Hpart]; [by apply elem_of_nil in Hc|].
      right. by apply (IH part).
    + destruct (Py.split sep s) as [|h t] eqn:Hs.
      * apply list_elem_of_singleton in Hpart. subst.
        apply list_elem_of_singleton in Hc. subst. left.
      * apply elem_of_cons in Hpart as [->|Hpart].
        -- apply elem_of_cons in Hc as [->|Hc]; [left|].
           right. apply (IH h); [left|done].
        -- right. apply (IH part); [by right|done].
Qed.

Lemma split_single (sep : N) (s : Py.str) : sep ∉ s -> length (Py.split sep s) = 1%nat.
Proof.
  intros Hs. rewrite split_length. f_equal.
  induction s as [|c s IH]; [done|]. cbn [List.filter].
  destruct (c =? sep)%N eqn:Hc.
  - apply N.eqb_eq in Hc. subst. exfalso. apply Hs. left.
  - apply IH. intros Hin. apply Hs. by right.
Qed.

Lemma segments_without_comma (output : Py.str) : 44%N ∉ output -> segments output = [].
Proof.
  intros Hno. unfold segments.
  assert (forall parts : list Py.str,
            (forall part, part ∈ parts -> 44%N ∉ part) -> omap segment parts = [])
    as Hall.
  { induction parts as [|part parts IH]; intros Hparts; [done|].
    cbn [omap list_omap]. rewrite IH by (intros p Hp; apply Hparts; by right).
    unfold segment. rewrite split_single.
    - by rewrite andb_false_r.
    - intros Hc. apply strip_subset in Hc.
      by apply (Hparts part (list_elem_of_here _ _)). }
  apply Hall. intros part Hpart Hc. apply Hno.
  apply strip_subset. by apply (split_subset 59 _ part).
Qed.

(** X1: a reply without any comma, an empty or blank reply included, gives
    the empty frame, which the loop treats as a failed question. *)
Theorem parse_output_without_comma (to_numeric : Py.str -> option Z)
    (output qid : Py.str) :
  44%N ∉ output ->
  parse_output to_numeric output qid = empty_frame
  /\ frame_empty (parse_output to_numeric output qid) = true.
Proof.
  intros Hno. rewrite parse_output_segments, (segments_without_comma output Hno).
  done.
Qed.

Lemma parse_output_without_comma_witness :
  parse_output to_numeric_int reply_without_comma $"Q1" = empty_frame
  /\ frame_empty (parse_output to_numeric_int reply_without_comma $"Q1") = true.
Proof.
  apply (parse_output_without_comma to_numeric_int reply_without_comma $"Q1").
  apply (bool_decide_unpack _). by vm_compute.
Defined.

(** X2: the identifiers of the frame are, in the order of the reply, the
    numeric values of the first fields of the segments that have at least
    two comma-separated fields; a segment whose first field is not numeric
    gives no row. *)
Theorem parse_output_IDs (to_numeric : Py.str -> option Z) (output qid : Py.str) :
  IDs (parse_output to_numeric output qid)
    = omap (fun d => to_numeric d.1) (segments output).
Proof.
  rewrite parse_output_segments. unfold IDs.
  destruct (segments output) as [|d0 data0] eqn:Hseg; [done|].
  cbn [rows]. generalize (most_codes (d0 :: data0)). intros m. clear Hseg.
  induction (d0 :: data0) as [|d data IH]; [done|].
  simpl. destruct (to_numeric d.1); simpl; [f_equal|]; exact IH.
Qed.

(** X3: a non-empty frame has the columns ID, qid_1, ..., qid_m, where m is
    the largest number of codes of a segment; every row has exactly m
    cells: the non-blank codes of its segment, in order, followed by empty
    cells. *)
Theorem parse_output_shape (to_numeric : Py.str -> option Z) (output qid : Py.str) :
  segments output <> [] ->
  let df := parse_output to_numeric output qid in
  let m := most_codes (segments output) in
  columns df = $"ID" :: (code_column qid <$> seq 0 m)
  /\ forall z cells, (z, cells) ∈ rows df ->
       length cells = m
       /\ exists id_val codes,
            (id_val, codes) ∈ segments output
            /\ to_numeric id_val = Some z
            /\ Forall (fun c => Py.truthy c = true) codes
            /\ cells = (Some <$> codes) ++ replicate (m - length codes) None.
Proof.
  intros Hne. cbv zeta. rewrite parse_output_segments.
  destruct (segments output) as [|d0 data0] eqn:Hseg; [done|]. clear Hne.
  cbv beta iota zeta.
  remember (d0 :: data0) as data eqn:Hdata. clear Hdata.
  remember (most_codes data) as m eqn:Hm.
  split; [reflexivity|].
  intros z cells Hrow. cbn [rows] in Hrow.
  apply list_elem_of_omap in Hrow as ([id_val codes] & Hd & Hsome).
  cbn [fst snd] in Hsome.
  destruct (to_numeric id_val) as [z'|] eqn:Hz; [|done].
  injection Hsome as <- <-.
  assert (length codes <= m)%nat as Hlen
    by (rewrite Hm; apply (most_codes_upper _ _ Hd)).
  clear Hm. cbn [snd] in *.
  split.
  - unfold padded.
    rewrite length_app, length_fmap, length_replicate. lia.
  - exists id_val, codes. repeat split; try done.
    rewrite <- Hseg in Hd.
    unfold segments in Hd. apply list_elem_of_omap in Hd as (part & _ & Hpart).
    unfold segment in Hpart.
    destruct (_ && _); [|done]. injection Hpart as _ <-.
    apply Forall_forall. intros c Hc.
    by apply list_elem_of_In, filter_In in Hc as [_ Hc].
Qed.

Lemma parse_output_shape_witness :
  let df := parse_output to_numeric_int example_reply $"Q1" in
  let m := most_codes (segments example_reply) in
  columns df = $"ID" :: (code_column $"Q1" <$> seq 0 m)
  /\ forall z cells, (z, cells) ∈ rows df ->
       length cells = m
       /\ exists id_val codes,
            (id_val, codes) ∈ segments example_reply
            /\ to_numeric_int id_val = Some z
            /\ Forall (fun c => Py.truthy c = true) codes
            /\ cells = (Some <$> codes) ++ replicate (m - length codes) None.
Proof.
  apply (parse_output_shape to_numeric_int example_reply $"Q1").
  by vm_compute.
Defined.


(** ** More on the coding calls *)

Section CodingLoopFacts.

Variable to_numeric : Py.str -> option Z.
Variable net : transport.
Variable prompt_of : Py.str -> Py.str.

Lemma attempts_between_S (req : request) (d k : nat) :
  (1 <= k)%nat ->
  attempts_between req d (S k) = Post req :: Sleep d :: attempts_between req d k.
Proof. destruct k; [lia|done]. Qed.

(** Whatever the transport does, the loop ends within its fuel, after [k]
    requests separated by sleeps, [k] between 1 and the attempts left: the
    requests before the last raised, and the last reply decides the
    result. *)
Lemma call_loop_attempts (req : request) (n : nat) :
  forall (retries extra : nat) (output0 : pyval) (w : world),
  (1 <= n)%nat -> (retries + n = max_retries)%nat ->
  exists (k : nat),
    (1 <= k <= n)%nat
    /\ (forall i, (i < k - 1)%nat -> raises (net (posted w + i) req))
    /\ call_loop net (n + 1 + extra) req false retries output0 w
       = (call_result (net (posted w + (k - 1)) req) output0,
          World (posted w + k) (trace w ++ attempts_between req 10 k)).
Proof.
  induction n as [|n IH]; intros retries extra output0 w Hn Hsum; [lia|].
  cbn [Nat.add]. rewrite call_loop_step.
  assert ((retries <? max_retries)%nat = true) as -> by (apply Nat.ltb_lt; lia).
  cbn [negb andb]. unfold mbind at 1, io_bind at 1, post at 1. cbv beta iota.
  assert (forall output,
            call_loop net (n + 1 + extra) req true retries output
                      (World (S (posted w)) (trace w ++ [Post req]))
            = (Returned (true, output),
               World (posted w + 1) (trace w ++ attempts_between req 10 1))) as Hdone.
  { intros output. replace (n + 1 + extra)%nat with (S (n + extra)) by lia.
    rewrite call_loop_step. cbn [negb andb]. by rewrite Nat.add_1_r. }
  assert (forall r : outcome (bool * pyval),
            (mret r : io _) (World (S (posted w)) (trace w ++ [Post req]))
            = (r, World (posted w + 1) (trace w ++ attempts_between req 10 1)))
    as Hret.
  { intros r. unfold mret, io_ret. by rewrite Nat.add_1_r. }
  assert (forall i : nat, (i < 1 - 1)%nat -> raises (net (posted w + i) req))
    as Hnone by (intros i Hi; lia).
  destruct (net (posted w) req) eqn:Hr.
  3-6: exists 1%nat; split; [lia|]; split; [exact Hnone|];
       replace (posted w + (1 - 1))%nat with (posted w) by lia;
       rewrite Hr; cbn [call_result]; first [apply Hdone | apply Hret].
  all: destruct (decide (n = 0%nat)) as [->|Hn0].
  all: try (exists 1%nat; split; [lia|]; split; [exact Hnone|];
            assert (retries = 5%nat) as -> by (unfold max_retries in Hsum; lia);
            replace (posted w + (1 - 1))%nat with (posted w) by lia;
            rewrite Hr; cbn; by rewrite Nat.add_1_r).
  all: assert ((S retries <? max_retries)%nat = true) as ->
      by (apply Nat.ltb_lt; lia).
  all: unfold mbind at 1, io_bind at 1, sleep at 1; cbv beta iota;
    cbn [posted trace].
  all: destruct (IH (S retries) extra output0
                   (World (S (posted w)) ((trace w ++ [Post req]) ++ [Sleep 10]))
                   ltac:(lia) ltac:(lia)) as (k & Hk & Hbefore & Hcall).
  all: cbn [posted trace] in Hcall, Hbefore.
  all: exists (S k); split; [lia|].
  all: replace (posted w + (S k - 1))%nat with (S (posted w) + (k - 1))%nat by lia.
  all: split;
    [intros i Hi; destruct i as [|i];
     [rewrite Nat.add_0_r, Hr; first [by left | by right]
     |replace (posted w + S i)%nat with (S (posted w) + i)%nat by lia;
      apply Hbefore; lia]|].
  all: rewrite Hcall, attempts_between_S by lia.
  all: f_equal; f_equal; [lia|by rewrite <- !app_assoc].
Qed.

(** One question always ends: it raises exactly when the last reply is one
    the view cannot read, and otherwise the question is failed or
    processed. *)
Lemma coding_question_attempts (st : coding_state) (qid : Py.str) (extra : nat)
    (w : world) :
  exists (k : nat) (r : outcome coding_state),
    (1 <= k <= max_retries)%nat
    /\ (forall i, (i < k - 1)%nat ->
                  raises (net (posted w + i) (Request (prompt_of qid) 2000%N)))
    /\ coding_question to_numeric net prompt_of (S max_retries + extra) st qid w
       = (r,
          World (posted w + k)
                (trace w ++ attempts_between (Request (prompt_of qid) 2000%N) 10 k))
    /\ r <> OutOfFuel
    /\ (forall e, r = Raised e
                  <-> coding_raises (net (posted w + (k - 1))
                                         (Request (prompt_of qid) 2000%N)) = Some e)
    /\ (forall st', r = Returned st' ->
          st' = mark_failed st qid
          \/ exists output,
               frame_empty (parse_output to_numeric output qid) = false
               /\ st' = mark_processed st qid (prompt_of qid) output
                                       (parse_output to_numeric output qid)).
Proof.
  destruct (call_loop_attempts (Request (prompt_of qid) 2000%N) max_retries 0 extra
              (Str []) w)
    as (k & Hk & Hbefore & Hcall); [unfold max_retries; lia|done|].
  replace (max_retries + 1 + extra)%nat with (S max_retries + extra)%nat in Hcall by lia.
  exists k. unfold coding_question, mbind, io_bind. rewrite Hcall.
  destruct (net (posted w + (k - 1)) (Request (prompt_of qid) 2000%N))
    as [| |c|body|[|[|]]|e];
    cbn [call_result coding_raises negb].
  all: repeat match goal with
       | |- context [if ?b then _ else _] => destruct b eqn:?
       end.
  all: eexists; split; [exact Hk|]; split; [exact Hbefore|];
    split; [reflexivity|].
  all: split; [done|]; split; [intros e'; split; intros [=]; by subst|].
  all: intros st' [= <-]; first [by left | right; by eexists].
Qed.

End CodingLoopFacts.

Lemma posts_attempts_between (req : request) (d k : nat) :
  posts (attempts_between req d k) = k
  /\ sleeps (attempts_between req d k) = (k - 1)%nat.
Proof.
  induction k as [|k [IHp IHs]]; [done|].
  destruct k as [|k]; [done|].
  change (attempts_between req d (S (S k)))
    with (Post req :: Sleep d :: attempts_between req d (S k)).
  unfold posts, sleeps in *. cbn [List.filter length]. rewrite IHp, IHs.
  split; lia.
Qed.

(** X4: whatever the endpoint does, one question of the coding flow ends
    after between 1 and 6 requests, with a sleep of 10 between consecutive
    requests and none after the last (one sleep less than requests); every
    request before the last raised one of the two caught exceptions.  The
    step raises exactly when the last reply is a JSON body whose content
    cannot be looked up or is a truthy value that is neither a text nor a
    container holding a marker; otherwise the question is either failed or
    processed with the frame of a reply. *)
Theorem coding_question_cost (to_numeric : Py.str -> option Z) (net : transport)
    (prompt_of : Py.str -> Py.str) (st : coding_state) (qid : Py.str)
    (extra : nat) (w : world) :
  exists (k : nat) (r : outcome coding_state),
    (1 <= k <= 6)%nat
    /\ coding_question to_numeric net prompt_of (S max_retries + extra) st qid w
       = (r,
          World (posted w + k)
                (trace w ++ attempts_between (Request (prompt_of qid) 2000%N) 10 k))
    /\ posts (attempts_between (Request (prompt_of qid) 2000%N) 10 k) = k
    /\ sleeps (attempts_between (Request (prompt_of qid) 2000%N) 10 k) = (k - 1)%nat
    /\ (forall i, (i < k - 1)%nat ->
                  raises (net (posted w + i) (Request (prompt_of qid) 2000%N)))
    /\ r <> OutOfFuel
    /\ (forall e, r = Raised e
                  <-> coding_raises (net (posted w + (k - 1))
                                         (Request (prompt_of qid) 2000%N)) = Some e)
    /\ (forall st', r = Returned st' ->
          st' = mark_failed st qid
          \/ exists output,
               frame_empty (parse_output to_numeric output qid) = false
               /\ st' = mark_processed st qid (prompt_of qid) output
                                       (parse_output to_numeric output qid)).
Proof.
  destruct (coding_question_attempts to_numeric net prompt_of st qid extra w)
    as (k & r & Hk & Hbefore & Hq & Hfuel & Hraise & Hret).
  exists k, r. split; [exact Hk|]. split; [exact Hq|].
  destruct (posts_attempts_between (Request (prompt_of qid) 2000%N) 10 k) as [Hp Hs].
  by repeat (split; [assumption|]).
Qed.

(** X5: in the coding flow, when a request made after [k] requests that
    raised delivers a body, the question is processed exactly when the
    recorded text is not empty, contains neither marker and parses to a
    non-empty frame: the frame, the prompt and the text are then stored and
    the question is appended to the processed ones; otherwise the question
    is failed.  In both cases no request follows. *)
Theorem coding_question_after_reply (to_numeric : Py.str -> option Z)
    (net : transport) (prompt_of : Py.str -> Py.str) (qid output : Py.str)
    (k extra : nat) (st : coding_state) (w : world) :
  let api_payload := Request (prompt_of qid) 2000%N in
  (k < max_retries)%nat ->
  (forall i, (i < k)%nat -> raises (net (posted w + i) api_payload)) ->
  recorded (net (posted w + k) api_payload) output ->
  coding_question to_numeric net prompt_of (S max_retries + extra) st qid w
    = (Returned (if rejected true output
                    || frame_empty (parse_output to_numeric output qid)
                 then mark_failed st qid
                 else mark_processed st qid (prompt_of qid) output
                                     (parse_output to_numeric output qid)),
       World (posted w + k + 1)
             (trace w ++ attempts_each api_payload 10 k ++ [Post api_payload])).
Proof.
  intros api_payload Hk Hfail Hrec.
  assert (call_loop net (S max_retries + extra) api_payload false 0 (Str []) w
          = (Returned (true, Str output),
             World (posted w + k + 1)
                   (trace w ++ attempts_each api_payload 10 k ++ [Post api_payload])))
    as Hcall.
  { replace (S max_retries + extra)%nat
      with (k + 2 + (max_retries - S k + extra))%nat by (unfold max_retries in *; lia).
    by apply call_loop_reply_after. }
  unfold coding_question, mbind, io_bind. fold api_payload. rewrite Hcall.
  destruct (rejected true output); [done|].
  by destruct (frame_empty _).
Qed.

Lemma coding_question_after_reply_witness :
  coding_question to_numeric_int answer_after_failure (fun _ => $"p")
                  (S max_retries + 0) initial_state $"Q1" (World 0 [])
    = (Returned (if rejected true repeated_code_reply
                    || frame_empty (parse_output to_numeric_int repeated_code_reply
                                                 $"Q1")
                 then mark_failed initial_state $"Q1"
                 else mark_processed initial_state $"Q1" $"p" repeated_code_reply
                        (parse_output to_numeric_int repeated_code_reply $"Q1")),
       World (0 + 1 + 1)
             ([] ++ attempts_each (Request $"p" 2000%N) 10 1
                 ++ [Post (Request $"p" 2000%N)])).
Proof.
  apply (coding_question_after_reply to_numeric_int answer_after_failure
           (fun _ => $"p") $"Q1" repeated_code_reply 1 0 initial_state (World 0 [])).
  - unfold max_retries. lia.
  - intros i Hi. assert (i = 0%nat) as -> by lia. by left.
  - reflexivity.
Defined.


(** ** The loop over the questions *)

Section CodingAccounting.

Variable to_numeric : Py.str -> option Z.
Variable net : transport.
Variable prompt_of : Py.str -> Py.str.

(** The loop always ends and costs at most 6 requests a question, and at
    least one for each question when no reply stops it. *)
Lemma coding_loop_total (extra : nat) (qids : list Py.str) :
  forall (st : coding_state) (w : world),
  exists (r : outcome coding_state) (w' : world) (t : list event),
    coding_loop to_numeric net prompt_of (S max_retries + extra) st qids w = (r, w')
    /\ trace w' = trace w ++ t
    /\ posted w' = (posted w + posts t)%nat
    /\ (posts t <= 6 * length qids)%nat
    /\ r <> OutOfFuel
    /\ (forall st', r = Returned st' ->
          (length qids <= posts t)%nat /\ (sleeps t + length qids = posts t)%nat)
    /\ (forall e, r = Raised e ->
          (1 <= posts t)%nat
          /\ exists qid, qid ∈ qids
               /\ coding_raises (net (posted w' - 1) (Request (prompt_of qid) 2000%N))
                  = Some e).
Proof.
  induction qids as [|qid qids IH]; intros st w.
  - exists (Returned st), w, []. rewrite app_nil_r. cbn [coding_loop length].
    repeat split; try done; unfold posts, sleeps; cbn; lia.
  - destruct (coding_question_attempts to_numeric net prompt_of st qid extra w)
      as (k & r1 & Hk & _ & Hq & Hfuel & Hraise & _).
    destruct (posts_attempts_between (Request (prompt_of qid) 2000%N) 10 k) as [Hpk Hsk].
    unfold max_retries in Hk.
    cbn [coding_loop]. unfold mbind at 1, io_bind at 1. rewrite Hq.
    destruct r1 as [st1|e|]; [| |done].
    + destruct (IH st1 (World (posted w + k)
                  (trace w ++ attempts_between (Request (prompt_of qid) 2000%N) 10 k)))
        as (r & w' & t & Hloop & Ht & Hp & Hhi & Hfuel' & Hret & Hraised).
      cbn [posted trace] in *.
      exists r, w', (attempts_between (Request (prompt_of qid) 2000%N) 10 k ++ t).
      split; [exact Hloop|]. split; [by rewrite Ht, <- app_assoc|].
      assert (posts (attempts_between (Request (prompt_of qid) 2000%N) 10 k ++ t)
              = (k + posts t)%nat) as Hposts.
      { unfold posts in *. by rewrite List.filter_app, length_app, Hpk. }
      assert (sleeps (attempts_between (Request (prompt_of qid) 2000%N) 10 k ++ t)
              = (k - 1 + sleeps t)%nat) as Hsleeps.
      { unfold sleeps in *. by rewrite List.filter_app, length_app, Hsk. }
      rewrite Hposts, Hsleeps. cbn [length].
      split; [lia|]. split; [lia|]. split; [exact Hfuel'|]. split.
      * intros st' Hr. destruct (Hret st' Hr). lia.
      * intros e Hr. destruct (Hraised e Hr) as (Hone & q & Hq' & Hlast).
        split; [lia|]. exists q. split; [by apply list_elem_of_further|exact Hlast].
    + eexists (Raised e), _, (attempts_between (Request (prompt_of qid) 2000%N) 10 k).
      split; [reflexivity|]. cbn [posted trace length]. rewrite Hpk.
      split; [done|]. split; [done|]. split; [lia|]. split; [done|]. split; [done|].
      intros e' [= <-]. split; [lia|]. exists qid. split; [apply list_elem_of_here|].
      replace (posted w + k - 1)%nat with (posted w + (k - 1))%nat by lia.
      by apply Hraise.
Qed.

(** What the loop keeps in step: the questions seen so far are split
    between the processed and the failed ones, each processed question has
    its frame and its entry in the results. *)
Lemma coding_loop_accounting (fuel : nat) (qids : list Py.str) :
  forall (st st' : coding_state) (w w' : world),
  coding_loop to_numeric net prompt_of fuel st qids w = (Returned st', w') ->
  exists (done failed : list Py.str) (frames : list frame),
    processed_qids st' = processed_qids st ++ done
    /\ fail_qids st' = fail_qids st ++ failed
    /\ dfs st' = dfs st ++ frames
    /\ length frames = length done
    /\ done ++ failed ≡ₚ qids
    /\ sublist done qids /\ sublist failed qids
    /\ dom (results st') = dom (results st) ∪ list_to_set done.
Proof.
  induction qids as [|qid qids IH]; intros st st' w w'.
  - intros [= <- <-]. exists [], [], []. rewrite !app_nil_r.
    repeat split; try done.
    change (list_to_set (C := gset Py.str) []) with (∅ : gset Py.str).
    by rewrite (right_id_L ∅ (∪)).
  - cbn [coding_loop]. unfold mbind at 1, io_bind at 1.
    destruct (coding_question _ _ _ _ _ _ _) as [[st1|e1|] w1] eqn:Hq;
      [|intros [=]|intros [=]].
    intros Hloop.
    destruct (IH _ _ _ _ Hloop) as (done & failed & frames & Hp & Hf & Hd & Hlen
                                    & Hperm & Hsd & Hsf & Hdom).
    apply coding_question_outcome in Hq as [->|(output & _ & ->)].
    + exists done, (qid :: failed), frames.
      cbn [mark_failed processed_qids fail_qids dfs results] in *.
      rewrite Hp, Hf, Hd, <- app_assoc. repeat split; try done.
      * by rewrite <- Permutation_middle, Hperm.
      * by apply sublist_cons.
      * by apply sublist_skip.
    + exists (qid :: done), failed, (parse_output to_numeric output qid :: frames).
      cbn [mark_processed processed_qids fail_qids dfs results] in *.
      rewrite Hp, Hf, Hd, <- !app_assoc. repeat split; try done.
      * cbn [length]. by rewrite Hlen.
      * cbn [app]. by rewrite Hperm.
      * by apply sublist_skip.
      * by apply sublist_cons.
      * rewrite Hdom, dom_insert_L, list_to_set_cons.
        by rewrite (comm_L (∪) {[qid]}), <- (assoc_L (∪)).
Qed.

End CodingAccounting.

(** X6: after the loop over the questions, every question of the list is
    accounted for once: the processed and the failed questions together are
    a rearrangement of the list, each group in the order of the list; there
    is one retained frame per processed question, and the results hold an
    entry for exactly the processed questions.  With distinct questions no
    question is both processed and failed. *)
Theorem coding_loop_accounts_for_every_question (to_numeric : Py.str -> option Z)
    (net : transport) (prompt_of : Py.str -> Py.str) (fuel : nat)
    (unique_qids : list Py.str) (w w' : world) (st : coding_state) :
  coding_loop to_numeric net prompt_of fuel initial_state unique_qids w = (Returned st, w') ->
  processed_qids st ++ fail_qids st ≡ₚ unique_qids
  /\ sublist (processed_qids st) unique_qids
  /\ sublist (fail_qids st) unique_qids
  /\ length (dfs st) = length (processed_qids st)
  /\ dom (results st) = list_to_set (processed_qids st)
  /\ (NoDup unique_qids ->
      forall qid, qid ∈ processed_qids st -> qid ∉ fail_qids st).
Proof.
  intros Hloop.
  destruct (coding_loop_accounting to_numeric net prompt_of _ _ _ _ _ _ Hloop)
    as (done & failed & frames & Hp & Hf & Hd & Hlen & Hperm & Hsd & Hsf & Hdom).
  cbn [initial_state processed_qids fail_qids dfs results app] in *.
  rewrite Hp, Hf, Hd. repeat split; try done.
  - by rewrite Hdom, dom_empty_L, (left_id_L ∅ (∪)).
  - intros Hnd qid Hin Hin'. rewrite <- Hperm in Hnd.
    apply NoDup_app in Hnd as (_ & Hdisj & _). by apply (Hdisj qid).
Qed.

Lemma coding_loop_accounts_for_every_question_witness :
  processed_qids three_question_state ++ fail_qids three_question_state
    ≡ₚ [$"Q1"; $"Q2"; $"Q3"]
  /\ sublist (processed_qids three_question_state) [$"Q1"; $"Q2"; $"Q3"]
  /\ sublist (fail_qids three_question_state) [$"Q1"; $"Q2"; $"Q3"]
  /\ length (dfs three_question_state) = length (processed_qids three_question_state)
  /\ dom (results three_question_state)
     = list_to_set (processed_qids three_question_state)
  /\ (NoDup [$"Q1"; $"Q2"; $"Q3"] ->
      forall qid, qid ∈ processed_qids three_question_state ->
                  qid ∉ fail_qids three_question_state).
Proof.
  apply (coding_loop_accounts_for_every_question to_numeric_int two_answers_net
           (fun _ => $"p") (S max_retries) [$"Q1"; $"Q2"; $"Q3"] (World 0 [])
           three_question_world three_question_state).
  exact three_question_run.
Defined.

(** X7: whatever the endpoint does, the loop over [n] questions ends, having
    made at most [6 n] requests.  When it returns, it has made at least
    [n] requests and exactly one sleep less than requests for each
    question.  It raises only after a request whose reply, for one of the
    questions, is a JSON body whose content cannot be looked up or is a
    truthy value that is neither a text nor a container holding a
    marker. *)
Theorem coding_loop_cost (to_numeric : Py.str -> option Z) (net : transport)
    (prompt_of : Py.str -> Py.str) (extra : nat) (unique_qids : list Py.str)
    (w : world) :
  exists (r : outcome coding_state) (w' : world) (t : list event),
    coding_loop to_numeric net prompt_of (S max_retries + extra) initial_state
                unique_qids w = (r, w')
    /\ trace w' = trace w ++ t
    /\ posted w' = (posted w + posts t)%nat
    /\ (posts t <= 6 * length unique_qids)%nat
    /\ r <> OutOfFuel
    /\ (forall st, r = Returned st ->
          (length unique_qids <= posts t)%nat
          /\ (sleeps t + length unique_qids = posts t)%nat)
    /\ (forall e, r = Raised e ->
          (1 <= posts t)%nat
          /\ exists qid, qid ∈ unique_qids
               /\ coding_raises (net (posted w' - 1) (Request (prompt_of qid) 2000%N))
                  = Some e).
Proof.
  exact (coding_loop_total to_numeric net prompt_of extra unique_qids initial_state w).
Qed.


(** ** The coding view as a whole *)

Lemma require_field_blank (errors : list Py.str) (field message : Py.str) :
  require_field errors (Py.strip field) message = errors ++ when_blank field message.
Proof.
  unfold require_field, when_blank. rewrite truthy_strip.
  destruct (blank field); cbn [negb]; [done|by rewrite app_nil_r].
Qed.

Section CodingViewFacts.

Variable to_numeric : Py.str -> option Z.
Variable net : transport.
Variable prompt_of : Py.str -> Py.str.
Variable str_e : Py.str.

Lemma coding_field_errors_blank (lang : Py.str) (POST : gmap Py.str Py.str) :
  coding_field_errors lang POST
    = when_blank (get_or_empty POST $"api_key") (api_key_message lang)
      ++ when_blank (get_or_empty POST $"project_name") (project_name_message lang)
      ++ when_blank (get_or_empty POST $"question_domain")
                    (question_domain_message lang).
Proof.
  unfold coding_field_errors. cbv zeta.
  by rewrite !require_field_blank, app_nil_l, <- app_assoc.
Qed.

(** Every question raising, the call gives up after six requests. *)
Lemma call_loop_all_raise (req : request) (n : nat) :
  forall (retries extra : nat) (output0 : pyval) (w : world),
  (1 <= n)%nat -> (retries + n = max_retries)%nat ->
  (forall i, (i < n)%nat -> raises (net (posted w + i) req)) ->
  call_loop net (n + 1 + extra) req false retries output0 w
    = (Returned (false, output0),
       World (posted w + n) (trace w ++ attempts_between req 10 n)).
Proof.
  induction n as [|n IH]; intros retries extra output0 w Hn Hsum Hraise; [lia|].
  cbn [Nat.add]. rewrite call_loop_step.
  assert ((retries <? max_retries)%nat = true) as -> by (apply Nat.ltb_lt; lia).
  cbn [negb andb]. unfold mbind at 1, io_bind at 1, post at 1. cbv beta iota.
  pose proof (Hraise 0%nat ltac:(lia)) as H0. rewrite Nat.add_0_r in H0.
  destruct (decide (n = 0%nat)) as [->|Hn0].
  - assert (retries = 5%nat) as -> by (unfold max_retries in Hsum; lia).
    destruct H0 as [-> | ->]; cbn; by rewrite Nat.add_1_r.
  - assert ((S retries <? max_retries)%nat = true) as Hs by (apply Nat.ltb_lt; lia).
    assert (call_loop net (n + 1 + extra) req false (S retries) output0
              (World (S (posted w)) ((trace w ++ [Post req]) ++ [Sleep 10]))
            = (Returned (false, output0),
               World (posted w + S n) (trace w ++ attempts_between req 10 (S n))))
      as Hnext.
    { rewrite IH; [| lia | lia |].
      - cbn [posted trace]. rewrite attempts_between_S by lia.
        f_equal. f_equal; [lia|by rewrite <- !app_assoc].
      - intros i Hi. cbn [posted].
        replace (S (posted w) + i)%nat with (posted w + S i)%nat by lia.
        apply Hraise. lia. }
    destruct H0 as [-> | ->]; rewrite Hs; unfold mbind, io_bind, sleep;
      cbv beta iota; cbn [posted trace]; exact Hnext.
Qed.

Lemma coding_loop_all_raise (extra : nat) (qids : list Py.str) :
  forall (st : coding_state) (w : world),
  (forall i r, (posted w <= i)%nat -> raises (net i r)) ->
  exists t,
    coding_loop to_numeric net prompt_of (S max_retries + extra) st qids w
      = (Returned (CodingState (results st) (fail_qids st ++ qids) (dfs st)
                               (processed_qids st)),
         World (posted w + 6 * length qids) (trace w ++ t))
    /\ posts t = (6 * length qids)%nat
    /\ sleeps t = (5 * length qids)%nat.
Proof.
  induction qids as [|qid qids IH]; intros st w Hraise.
  - exists []. cbn [coding_loop length]. rewrite !app_nil_r, Nat.mul_0_r, Nat.add_0_r.
    by destruct st, w.
  - cbn [coding_loop]. unfold mbind at 1, io_bind at 1.
    assert (coding_question to_numeric net prompt_of (S max_retries + extra) st qid w
            = (Returned (mark_failed st qid),
               World (posted w + 6)
                     (trace w ++ attempts_between (Request (prompt_of qid) 2000%N) 10 6)))
      as ->.
    { unfold coding_question, mbind, io_bind.
      replace (S max_retries + extra)%nat with (max_retries + 1 + extra)%nat by lia.
      rewrite (call_loop_all_raise _ max_retries 0 extra (Str []) w);
        [done|unfold max_retries; lia|done|].
      intros i _. apply Hraise. lia. }
    destruct (IH (mark_failed st qid)
                 (World (posted w + 6)
                    (trace w ++ attempts_between (Request (prompt_of qid) 2000%N) 10 6)))
      as (t & Hloop & Hp & Hs).
    { intros i r Hi. apply Hraise. cbn [posted] in Hi. lia. }
    exists (attempts_between (Request (prompt_of qid) 2000%N) 10 6 ++ t).
    rewrite Hloop. cbn [mark_failed results fail_qids dfs processed_qids posted trace length].
    split; [|split].
    + f_equal; [by rewrite <- app_assoc|]. f_equal; [lia|by rewrite <- app_assoc].
    + unfold posts in *. rewrite List.filter_app, length_app, Hp. cbn. lia.
    + unfold sleeps in *. rewrite List.filter_app, length_app, Hs. cbn. lia.
Qed.

End CodingViewFacts.

(** X8: the coding form is refused without any request being made as soon
    as a field is blank (absent, empty, or white space only) or no file is
    uploaded.  The page lists exactly the messages of the blank fields, in
    the order API key, project name, question domain, followed by the
    message for the missing file. *)
Theorem coding_view_refuses_blank_form (to_numeric : Py.str -> option Z)
    (net : transport) (prompt_of : Py.str -> Py.str) (str_e lang : Py.str)
    (POST : gmap Py.str Py.str) (uploaded_file : option coding_upload) (w : world) :
  let errors :=
    when_blank (get_or_empty POST $"api_key")
          (trans lang $"Please enter your API key."
                 $"لطفاً کلید API خود را وارد کنید.")
    ++ when_blank (get_or_empty POST $"project_name")
             (trans lang $"Please enter a project name."
                    $"لطفاً نام پروژه را وارد کنید.")
    ++ when_blank (get_or_empty POST $"question_domain")
             (trans lang $"Please enter a question domain."
                    $"لطفاً حوزهٔ سؤال را وارد کنید.")
    ++ when_absent uploaded_file
             (trans lang $"Please upload an Excel file."
                    $"لطفاً فایل اکسل را بارگذاری کنید.") in
  errors <> [] ->
  coding_view_post to_numeric net prompt_of str_e lang POST uploaded_file w
    = (Returned (CodingErrors errors), w).
Proof.
  intros errors Herrors. subst errors. unfold coding_view_post. cbv zeta.
  fold (api_key_message lang) (project_name_message lang)
       (question_domain_message lang) (file_message lang) in *.
  rewrite !app_assoc, <- (app_assoc _ _ (when_blank _ (question_domain_message lang)))
    in *.
  rewrite <- coding_field_errors_blank in *.
  destruct uploaded_file as [up|]; cbn [when_absent] in *; [|done].
  rewrite app_nil_r in *.
  by destruct (coding_field_errors lang POST).
Qed.

Lemma coding_view_refuses_blank_form_witness :
  coding_view_post to_numeric_int always_fails (fun _ => $"p") $"down" $"en"
                   half_blank_form None (World 0 [])
    = (Returned (CodingErrors
                   (when_blank (get_or_empty half_blank_form $"api_key")
                          (trans $"en" $"Please enter your API key."
                                 $"لطفاً کلید API خود را وارد کنید.")
                    ++ when_blank (get_or_empty half_blank_form $"project_name")
                             (trans $"en" $"Please enter a project name."
                                    $"لطفاً نام پروژه را وارد کنید.")
                    ++ when_blank (get_or_empty half_blank_form $"question_domain")
                             (trans $"en" $"Please enter a question domain."
                                    $"لطفاً حوزهٔ سؤال را وارد کنید.")
                    ++ when_absent (@None coding_upload)
                             (trans $"en" $"Please upload an Excel file."
                                    $"لطفاً فایل اکسل را بارگذاری کنید."))),
       World 0 []).
Proof.
  apply (coding_view_refuses_blank_form to_numeric_int always_fails (fun _ => $"p")
           $"down" $"en" half_blank_form None (World 0 [])).
  by vm_compute.
Defined.

(** X9: with a complete form, when the connection test raises or the
    workbook fails validation, the coding view renders an error page after
    the single request of the connection test: no question is sent. *)
Theorem coding_view_stops_before_questions (to_numeric : Py.str -> option Z)
    (net : transport) (prompt_of : Py.str -> Py.str) (str_e lang : Py.str)
    (POST : gmap Py.str Py.str) (up : coding_upload) (w : world) :
  coding_field_errors lang POST = [] ->
  net (posted w) coding_probe = RequestException
  \/ validate lang (cu_excel up) <> Proceed ->
  exists errors,
    coding_view_post to_numeric net prompt_of str_e lang POST (Some up) w
      = (Returned (CodingErrors errors),
         World (S (posted w)) (trace w ++ [Post coding_probe]))
    /\ (net (posted w) coding_probe = RequestException ->
        errors = [connection_message lang str_e]).
Proof.
  intros Hform Hstop. unfold coding_view_post. cbv zeta. rewrite Hform.
  unfold coding_run, mbind at 1, io_bind at 1, post at 1. cbv beta iota.
  fold coding_probe.
  destruct Hstop as [Hnet|Hval].
  - rewrite Hnet. eexists. split; [reflexivity|done].
  - destruct (validate lang (cu_excel up)) as [errors|] eqn:Hv; [|done].
    destruct (net (posted w) coding_probe) eqn:Hnet.
    all: eexists; split; [reflexivity|done].
Qed.

Lemma coding_view_stops_before_questions_witness :
  exists errors,
    coding_view_post to_numeric_int always_fails (fun _ => $"p") $"down" $"en"
                     complete_form (Some complete_upload) (World 0 [])
      = (Returned (CodingErrors errors), World 1 ([] ++ [Post coding_probe]))
    /\ (always_fails (posted (World 0 [])) coding_probe = RequestException ->
        errors = [connection_message $"en" $"down"]).
Proof.
  apply (coding_view_stops_before_questions to_numeric_int always_fails
           (fun _ => $"p") $"down" $"en" complete_form complete_upload (World 0 [])).
  - by vm_compute.
  - by left.
Defined.

(** X10: with a complete form and a valid workbook, when the connection
    test succeeds and every later request raises, each of the [n] distinct
    questions of the question sheet is tried six times and the page reports
    that no valid data was processed: [1 + 6 n] requests and [5 n] sleeps in
    all. *)
Theorem coding_view_no_valid_data (to_numeric : Py.str -> option Z)
    (net : transport) (prompt_of : Py.str -> Py.str) (str_e lang : Py.str)
    (POST : gmap Py.str Py.str) (up : coding_upload) (w : world) :
  coding_field_errors lang POST = [] ->
  validate lang (cu_excel up) = Proceed ->
  net (posted w) coding_probe <> RequestException ->
  (forall i r, (posted w < i)%nat -> raises (net i r)) ->
  let n := length (unique_qids_of (cu_question_QID up)) in
  exists t,
    coding_view_post to_numeric net prompt_of str_e lang POST (Some up) w
      = (Returned (CodingErrors [no_data_message lang]),
         World (S (posted w) + 6 * n) (trace w ++ Post coding_probe :: t))
    /\ posts t = (6 * n)%nat
    /\ sleeps t = (5 * n)%nat.
Proof.
  intros Hform Hval Hprobe Hraise n. subst n.
  unfold coding_view_post. cbv zeta. rewrite Hform.
  unfold coding_run, mbind at 1, io_bind at 1, post at 1. cbv beta iota.
  fold coding_probe. rewrite Hval.
  destruct (coding_loop_all_raise to_numeric net prompt_of 0
              (unique_qids_of (cu_question_QID up)) initial_state
              (World (S (posted w)) (trace w ++ [Post coding_probe])))
    as (t & Hloop & Hp & Hs).
  { intros i r Hi. apply Hraise. cbn [posted] in Hi. lia. }
  rewrite Nat.add_0_r in Hloop.
  exists t. split; [|done].
  destruct (net (posted w) coding_probe); try done;
    unfold mbind, io_bind; rewrite Hloop;
    cbn [posted trace initial_state dfs reduce coding_outputs];
    by rewrite <- app_assoc.
Qed.

Lemma coding_view_no_valid_data_witness :
  let n := length (unique_qids_of (cu_question_QID complete_upload)) in
  exists t,
    coding_view_post to_numeric_int fails_after_probe (fun _ => $"p") $"down" $"en"
                     complete_form (Some complete_upload) (World 0 [])
      = (Returned (CodingErrors [no_data_message $"en"]),
         World (S (posted (World 0 [])) + 6 * n)
               (trace (World 0 []) ++ Post coding_probe :: t))
    /\ posts t = (6 * n)%nat
    /\ sleeps t = (5 * n)%nat.
Proof.
  apply (coding_view_no_valid_data to_numeric_int fails_after_probe (fun _ => $"p")
           $"down" $"en" complete_form complete_upload (World 0 [])).
  - by vm_compute.
  - by vm_compute.
  - done.
  - intros i r Hi. cbn [posted] in Hi. destruct i; [lia|]. by left.
Defined.


(** ** More on the codebook summary *)

Lemma sum_list_with_add {A} (f g : A -> nat) (l : list A) :
  sum_list_with (fun x => (f x + g x)%nat) l
    = (sum_list_with f l + sum_list_with g l)%nat.
Proof. induction l as [|x l IH]; [done|]. cbn [sum_list_with]. lia. Qed.

Lemma sum_list_with_pointwise {A} (f g : A -> nat) (l : list A) :
  (forall x, f x = g x) -> sum_list_with f l = sum_list_with g l.
Proof.
  intros Hfg. induction l as [|x l IH]; [done|]. cbn [sum_list_with].
  by rewrite Hfg, IH.
Qed.

Lemma sum_list_with_indicator {A} `{EqDecision A} (x : A) (d : list A) :
  NoDup d -> x ∈ d ->
  sum_list_with (fun c => Nat.b2n (bool_decide (x = c))) d = 1%nat.
Proof.
  induction 1 as [|c d Hc Hnd IH]; intros Hx; [by apply elem_of_nil in Hx|].
  cbn [sum_list_with]. apply elem_of_cons in Hx as [->|Hx].
  - rewrite bool_decide_eq_true_2 by done. cbn [Nat.b2n].
    assert (sum_list_with (fun c0 => Nat.b2n (bool_decide (c = c0))) d = 0%nat) as ->;
      [|done].
    clear -Hc. induction d as [|a d IH]; [done|]. cbn [sum_list_with].
    rewrite bool_decide_eq_false_2 by (intros ->; apply Hc; left).
    rewrite IH; [done|]. intros Hin. apply Hc. by right.
  - rewrite bool_decide_eq_false_2 by (intros ->; done). cbn [Nat.b2n].
    by rewrite IH.
Qed.

(** Counting every value of a list over its distinct values counts the
    list. *)
Lemma sum_counts {A} `{EqDecision A} (l d : list A) :
  NoDup d -> (forall x, x ∈ l -> x ∈ d) ->
  sum_list_with (fun c => length (List.filter (fun x => bool_decide (x = c)) l)) d
    = length l.
Proof.
  intros Hnd. induction l as [|x l IH]; intros Hsub.
  - cbn [List.filter length]. clear. induction d as [|c d IHd]; [reflexivity|].
    cbn [sum_list_with]. by rewrite IHd.
  - rewrite (sum_list_with_pointwise _
               (fun c => (Nat.b2n (bool_decide (x = c))
                          + length (List.filter (fun y => bool_decide (y = c)) l))%nat)).
    + rewrite sum_list_with_add, sum_list_with_indicator, IH; try done.
      * intros y Hy. apply Hsub. by right.
      * apply Hsub. left.
    + intros c. cbn [List.filter]. by destruct (bool_decide (x = c)).
Qed.

Section SummaryRows.

Variable to_numeric : Py.str -> option Z.

Lemma value_counts_Permutation (l : list Py.str) :
  value_counts l
    ≡ₚ (fun c => (c, length (List.filter (fun x => bool_decide (x = c)) l)))
         <$> unique l.
Proof. unfold value_counts. apply sort_counts_Permutation. Qed.

Lemma code_counts_counts (codeframe_df : list codeframe_row) (total_ids : nat)
    (qid : Py.str) (df : frame) :
  (fun row => (s_Code row, s_Count row))
     <$> code_counts to_numeric codeframe_df total_ids qid df
  = value_counts (melted_codes to_numeric qid df).*2.
Proof.
  unfold code_counts. rewrite <- list_fmap_compose.
  rewrite <- (list_fmap_id (value_counts _)) at 2.
  apply list_fmap_ext. by intros _ [c n] _.
Qed.

End SummaryRows.

(** X11: the rows the codebook summary holds for one question: one row per
    distinct code, so no two rows share a code; each code is non-empty and
    numeric, each Count is at least 1; the rows come in order of
    non-increasing Count; and the Counts add up to the number of usable code
    cells of the question's frame. *)
Theorem code_counts_rows (to_numeric : Py.str -> option Z)
    (codeframe_df : list codeframe_row) (total_ids : nat)
    (qid : Py.str) (df : frame) :
  let summary := code_counts to_numeric codeframe_df total_ids qid df in
  NoDup (s_Code <$> summary)
  /\ (forall row, row ∈ summary ->
        s_QID row = qid /\ usable to_numeric (s_Code row) = true
        /\ (1 <= s_Count row)%nat)
  /\ Sorted (fun a b => (s_Count b <= s_Count a)%nat) summary
  /\ sum_list_with s_Count summary = length (melted_codes to_numeric qid df).
Proof.
  cbv zeta.
  pose proof (code_counts_counts to_numeric codeframe_df total_ids qid df) as Hcc.
  set (summary := code_counts to_numeric codeframe_df total_ids qid df) in *.
  set (l := (melted_codes to_numeric qid df).*2) in *.
  pose proof (value_counts_Permutation l) as Hperm.
  split; [|split; [|split]].
  - replace (s_Code <$> summary)
      with (((fun row => (s_Code row, s_Count row)) <$> summary).*1)
      by (by rewrite <- list_fmap_compose).
    rewrite Hcc, Hperm, <- list_fmap_compose.
    rewrite (list_fmap_ext _ id (unique l)) by done.
    rewrite list_fmap_id. apply unique_NoDup.
  - intros row Hrow.
    apply code_counts_row in Hrow as (Hq & Hcode & Hcount & _). fold l in Hcode, Hcount.
    split; [done|]. split.
    + unfold l, melted_codes in Hcode. rewrite filter_fmap_snd in Hcode.
      by apply list_elem_of_In, filter_In in Hcode as [_ Hcode].
    + rewrite Hcount.
      assert (s_Code row ∈ List.filter (fun x => bool_decide (x = s_Code row)) l) as Hin
        by (apply list_elem_of_In, filter_In; split;
            [by apply list_elem_of_In|by apply bool_decide_eq_true]).
      destruct (List.filter _ l); [by apply elem_of_nil in Hin|cbn; lia].
  - assert (Sorted count_ge (value_counts l)) as Hsorted
      by apply sort_counts_Sorted.
    rewrite <- Hcc in Hsorted. clear -Hsorted.
    induction summary as [|a summary IH]; [constructor|].
    rewrite fmap_cons in Hsorted. apply Sorted_inv in Hsorted as [Hs Hhd].
    constructor; [by apply IH|].
    destruct summary as [|b summary]; [constructor|].
    rewrite fmap_cons in Hhd. apply HdRel_inv in Hhd. by constructor.
  - replace (sum_list_with s_Count summary)
      with (sum_list_with snd ((fun row => (s_Code row, s_Count row)) <$> summary))
      by (clear; induction summary as [|a s IH]; [done|];
          rewrite fmap_cons; cbn [sum_list_with snd]; by rewrite IH).
    rewrite Hcc, Hperm.
    replace (length (melted_codes to_numeric qid df)) with (length l)
      by (unfold l; by rewrite length_fmap).
    rewrite <- (sum_counts l (unique l)).
    + generalize (unique l). intros d.
      induction d as [|c d IH]; [done|]. rewrite fmap_cons.
      cbn [sum_list_with snd]. by rewrite IH.
    + apply unique_NoDup.
    + intros x Hx. by apply (proj2 (unique_elem_of _ _)).
Qed.

(** X12: when every CID cell of the codeframe sheet is an integer, no code
    of a reply, which is a text, equals any of them: every summary row has
    an empty Tag. *)
Theorem summary_tag_empty_for_integer_codes (to_numeric : Py.str -> option Z)
    (codeframe_df : list codeframe_row) (total_ids : nat)
    (qid : Py.str) (df : frame) (row : summary_row) :
  (forall r, r ∈ codeframe_df -> exists z, cf_CID r = VInt z) ->
  row ∈ code_counts to_numeric codeframe_df total_ids qid df ->
  s_Tag row = [].
Proof.
  intros Hint Hrow. unfold code_counts in Hrow.
  apply list_elem_of_fmap in Hrow as ([c n] & -> & _). cbn [s_Tag fst].
  unfold lookup_tag.
  destruct (List.filter _ codeframe_df) as [|r rs] eqn:Hf; [done|].
  assert (r ∈ List.filter (fun r => value_eq_str (cf_CID r) c) codeframe_df) as Hin
    by (rewrite Hf; left).
  apply list_elem_of_In, filter_In in Hin as [Hin%list_elem_of_In Heq].
  destruct (Hint r Hin) as [z Hz]. by rewrite Hz in Heq.
Qed.

Lemma summary_tag_empty_for_integer_codes_witness :
  s_Tag (SummaryRow $"Q1" $"5" [] [] 2 (truediv 2 2)) = [].
Proof.
  apply (summary_tag_empty_for_integer_codes to_numeric_int integer_codeframe 2
           $"Q1" repeated_code_triple (SummaryRow $"Q1" $"5" [] [] 2 (truediv 2 2))).
  - intros r Hr. unfold integer_codeframe in Hr.
    repeat (apply elem_of_cons in Hr as [->|Hr]; [by eexists|]).
    by apply elem_of_nil in Hr.
  - assert (code_counts to_numeric_int integer_codeframe 2 $"Q1" repeated_code_triple
            = repeated_code_summary) as -> by by vm_compute.
    left.
Defined.

(** X13: the Tag of a summary row is looked up in the whole codeframe
    sheet, without regard to the question: it is the Tag of the first row of
    the sheet whose CID is the text of the code, whatever that row's QID,
    and it is empty when no row of the sheet has that CID. *)
Theorem summary_tag_ignores_question (to_numeric : Py.str -> option Z)
    (codeframe_df : list codeframe_row) (total_ids : nat)
    (qid : Py.str) (df : frame) (row : summary_row) :
  row ∈ code_counts to_numeric codeframe_df total_ids qid df ->
  (forall before r after,
     codeframe_df = before ++ r :: after ->
     (forall r', r' ∈ before -> cf_CID r' <> VStr (s_Code row)) ->
     cf_CID r = VStr (s_Code row) ->
     s_Tag row = cf_Tag r)
  /\ ((forall r, r ∈ codeframe_df -> cf_CID r <> VStr (s_Code row)) ->
      s_Tag row = []).
Proof.
  intros Hrow. unfold code_counts in Hrow.
  apply list_elem_of_fmap in Hrow as ([c n] & -> & _).
  cbn [s_Tag s_Code fst] in *. unfold lookup_tag.
  assert (forall l : list codeframe_row,
            (forall r', r' ∈ l -> cf_CID r' <> VStr c) ->
            List.filter (fun r0 => value_eq_str (cf_CID r0) c) l = []) as Hnone.
  { induction l as [|b l IH]; intros Hl; [done|]. cbn [List.filter].
    assert (value_eq_str (cf_CID b) c = false) as ->.
    { pose proof (Hl b (list_elem_of_here _ _)) as Hb.
      destruct (cf_CID b) as [z|s|]; try done. cbn [value_eq_str].
      apply bool_decide_eq_false_2. congruence. }
    apply IH. intros r' Hr'. apply Hl. by right. }
  split.
  - intros before r after -> Hbefore Hr.
    rewrite List.filter_app, (Hnone before Hbefore).
    cbn [app List.filter]. rewrite Hr. cbn [value_eq_str].
    by rewrite bool_decide_eq_true_2.
  - intros Hall. by rewrite (Hnone codeframe_df Hall).
Qed.

Lemma summary_tag_ignores_question_witness :
  (forall before r after,
     text_codeframe = before ++ r :: after ->
     (forall r', r' ∈ before ->
        cf_CID r' <> VStr (s_Code (SummaryRow $"Q2" $"5" $"price" [] 1 (truediv 1 1)))) ->
     cf_CID r = VStr (s_Code (SummaryRow $"Q2" $"5" $"price" [] 1 (truediv 1 1))) ->
     s_Tag (SummaryRow $"Q2" $"5" $"price" [] 1 (truediv 1 1)) = cf_Tag r)
  /\ ((forall r, r ∈ text_codeframe ->
         cf_CID r <> VStr (s_Code (SummaryRow $"Q2" $"5" $"price" [] 1 (truediv 1 1)))) ->
      s_Tag (SummaryRow $"Q2" $"5" $"price" [] 1 (truediv 1 1)) = []).
Proof.
  apply (summary_tag_ignores_question to_numeric_int text_codeframe 1 $"Q2"
           (Frame [$"ID"; $"Q2_1"] [(1%Z, [Some $"5"])])
           (SummaryRow $"Q2" $"5" $"price" [] 1 (truediv 1 1))).
  assert (code_counts to_numeric_int text_codeframe 1 $"Q2"
            (Frame [$"ID"; $"Q2_1"] [(1%Z, [Some $"5"])])
          = [SummaryRow $"Q2" $"5" $"price" [] 1 (truediv 1 1)]) as -> by by vm_compute.
  left.
Defined.


(** ** The triple sheet *)

Lemma ID_le_total : Total ID_le.
Proof. intros a b. unfold ID_le. lia. Qed.

Lemma rows_of_elem (k : Z) (df : frame) (cells : list (option Py.str)) :
  cells ∈ rows_of k df <-> (k, cells) ∈ rows df.
Proof.
  unfold rows_of. rewrite list_elem_of_fmap. split.
  - intros ([k' c] & -> & Hin).
    apply list_elem_of_In, filter_In in Hin as [Hin Hk].
    apply bool_decide_eq_true in Hk. cbn [fst snd] in *. subst.
    by apply list_elem_of_In.
  - intros Hin. exists (k, cells). split; [done|].
    apply list_elem_of_In, filter_In. split; [by apply list_elem_of_In|].
    by apply bool_decide_eq_true.
Qed.

Lemma merge_outer_keys (left right : frame) (k : Z) :
  k ∈ merge_sort Z.le (remove_dups (IDs left ++ IDs right))
  <-> k ∈ IDs left \/ k ∈ IDs right.
Proof. by rewrite merge_sort_Permutation, elem_of_remove_dups, elem_of_app. Qed.

(** The rows of an outer join: a row of each side, or an empty side. *)
Lemma merge_outer_row (left right : frame) (k : Z) (cells : list (option Py.str)) :
  (k, cells) ∈ rows (merge_outer left right) <->
    (exists l r, (k, l) ∈ rows left /\ (k, r) ∈ rows right /\ cells = l ++ r)
    \/ (exists l, (k, l) ∈ rows left /\ (k ∉ IDs right)
                  /\ cells = l ++ replicate (width right) None)
    \/ (exists r, (k, r) ∈ rows right /\ (k ∉ IDs left)
                  /\ cells = replicate (width left) None ++ r).
Proof.
  unfold merge_outer. cbn [rows]. rewrite list_elem_of_bind.
  assert (forall df, rows_of k df = [] <-> k ∉ IDs df) as Hnone.
  { intros df. split.
    - intros Hnil Hin. by apply (rows_of_nonempty k df Hin).
    - intros Hnot. destruct (rows_of k df) as [|c cs] eqn:Hr; [done|].
      exfalso. apply Hnot. unfold IDs.
      apply (list_elem_of_fmap_2' fst _ (k, c)); [|done].
      apply rows_of_elem. rewrite Hr. left. }
  split.
  - intros (k' & Hrow & Hk').
    assert (k' = k) as ->.
    { destruct (rows_of k' left) as [|l ls], (rows_of k' right) as [|r rs].
      - by apply elem_of_nil in Hrow.
      - by apply list_elem_of_fmap in Hrow as (? & [= -> _] & _).
      - by apply list_elem_of_fmap in Hrow as (? & [= -> _] & _).
      - apply list_elem_of_bind in Hrow as (? & Hrow & _).
        by apply list_elem_of_fmap in Hrow as (? & [= -> _] & _). }
    destruct (rows_of k left) as [|l ls] eqn:Hl, (rows_of k right) as [|r rs] eqn:Hr.
    + by apply elem_of_nil in Hrow.
    + apply list_elem_of_fmap in Hrow as (r' & [= ->] & Hr').
      right. right. exists r'. split; [apply rows_of_elem; by rewrite Hr|].
      split; [by apply Hnone|done].
    + apply list_elem_of_fmap in Hrow as (l' & [= ->] & Hl').
      right. left. exists l'. split; [apply rows_of_elem; by rewrite Hl|].
      split; [by apply Hnone|done].
    + apply list_elem_of_bind in Hrow as (l' & Hrow & Hl').
      apply list_elem_of_fmap in Hrow as (r' & [= ->] & Hr').
      left. exists l', r'. split; [apply rows_of_elem; by rewrite Hl|].
      split; [apply rows_of_elem; by rewrite Hr|done].
  - intros Hcases. exists k.
    assert (k ∈ IDs left \/ k ∈ IDs right) as Hk.
    { destruct Hcases as [(l & r & Hl & _)|[(l & Hl & _)|(r & Hr & _)]].
      - left. by apply (list_elem_of_fmap_2' fst _ (k, l)).
      - left. by apply (list_elem_of_fmap_2' fst _ (k, l)).
      - right. by apply (list_elem_of_fmap_2' fst _ (k, r)). }
    split; [|by apply merge_outer_keys].
    destruct Hcases as [(l & r & Hl & Hr & ->)|[(l & Hl & Hr & ->)|(r & Hr & Hl & ->)]].
    + apply rows_of_elem in Hl, Hr.
      destruct (rows_of k left) as [|l0 ls]; [by apply elem_of_nil in Hl|].
      destruct (rows_of k right) as [|r0 rs]; [by apply elem_of_nil in Hr|].
      apply list_elem_of_bind. exists l. split; [|done].
      by apply (list_elem_of_fmap_2 (fun r1 => (k, l ++ r1))).
    + apply rows_of_elem in Hl. apply Hnone in Hr. rewrite Hr.
      destruct (rows_of k left) as [|l0 ls]; [by apply elem_of_nil in Hl|].
      by apply (list_elem_of_fmap_2 (fun l1 => (k, l1 ++ replicate (width right) None))).
    + apply rows_of_elem in Hr. apply Hnone in Hl. rewrite Hl.
      by apply (list_elem_of_fmap_2 (fun r1 => (k, replicate (width left) None ++ r1))).
Qed.

Lemma merge_outer_width (left right : frame) :
  columns left <> [] ->
  width (merge_outer left right) = (width left + width right)%nat.
Proof.
  intros Hc. unfold width. rewrite merge_outer_columns.
  destruct (columns left); [done|]. cbn [tl app]. by rewrite length_app.
Qed.

Lemma merge_outer_rectangular (left right : frame) :
  columns left <> [] -> rectangular left -> rectangular right ->
  rectangular (merge_outer left right).
Proof.
  intros Hc Hl Hr. unfold rectangular in *. rewrite Forall_forall in *.
  intros [k cells] Hrow. rewrite (merge_outer_width _ _ Hc). cbn [snd].
  apply merge_outer_row in Hrow
    as [(l & r & Hl' & Hr' & ->)|[(l & Hl' & _ & ->)|(r & Hr' & _ & ->)]].
  - specialize (Hl _ Hl'). specialize (Hr _ Hr'). cbn [snd] in *.
    rewrite length_app. lia.
  - specialize (Hl _ Hl'). cbn [snd] in *.
    rewrite length_app, length_replicate. lia.
  - specialize (Hr _ Hr'). cbn [snd] in *.
    rewrite length_app, length_replicate. lia.
Qed.

(** A row of either side is found again in the join, at its side. *)
Lemma merge_outer_keeps_left (left right : frame) (k : Z) (l : list (option Py.str)) :
  rectangular left -> (k, l) ∈ rows left ->
  exists cells, (k, cells) ∈ rows (merge_outer left right)
                /\ take (width left) cells = l.
Proof.
  intros Hrect Hl.
  assert (length l = width left) as Hlen
    by (unfold rectangular in Hrect; rewrite Forall_forall in Hrect;
        apply (Hrect _ Hl)).
  destruct (decide (k ∈ IDs right)) as [Hin|Hnot].
  - apply list_elem_of_fmap in Hin as ([k' r] & -> & Hr). cbn [fst] in *.
    exists (l ++ r). split; [|by rewrite <- Hlen, take_app_length].
    apply merge_outer_row. left. by exists l, r.
  - exists (l ++ replicate (width right) None).
    split; [|by rewrite <- Hlen, take_app_length].
    apply merge_outer_row. right. left. by exists l.
Qed.

Lemma merge_outer_keeps_right (left right : frame) (k : Z) (r : list (option Py.str)) :
  rectangular left -> (k, r) ∈ rows right ->
  exists cells, (k, cells) ∈ rows (merge_outer left right)
                /\ drop (width left) cells = r.
Proof.
  intros Hrect Hr.
  destruct (decide (k ∈ IDs left)) as [Hin|Hnot].
  - apply list_elem_of_fmap in Hin as ([k' l] & -> & Hl). cbn [fst] in *.
    assert (length l = width left) as Hlen
      by (unfold rectangular in Hrect; rewrite Forall_forall in Hrect;
          apply (Hrect _ Hl)).
    exists (l ++ r). split; [|by rewrite <- Hlen, drop_app_length].
    apply merge_outer_row. left. by exists l, r.
  - exists (replicate (width left) None ++ r).
    split; [|by rewrite drop_app_length' by (by rewrite length_replicate)].
    apply merge_outer_row. right. right. by exists r.
Qed.


Lemma merge_outer_well_formed (left right : frame) :
  well_formed left -> well_formed right -> well_formed (merge_outer left right).
Proof.
  intros [Hc Hl] [_ Hr]. split; [|by apply merge_outer_rectangular].
  rewrite merge_outer_columns. by destruct (columns left).
Qed.

Lemma foldl_merge_outer_well_formed (frames : list frame) : forall acc : frame,
  well_formed acc -> Forall well_formed frames ->
  well_formed (foldl merge_outer acc frames).
Proof.
  induction frames as [|df frames IH]; intros acc Hacc Hall; [done|].
  apply Forall_cons in Hall as [Hdf Hall]. cbn [foldl].
  apply IH; [by apply merge_outer_well_formed|done].
Qed.

Lemma foldl_merge_outer_width (frames : list frame) : forall acc : frame,
  columns acc <> [] ->
  width (foldl merge_outer acc frames)
    = (width acc + sum_list_with width frames)%nat.
Proof.
  induction frames as [|df frames IH]; intros acc Hc; cbn [foldl sum_list_with]; [lia|].
  rewrite IH, merge_outer_width by (rewrite ?merge_outer_columns; by destruct (columns acc)).
  lia.
Qed.

Lemma foldl_merge_outer_code_columns (frames : list frame) : forall acc : frame,
  columns acc <> [] ->
  tl (columns (foldl merge_outer acc frames))
    = tl (columns acc) ++ mjoin ((fun df => tl (columns df)) <$> frames).
Proof.
  induction frames as [|df frames IH]; intros acc Hc; cbn [foldl].
  - by rewrite app_nil_r.
  - rewrite IH by (rewrite merge_outer_columns; by destruct (columns acc)).
    rewrite merge_outer_columns, fmap_cons. cbn [mjoin list_join].
    destruct (columns acc); [done|]. cbn [tl app]. by rewrite <- app_assoc.
Qed.

Lemma foldl_merge_outer_keeps_first (frames : list frame) :
  forall (acc : frame) (k : Z) (l : list (option Py.str)),
  well_formed acc -> Forall well_formed frames ->
  (k, l) ∈ rows acc ->
  exists cells, (k, cells) ∈ rows (foldl merge_outer acc frames)
                /\ take (width acc) cells = l.
Proof.
  induction frames as [|df frames IH]; intros acc k l Hacc Hall Hl; cbn [foldl].
  - exists l. split; [done|]. destruct Hacc as [_ Hrect].
    unfold rectangular in Hrect. rewrite Forall_forall in Hrect.
    specialize (Hrect _ Hl). cbn [snd] in Hrect. by rewrite <- Hrect, firstn_all.
  - apply Forall_cons in Hall as [Hdf Hall].
    destruct (merge_outer_keeps_left acc df k l (proj2 Hacc) Hl) as (c1 & Hc1 & Ht1).
    destruct (IH (merge_outer acc df) k c1
                 (merge_outer_well_formed _ _ Hacc Hdf) Hall Hc1) as (c2 & Hc2 & Ht2).
    exists c2. split; [done|].
    rewrite (merge_outer_width _ _ (proj1 Hacc)) in Ht2.
    rewrite <- Ht1, <- Ht2, take_take. f_equal. lia.
Qed.

(** The cells of every row of every merged frame are found again in the
    merged table, at the position of the frame's columns. *)
Lemma foldl_merge_outer_keeps (frames : list frame) :
  forall (acc df : frame) (i : nat) (k : Z) (c : list (option Py.str)),
  well_formed acc -> Forall well_formed frames ->
  (acc :: frames) !! i = Some df -> (k, c) ∈ rows df ->
  exists cells, (k, cells) ∈ rows (foldl merge_outer acc frames)
                /\ take (width df) (drop (offset (acc :: frames) i) cells) = c.
Proof.
  induction frames as [|df1 frames IH]; intros acc df i k c Hacc Hall Hi Hc.
  - destruct i as [|i]; [|done]. injection Hi as <-.
    destruct (foldl_merge_outer_keeps_first [] acc k c Hacc Hall Hc) as (cells & H1 & H2).
    exists cells. split; [done|]. by rewrite drop_0.
  - destruct i as [|i].
    { injection Hi as <-.
      destruct (foldl_merge_outer_keeps_first (df1 :: frames) acc k c Hacc Hall Hc)
        as (cells & H1 & H2).
      exists cells. split; [done|]. by rewrite drop_0. }
    apply Forall_cons in Hall as [Hdf1 Hall].
    pose proof (merge_outer_well_formed _ _ Hacc Hdf1) as Hwf.
    pose proof (merge_outer_width acc df1 (proj1 Hacc)) as Hwidth.
    cbn [foldl]. destruct i as [|i].
    + injection Hi as Hi. subst df1.
      destruct (merge_outer_keeps_right acc df k c (proj2 Hacc) Hc) as (c1 & Hc1 & Hd1).
      destruct (foldl_merge_outer_keeps_first frames (merge_outer acc df) k c1 Hwf Hall Hc1)
        as (c2 & Hc2 & Ht2).
      exists c2. split; [done|].
      unfold offset. cbn [take sum_list_with]. rewrite Nat.add_0_r.
      by rewrite take_drop_commute, <- Hwidth, Ht2, Hd1.
    + destruct (IH (merge_outer acc df1) df (S i) k c Hwf Hall Hi Hc)
        as (cells & H1 & H2).
      exists cells. split; [done|]. rewrite <- H2. f_equal. f_equal.
      unfold offset. cbn [take sum_list_with]. lia.
Qed.

Lemma rows_of_at_most_one (k : Z) (df : frame) :
  NoDup (IDs df) -> (length (rows_of k df) <= 1)%nat.
Proof.
  unfold IDs, rows_of. rewrite length_fmap.
  induction (rows df) as [|[k' c] rs IH]; intros Hnd; [cbn; lia|].
  rewrite fmap_cons in Hnd. apply NoDup_cons in Hnd as [Hk Hnd].
  cbn [List.filter fst]. case_bool_decide as Heq; [|by apply IH].
  subst k'. cbn [length].
  assert (List.filter (fun r : Z * list (option Py.str) => bool_decide (r.1 = k)) rs = [])
    as ->; [|cbn; lia].
  destruct (List.filter _ rs) as [|r rs'] eqn:Hf; [done|]. exfalso. apply Hk.
  assert (r ∈ List.filter (fun r : Z * list (option Py.str) => bool_decide (r.1 = k)) rs)
    as Hin by (rewrite Hf; left).
  apply list_elem_of_In, filter_In in Hin as [Hin Hr].
  apply bool_decide_eq_true in Hr. subst k.
  apply list_elem_of_fmap. exists r. split; [done|]. by apply list_elem_of_In.
Qed.

(** Without repeated identifiers on either side, the join has one row per
    identifier, in ascending order. *)
Lemma merge_outer_IDs_distinct (left right : frame) :
  NoDup (IDs left) -> NoDup (IDs right) ->
  IDs (merge_outer left right)
    = merge_sort Z.le (remove_dups (IDs left ++ IDs right)).
Proof.
  intros Hl Hr. unfold merge_outer. unfold IDs at 1. cbn [rows].
  assert (forall keys : list Z,
            (forall k, k ∈ keys -> k ∈ IDs left \/ k ∈ IDs right) ->
            (keys ≫= fun k =>
               match rows_of k left, rows_of k right with
               | [], rs => (fun r => (k, replicate (width left) None ++ r)) <$> rs
               | ls, [] => (fun l => (k, l ++ replicate (width right) None)) <$> ls
               | ls, rs => ls ≫= fun l => (fun r => (k, l ++ r)) <$> rs
               end).*1 = keys) as Hkeys.
  { induction keys as [|k keys IH]; intros Hin; [done|].
    rewrite bind_cons, fmap_app, IH by (intros k' Hk'; apply Hin; by right).
    pose proof (rows_of_at_most_one k left Hl) as H1.
    pose proof (rows_of_at_most_one k right Hr) as H2.
    assert (rows_of k left <> [] \/ rows_of k right <> []) as Hne
      by (destruct (Hin k (list_elem_of_here _ _)); [left|right];
          by apply rows_of_nonempty).
    destruct (rows_of k left) as [|l [|? ?]], (rows_of k right) as [|r [|? ?]];
      cbn [length] in H1, H2; try lia; try done.
    by destruct Hne. }
  apply Hkeys. intros k Hk. by apply merge_outer_keys.
Qed.

Lemma merge_sort_le_NoDup (l : list Z) : NoDup (merge_sort Z.le (remove_dups l)).
Proof. rewrite merge_sort_Permutation. apply NoDup_remove_dups. Qed.

Lemma foldl_merge_outer_distinct (frames : list frame) : forall acc : frame,
  NoDup (IDs acc) -> Forall (fun df => NoDup (IDs df)) frames ->
  NoDup (IDs (foldl merge_outer acc frames)).
Proof.
  induction frames as [|df frames IH]; intros acc Hacc Hall; [done|].
  apply Forall_cons in Hall as [Hdf Hall]. cbn [foldl]. apply IH; [|done].
  rewrite merge_outer_IDs_distinct by done. apply merge_sort_le_NoDup.
Qed.

Lemma retained_well_formed (st : coding_state) :
  retained st -> Forall well_formed (dfs st).
Proof.
  unfold retained. generalize (processed_qids st) (dfs st).
  induction 1 as [|qid df qids frames [[_ Hrect] Hne] _ IH]; constructor; [|done].
  apply frame_empty_false in Hne as [Hc _]. by split.
Qed.

Section TripleFacts.

Variable to_numeric : Py.str -> option Z.
Variable net : transport.
Variable prompt_of : Py.str -> Py.str.

(** The triple sheet of a run is the sorted join of its retained frames,
    which are well formed. *)
Lemma triple_of_run (fuel : nat) (codeframe_df : list codeframe_row)
    (unique_qids : list Py.str) (w w' : world) (st : coding_state)
    (triple : frame) (summary : list summary_row) (processed failed : list Py.str) :
  coding_loop to_numeric net prompt_of fuel initial_state unique_qids w = (Returned st, w') ->
  coding_outputs to_numeric codeframe_df st = Outputs triple summary processed failed ->
  exists df0 frames,
    dfs st = df0 :: frames
    /\ well_formed df0 /\ Forall well_formed frames
    /\ triple = sort_values_ID (foldl merge_outer df0 frames)
    /\ processed = processed_qids st /\ failed = fail_qids st.
Proof.
  intros Hrun Hout.
  pose proof (coding_loop_retained _ _ _ _ _ _ _ _ _ retained_initial Hrun) as Hst.
  apply retained_well_formed in Hst.
  unfold coding_outputs in Hout.
  destruct (dfs st) as [|df0 frames]; [done|].
  cbn [reduce] in Hout. injection Hout as <- _ <- <-.
  apply Forall_cons in Hst as [H0 Hall]. by exists df0, frames.
Qed.

End TripleFacts.

(** X14: the triple sheet of a run over the distinct questions of the
    question sheet is rectangular and sorted: its rows come in ascending
    order of ID, its code columns are the code columns of the retained
    frames, in the order the questions were processed, and every row has
    one cell per code column. *)
Theorem triple_sheet_shape (to_numeric : Py.str -> option Z)
    (net : transport) (prompt_of : Py.str -> Py.str) (fuel : nat)
    (codeframe_df : list codeframe_row) (QID_column : list (option Py.str))
    (w w' : world) (st : coding_state)
    (triple : frame) (summary : list summary_row) (processed failed : list Py.str) :
  coding_loop to_numeric net prompt_of fuel initial_state
              (unique_qids_of QID_column) w = (Returned st, w') ->
  coding_outputs to_numeric codeframe_df st = Outputs triple summary processed failed ->
  Sorted Z.le (IDs triple)
  /\ tl (columns triple) = mjoin ((fun df => tl (columns df)) <$> dfs st)
  /\ width triple = sum_list_with width (dfs st)
  /\ rectangular triple.
Proof.
  intros Hrun Hout.
  destruct (triple_of_run to_numeric net prompt_of _ _ _ _ _ _ _ _ _ _ Hrun Hout)
    as (df0 & frames & -> & H0 & Hall & -> & _ & _).
  pose proof (foldl_merge_outer_well_formed frames df0 H0 Hall) as [_ Hrect].
  split; [|split; [|split]].
  - unfold IDs, sort_values_ID. cbn [rows].
    pose proof ID_le_total as Htotal.
    apply (Sorted_fmap fst ID_le Z.le); [by intros a b|].
    apply (Sorted_merge_sort ID_le).
  - cbn [sort_values_ID columns].
    by rewrite (foldl_merge_outer_code_columns frames df0 (proj1 H0)), fmap_cons.
  - unfold width at 1. cbn [sort_values_ID columns].
    fold (width (foldl merge_outer df0 frames)).
    by rewrite (foldl_merge_outer_width frames df0 (proj1 H0)).
  - unfold rectangular in *. cbn [sort_values_ID rows].
    rewrite merge_sort_Permutation. exact Hrect.
Qed.

Lemma triple_sheet_shape_witness :
  Sorted Z.le (IDs three_question_triple)
  /\ tl (columns three_question_triple)
     = mjoin ((fun df => tl (columns df)) <$> dfs three_question_state)
  /\ width three_question_triple = sum_list_with width (dfs three_question_state)
  /\ rectangular three_question_triple.
Proof.
  apply (triple_sheet_shape to_numeric_int two_answers_net (fun _ => $"p")
           (S max_retries) []
           [Some $"Q1"; Some $"Q2"; None; Some $"Q3"; Some $"Q1"] (World 0 [])
           three_question_world three_question_state
           three_question_triple three_question_summary [$"Q1"; $"Q2"] [$"Q3"]).
  - exact three_question_run.
  - exact three_question_outputs.
Defined.

(** X15: nothing a retained frame holds is lost in the triple sheet: for
    every row of the frame of the [i]-th processed question there is a row
    of the triple sheet with the same ID that holds the row's cells in the
    columns of that question. *)
Theorem triple_sheet_keeps_codes (to_numeric : Py.str -> option Z)
    (net : transport) (prompt_of : Py.str -> Py.str) (fuel : nat)
    (codeframe_df : list codeframe_row) (QID_column : list (option Py.str))
    (w w' : world) (st : coding_state)
    (triple : frame) (summary : list summary_row) (processed failed : list Py.str)
    (i : nat) (df : frame) (k : Z) (c : list (option Py.str)) :
  coding_loop to_numeric net prompt_of fuel initial_state
              (unique_qids_of QID_column) w = (Returned st, w') ->
  coding_outputs to_numeric codeframe_df st = Outputs triple summary processed failed ->
  dfs st !! i = Some df ->
  (k, c) ∈ rows df ->
  exists cells,
    (k, cells) ∈ rows triple
    /\ take (width df) (drop (offset (dfs st) i) cells) = c.
Proof.
  intros Hrun Hout Hi Hc.
  destruct (triple_of_run to_numeric net prompt_of _ _ _ _ _ _ _ _ _ _ Hrun Hout)
    as (df0 & frames & Hdfs & H0 & Hall & -> & _ & _).
  rewrite Hdfs in *.
  destruct (foldl_merge_outer_keeps frames df0 df i k c H0 Hall Hi Hc)
    as (cells & Hin & Hcells).
  exists cells. split; [|done].
  cbn [sort_values_ID rows]. by rewrite merge_sort_Permutation.
Qed.

Lemma triple_sheet_keeps_codes_witness :
  exists cells,
    (2%Z, cells) ∈ rows three_question_triple
    /\ take (width second_frame)
            (drop (offset (dfs three_question_state) 1) cells) = [Some $"9"].
Proof.
  apply (triple_sheet_keeps_codes to_numeric_int two_answers_net (fun _ => $"p")
           (S max_retries) []
           [Some $"Q1"; Some $"Q2"; None; Some $"Q3"; Some $"Q1"] (World 0 [])
           three_question_world three_question_state
           three_question_triple three_question_summary [$"Q1"; $"Q2"] [$"Q3"]
           1 second_frame 2 [Some $"9"]).
  - exact three_question_run.
  - exact three_question_outputs.
  - reflexivity.
  - right. left.
Defined.

(** X16: when no retained frame repeats an identifier, the triple sheet
    has exactly one row per respondent. *)
Theorem triple_sheet_one_row_per_respondent (to_numeric : Py.str -> option Z)
    (net : transport) (prompt_of : Py.str -> Py.str) (fuel : nat)
    (codeframe_df : list codeframe_row) (unique_qids : list Py.str)
    (w w' : world) (st : coding_state)
    (triple : frame) (summary : list summary_row) (processed failed : list Py.str) :
  coding_loop to_numeric net prompt_of fuel initial_state unique_qids w = (Returned st, w') ->
  coding_outputs to_numeric codeframe_df st = Outputs triple summary processed failed ->
  Forall (fun df => NoDup (IDs df)) (dfs st) ->
  NoDup (IDs triple).
Proof.
  intros Hrun Hout Hnd.
  destruct (triple_of_run to_numeric net prompt_of _ _ _ _ _ _ _ _ _ _ Hrun Hout)
    as (df0 & frames & Hdfs & _ & _ & -> & _ & _).
  rewrite Hdfs in Hnd. apply Forall_cons in Hnd as [H0 Hall].
  unfold IDs, sort_values_ID. cbn [rows]. rewrite merge_sort_Permutation.
  by apply foldl_merge_outer_distinct.
Qed.

Lemma triple_sheet_one_row_per_respondent_witness :
  NoDup (IDs three_question_triple).
Proof.
  apply (triple_sheet_one_row_per_respondent to_numeric_int two_answers_net
           (fun _ => $"p") (S max_retries) [] [$"Q1"; $"Q2"; $"Q3"] (World 0 [])
           three_question_world three_question_state
           three_question_triple three_question_summary [$"Q1"; $"Q2"] [$"Q3"]).
  - exact three_question_run.
  - exact three_question_outputs.
  - repeat constructor; apply (bool_decide_unpack _); by vm_compute.
Defined.


(** ** The binary sheet *)

Lemma dict_set_elem_of {V} (d : list (Py.str * V)) (key : Py.str) (v : V)
    (x : Py.str * V) :
  x ∈ dict_set d key v -> x ∈ d \/ x = (key, v).
Proof.
  induction d as [|[k y] d IH]; cbn [dict_set].
  - intros ->%list_elem_of_singleton. by right.
  - destruct (decide (k = key)) as [->|Hk].
    + rewrite bool_decide_eq_true_2 by done.
      intros [->|Hx]%elem_of_cons; [by right|]. left. by right.
    + rewrite bool_decide_eq_false_2 by done.
      intros [->|Hx]%elem_of_cons; [left; by left|].
      destruct (IH Hx) as [?|?]; [left; by right|by right].
Qed.

Lemma dict_set_keys {V} (d : list (Py.str * V)) (key : Py.str) (v : V) :
  (dict_set d key v).*1 = if bool_decide (key ∈ d.*1) then d.*1 else d.*1 ++ [key].
Proof.
  induction d as [|[k y] d IH]; cbn [dict_set]; [done|].
  rewrite fmap_cons. cbn [fst]. destruct (decide (k = key)) as [->|Hk].
  - rewrite !bool_decide_eq_true_2; [done|left|done].
  - rewrite (bool_decide_eq_false_2 (k = key)) by done.
    rewrite fmap_cons, IH. cbn [fst].
    destruct (decide (key ∈ d.*1)) as [Hin|Hin].
    + rewrite !bool_decide_eq_true_2; [done|by right|done].
    + rewrite !bool_decide_eq_false_2; [done| |done].
      intros [->|?]%elem_of_cons; done.
Qed.

Lemma dict_set_keys_NoDup {V} (d : list (Py.str * V)) (key : Py.str) (v : V) :
  NoDup d.*1 -> NoDup (dict_set d key v).*1.
Proof.
  intros Hnd. rewrite dict_set_keys. case_bool_decide as Hin; [done|].
  apply NoDup_app. split; [done|]. split; [|apply NoDup_singleton].
  intros k Hk ->%list_elem_of_singleton. done.
Qed.

Lemma dict_set_keys_grow {V} (d : list (Py.str * V)) (key : Py.str) (v : V)
    (k : Py.str) :
  k ∈ (dict_set d key v).*1 <-> k ∈ d.*1 \/ k = key.
Proof.
  rewrite dict_set_keys. case_bool_decide as Hin.
  - split; [by left|]. by intros [?| ->].
  - rewrite elem_of_app, list_elem_of_singleton. done.
Qed.

Section DictFold.

Context {C V : Type}.
Variable kf : C -> Py.str.
Variable vf : C -> V.

Lemma foldl_dict_set_Forall (P : Py.str * V -> Prop) (codes : list C) :
  forall cols : list (Py.str * V),
  Forall P cols -> (forall c, c ∈ codes -> P (kf c, vf c)) ->
  Forall P (foldl (fun cols c => dict_set cols (kf c) (vf c)) cols codes).
Proof.
  induction codes as [|c codes IH]; intros cols Hcols Hcodes; [done|].
  cbn [foldl]. apply IH.
  - apply Forall_forall. intros x Hx.
    destruct (dict_set_elem_of _ _ _ _ Hx) as [Hin| ->].
    + rewrite Forall_forall in Hcols. by apply Hcols.
    + apply Hcodes. left.
  - intros c' Hc'. apply Hcodes. by right.
Qed.

Lemma foldl_dict_set_NoDup (codes : list C) : forall cols : list (Py.str * V),
  NoDup cols.*1 ->
  NoDup (foldl (fun cols c => dict_set cols (kf c) (vf c)) cols codes).*1.
Proof.
  induction codes as [|c codes IH]; intros cols Hcols; [done|].
  cbn [foldl]. apply IH. by apply dict_set_keys_NoDup.
Qed.

Lemma foldl_dict_set_keys (codes : list C) :
  forall (cols : list (Py.str * V)) (k : Py.str),
  k ∈ (foldl (fun cols c => dict_set cols (kf c) (vf c)) cols codes).*1
  <-> k ∈ cols.*1 \/ exists c, c ∈ codes /\ k = kf c.
Proof.
  induction codes as [|c codes IH]; intros cols k; cbn [foldl].
  - split; [by left|]. intros [?|(c & Hc & _)]; [done|by apply elem_of_nil in Hc].
  - rewrite IH, dict_set_keys_grow. split.
    + intros [[?| ->]|(c' & Hc' & ->)]; [by left| |].
      * right. exists c. split; [left|done].
      * right. exists c'. split; [by right|done].
    + intros [?|(c' & [->|Hc']%elem_of_cons & ->)]; [left; by left| |].
      * left. by right.
      * right. by exists c'.
Qed.

End DictFold.

Lemma binary_column_lookup (melted : list (Z * Py.str)) (ids : list Z)
    (code : Py.str) :
  binary_column melted ids code
    = (fun id_val => if bool_decide ((id_val, code) ∈ melted)
                     then Some 1%Z else None) <$> ids.
Proof.
  unfold binary_column. apply list_fmap_ext. intros _ id_val _.
  destruct (existsb _ melted) eqn:Hex.
  - apply existsb_exists in Hex as ([k c] & Hin & Hp). cbn [fst snd] in Hp.
    apply andb_true_iff in Hp as [->%bool_decide_eq_true ->%bool_decide_eq_true].
    rewrite bool_decide_eq_true_2; [done|by apply list_elem_of_In].
  - rewrite bool_decide_eq_false_2; [done|]. intros Hin.
    assert (existsb (fun p : Z * Py.str =>
                       bool_decide (p.1 = id_val) && bool_decide (p.2 = code))
                    melted = true) as Hex'; [|by rewrite Hex' in Hex].
    apply existsb_exists. exists (id_val, code). split; [by apply list_elem_of_In|].
    cbn [fst snd]. by rewrite !bool_decide_eq_true_2.
Qed.

Section BinaryFacts.

Variable to_numeric : Py.str -> option Z.

Lemma binary_question_columns (ids : list Z) (questions : list (Py.str * frame))
    (cols : list (Py.str * list (option Z))) (qid : Py.str) (qid_df : frame) :
  Forall (binary_column_of to_numeric ids questions) cols ->
  (qid, qid_df) ∈ questions ->
  Forall (binary_column_of to_numeric ids questions)
         (binary_question to_numeric ids cols qid qid_df).
Proof.
  intros Hcols Hq. unfold binary_question. cbv zeta.
  apply (foldl_dict_set_Forall
           (fun code => qid ++ $"-" ++ code)
           (fun code => binary_column (melted_codes to_numeric qid qid_df) ids code));
    [done|].
  intros code Hcode. apply (proj1 (unique_elem_of _ _)) in Hcode.
  exists qid, qid_df, code.
  split; [done|]. split; [done|]. split; [done|]. cbn [snd].
  apply binary_column_lookup.
Qed.

Lemma binary_questions_columns (ids : list Z) (questions : list (Py.str * frame)) :
  forall (todo : list (Py.str * frame)) (cols : list (Py.str * list (option Z))),
  Forall (binary_column_of to_numeric ids questions) cols ->
  todo ⊆ questions ->
  Forall (binary_column_of to_numeric ids questions)
         (foldl (fun cols qf => binary_question to_numeric ids cols qf.1 qf.2)
                cols todo).
Proof.
  induction todo as [|[qid df] todo IH]; intros cols Hcols Hsub; [done|].
  cbn [foldl fst snd]. apply IH.
  - apply binary_question_columns; [done|]. apply Hsub. left.
  - intros x Hx. apply Hsub. by right.
Qed.

Lemma binary_questions_names (ids : list Z) :
  forall (todo : list (Py.str * frame)) (cols : list (Py.str * list (option Z)))
         (name : Py.str),
  name ∈ (foldl (fun cols qf => binary_question to_numeric ids cols qf.1 qf.2)
                cols todo).*1
  <-> name ∈ cols.*1
      \/ exists qid df code,
           (qid, df) ∈ todo /\ code ∈ (melted_codes to_numeric qid df).*2
           /\ name = qid ++ $"-" ++ code.
Proof.
  induction todo as [|[qid df] todo IH]; intros cols name; cbn [foldl fst snd].
  - split; [by left|].
    intros [?|(q & d & c & Hin & _)]; [done|by apply elem_of_nil in Hin].
  - rewrite IH. unfold binary_question. cbv zeta.
    rewrite (foldl_dict_set_keys
               (fun code => qid ++ $"-" ++ code)
               (fun code => binary_column (melted_codes to_numeric qid df) ids code)).
    split.
    + intros [[?|(code & Hcode & ->)]|(q & d & c & Hin & Hc & ->)].
      * by left.
      * apply (proj1 (unique_elem_of _ _)) in Hcode.
        right. exists qid, df, code. split; [left|done].
      * right. exists q, d, c. split; [by right|done].
    + intros [?|(q & d & c & [Heq|Hin]%elem_of_cons & Hc & ->)].
      * left. by left.
      * injection Heq as -> ->. left. right. exists c.
        split; [by apply (proj2 (unique_elem_of _ _))|done].
      * right. by exists q, d, c.
Qed.

Lemma binary_questions_NoDup (ids : list Z) :
  forall (todo : list (Py.str * frame)) (cols : list (Py.str * list (option Z))),
  NoDup cols.*1 ->
  NoDup (foldl (fun cols qf => binary_question to_numeric ids cols qf.1 qf.2)
               cols todo).*1.
Proof.
  induction todo as [|[qid df] todo IH]; intros cols Hcols; [done|].
  cbn [foldl fst snd]. apply IH. unfold binary_question. cbv zeta.
  by apply (foldl_dict_set_NoDup
              (fun code => qid ++ $"-" ++ code)
              (fun code => binary_column (melted_codes to_numeric qid df) ids code)).
Qed.

End BinaryFacts.

(** X17: the ID column of the binary sheet lists every identifier of the
    merged table exactly once, in ascending order. *)
Theorem binary_sheet_ids (to_numeric : Py.str -> option Z) (merged_df : frame)
    (processed : list Py.str) (frames : list frame) :
  Sorted Z.le (b_ID (binary_sheet to_numeric merged_df processed frames))
  /\ NoDup (b_ID (binary_sheet to_numeric merged_df processed frames))
  /\ forall k, k ∈ b_ID (binary_sheet to_numeric merged_df processed frames)
               <-> k ∈ IDs merged_df.
Proof.
  unfold binary_sheet. cbn [b_ID]. split; [|split].
  - apply (Sorted_merge_sort Z.le).
  - rewrite merge_sort_Permutation. apply unique_NoDup.
  - intros k. rewrite merge_sort_Permutation. apply unique_elem_of.
Qed.

(** X18: every column of the binary sheet is the column [qid-code] of a
    code observed, after the filters, for a processed question; it has one
    cell per identifier, 1 where the respondent has that code in the
    question's frame and NA elsewhere, never 0. *)
Theorem binary_sheet_columns (to_numeric : Py.str -> option Z) (merged_df : frame)
    (processed : list Py.str) (frames : list frame) :
  Forall (binary_column_of to_numeric
            (b_ID (binary_sheet to_numeric merged_df processed frames))
            (zip processed frames))
         (b_columns (binary_sheet to_numeric merged_df processed frames)).
Proof.
  unfold binary_sheet. cbn [b_ID b_columns].
  by apply binary_questions_columns.
Qed.

(** X19: the binary sheet has a column, and only one, for every code
    observed for a processed question: its column names are distinct, and
    they are exactly the names [qid-code] of the observed codes. *)
Theorem binary_sheet_column_names (to_numeric : Py.str -> option Z)
    (merged_df : frame) (processed : list Py.str) (frames : list frame) :
  NoDup (b_columns (binary_sheet to_numeric merged_df processed frames)).*1
  /\ forall name,
       name ∈ (b_columns (binary_sheet to_numeric merged_df processed frames)).*1
       <-> exists qid df code,
             (qid, df) ∈ zip processed frames
             /\ code ∈ (melted_codes to_numeric qid df).*2
             /\ name = qid ++ $"-" ++ code.
Proof.
  unfold binary_sheet. cbn [b_columns]. split.
  - apply binary_questions_NoDup. constructor.
  - intros name. rewrite binary_questions_names. split; [|by right].
    intros [Hin|?]; [by apply elem_of_nil in Hin|done].
Qed.


(** ** The discovery calls *)

Lemma usable_blank (md : Py.str) :
  Py.truthy md && Py.truthy (Py.strip md) = negb (blank md).
Proof.
  rewrite truthy_strip. destruct md; [done|]. done.
Qed.

Lemma posts_app (t1 t2 : list event) : posts (t1 ++ t2) = (posts t1 + posts t2)%nat.
Proof. unfold posts. by rewrite List.filter_app, length_app. Qed.

Lemma sleeps_app (t1 t2 : list event) : sleeps (t1 ++ t2) = (sleeps t1 + sleeps t2)%nat.
Proof. unfold sleeps. by rewrite List.filter_app, length_app. Qed.

Section DiscoveryFacts.

Context {number : Type}.
Variable to_numeric : Py.str -> option number.
Variable astype_int : list (option number) -> number -> option Z.
Variable net : transport.
Variable prompt_of : value -> Py.str.

(** One iteration on a call that delivers a body. *)
Lemma discovery_loop_body (fuel : nat) (prompt : Py.str) (attempt : nat)
    (md0 : option pyval) (w : world) (md : Py.str) :
  (attempt < max_attempts)%nat ->
  body_of (net (posted w) (Request prompt 16384%N)) = Some md ->
  discovery_loop net (S fuel) prompt attempt md0 w
    = if blank md
      then discovery_loop net fuel prompt (S attempt) (Some (Str md))
             (World (S (posted w)) (trace w ++ [Post (Request prompt 16384%N)]))
      else (Returned (Some (Str md)),
            World (S (posted w)) (trace w ++ [Post (Request prompt 16384%N)])).
Proof.
  intros Hlt Hbody. cbn [discovery_loop].
  assert ((attempt <? max_attempts)%nat = true) as -> by by apply Nat.ltb_lt.
  unfold mbind at 1, io_bind at 1, post at 1. cbv beta iota zeta.
  destruct (net (posted w) (Request prompt 16384%N)) as [| |c|body| |]; try done;
    cbn [body_of] in Hbody; injection Hbody as Hmd.
  - subst md. rewrite usable_blank. by destruct (blank c).
  - rewrite Hmd, usable_blank. by destruct (blank md).
Qed.

(** One iteration on a call after which an exception is caught. *)
Lemma discovery_loop_raise (fuel : nat) (prompt : Py.str) (attempt : nat)
    (md0 : option pyval) (w : world) :
  (attempt < max_attempts)%nat ->
  body_of (net (posted w) (Request prompt 16384%N)) = None ->
  discovery_loop net (S fuel) prompt attempt md0 w
    = discovery_loop net fuel prompt (S attempt)
        (assigned md0 (net (posted w) (Request prompt 16384%N)))
        (World (S (posted w))
               (trace w ++ [Post (Request prompt 16384%N); Sleep 5])).
Proof.
  intros Hlt Hbody. cbn [discovery_loop].
  assert ((attempt <? max_attempts)%nat = true) as -> by by apply Nat.ltb_lt.
  unfold mbind at 1, io_bind at 1, post at 1. cbv beta iota zeta.
  destruct (net (posted w) (Request prompt 16384%N)) as [| |c|body|c|e]; try done;
    unfold mbind, io_bind, sleep; cbv beta iota; cbn [posted trace assigned];
    by rewrite <- app_assoc.
Qed.

Lemma replies_from_S (req : request) (start k : nat) :
  replies_from net req start (S k)
    = net start req :: replies_from net req (S start) k.
Proof.
  unfold replies_from. cbn [seq fmap list_fmap]. rewrite Nat.add_0_r. f_equal.
  rewrite <- seq_shift.
  change (list_fmap nat reply (fun i => net (start + i)%nat req) (List.map S (seq 0 k)))
    with ((fun i => net (start + i)%nat req) <$> (S <$> seq 0 k)).
  rewrite <- list_fmap_compose. apply list_fmap_ext. intros i x _. cbn.
  by replace (start + S x)%nat with (S (start + x)) by lia.
Qed.

(** Whatever the endpoint does, the loop ends within its fuel after at most
    as many requests as attempts are left, with a sleep of 5 after each
    call that raised and no other; it ends with the first reply that
    delivers a text that is not blank, or with the last attempt, and gives
    what the replies have assigned. *)
Lemma discovery_loop_attempts (prompt : Py.str) (n : nat) :
  forall (attempt extra : nat) (md0 : option pyval) (w : world),
  (attempt + n = max_attempts)%nat ->
  exists (k : nat) (evs : list event),
    discovery_loop net (S n + extra) prompt attempt md0 w
      = (Returned (foldl assigned md0
                         (replies_from net (Request prompt 16384%N) (posted w) k)),
         World (k + posted w) (trace w ++ evs))
    /\ (k <= n)%nat /\ (1 <= n -> 1 <= k)%nat
    /\ posts evs = k /\ (sleeps evs <= k)%nat
    /\ Forall (discovery_event (Request prompt 16384%N)) evs
    /\ (forall i, (i < k - 1)%nat ->
          ends_discovery (net (posted w + i) (Request prompt 16384%N)) = false)
    /\ ((k < n)%nat ->
          ends_discovery (net (posted w + (k - 1)) (Request prompt 16384%N)) = true).
Proof.
  induction n as [|n IH]; intros attempt extra md0 w Hsum.
  - exists 0%nat, []. cbn [Nat.add discovery_loop].
    assert ((attempt <? max_attempts)%nat = false) as -> by (apply Nat.ltb_ge; lia).
    rewrite app_nil_r. destruct w. repeat split; try done; lia.
  - assert (attempt < max_attempts)%nat as Hlt by lia.
    change (S (S n) + extra)%nat with (S (S n + extra)).
    destruct (body_of (net (posted w) (Request prompt 16384%N))) as [md|] eqn:Hbody.
    + rewrite (discovery_loop_body _ _ _ _ _ md Hlt Hbody).
      assert (assigned md0 (net (posted w) (Request prompt 16384%N)) = Some (Str md))
        as Hassigned.
      { destruct (net (posted w) (Request prompt 16384%N)); try done;
          cbn [body_of] in Hbody; injection Hbody as <-; done. }
      destruct (blank md) eqn:Hblank.
      * destruct (IH (S attempt) extra (Some (Str md))
                   (World (S (posted w)) (trace w ++ [Post (Request prompt 16384%N)]))
                   ltac:(lia))
          as (k & evs & Hrun & Hk & Hk1 & Hp & Hs & Hev & Hbefore & Hlast).
        cbn [posted trace] in Hrun, Hbefore, Hlast.
        exists (S k), (Post (Request prompt 16384%N) :: evs).
        rewrite Hrun, replies_from_S. cbn [foldl]. rewrite Hassigned.
        split; [f_equal; f_equal; [lia|by rewrite <- app_assoc]|].
        split; [lia|]. split; [lia|].
        change (Post (Request prompt 16384%N) :: evs)
          with ([Post (Request prompt 16384%N)] ++ evs).
        rewrite posts_app, sleeps_app, Hp.
        split; [done|]. split; [cbn; lia|].
        split; [apply Forall_app; split; [|done]; constructor; [by left|constructor]|].
        split.
        -- intros i Hi. destruct i as [|i].
           ++ rewrite Nat.add_0_r. unfold ends_discovery. by rewrite Hbody, Hblank.
           ++ replace (posted w + S i)%nat with (S (posted w) + i)%nat by lia.
              apply Hbefore. lia.
        -- intros Hkn. destruct k as [|k].
           ++ assert (1 <= n)%nat as Hn by lia. specialize (Hk1 Hn). lia.
           ++ replace (posted w + (S (S k) - 1))%nat
                with (S (posted w) + (S k - 1))%nat by lia.
              apply Hlast. lia.
      * exists 1%nat, [Post (Request prompt 16384%N)].
        rewrite replies_from_S. cbn [foldl replies_from seq fmap list_fmap].
        rewrite Hassigned.
        split; [done|]. split; [lia|]. split; [lia|]. split; [done|].
        split; [cbn; lia|]. split; [constructor; [by left|constructor]|].
        split; [intros i Hi; lia|]. intros _. cbn [Nat.sub].
        rewrite Nat.add_0_r. unfold ends_discovery. by rewrite Hbody, Hblank.
    + rewrite (discovery_loop_raise _ _ _ _ _ Hlt Hbody).
      destruct (IH (S attempt) extra
                   (assigned md0 (net (posted w) (Request prompt 16384%N)))
                   (World (S (posted w))
                          (trace w ++ [Post (Request prompt 16384%N); Sleep 5]))
                   ltac:(lia))
        as (k & evs & Hrun & Hk & Hk1 & Hp & Hs & Hev & Hbefore & Hlast).
      cbn [posted trace] in Hrun, Hbefore, Hlast.
      exists (S k), ([Post (Request prompt 16384%N); Sleep 5] ++ evs).
      rewrite Hrun, replies_from_S. cbn [foldl].
      split; [f_equal; f_equal; [lia|by rewrite <- app_assoc]|].
      split; [lia|]. split; [lia|].
      rewrite posts_app, sleeps_app, Hp.
      split; [done|]. split; [cbn; lia|].
      split.
      { apply Forall_app. split; [|done].
        constructor; [by left|]. constructor; [by right|constructor]. }
      split.
      * intros i Hi. destruct i as [|i].
        -- rewrite Nat.add_0_r. unfold ends_discovery. by rewrite Hbody.
        -- replace (posted w + S i)%nat with (S (posted w) + i)%nat by lia.
           apply Hbefore. lia.
      * intros Hkn. destruct k as [|k].
        -- assert (1 <= n)%nat as Hn by lia. specialize (Hk1 Hn). lia.
        -- replace (posted w + (S (S k) - 1))%nat
             with (S (posted w) + (S k - 1))%nat by lia.
           apply Hlast. lia.
Qed.

(** Blank bodies are followed by the next request at once. *)
Lemma discovery_loop_blank_replies (prompt : Py.str) (md : Py.str) (k : nat) :
  forall (attempt fuel : nat) (md0 : option pyval) (w : world),
  (attempt + k < max_attempts)%nat ->
  (forall i, (i < k)%nat ->
     exists b, body_of (net (posted w + i) (Request prompt 16384%N)) = Some b
               /\ blank b = true) ->
  body_of (net (posted w + k) (Request prompt 16384%N)) = Some md ->
  blank md = false ->
  discovery_loop net (S k + fuel) prompt attempt md0 w
    = (Returned (Some (Str md)),
       World (S k + posted w)
             (trace w ++ replicate (S k) (Post (Request prompt 16384%N)))).
Proof.
  induction k as [|k IH]; intros attempt fuel md0 w Hlt Hblank Hbody Hmd.
  - rewrite Nat.add_0_r in Hbody. cbn [Nat.add].
    rewrite (discovery_loop_body fuel prompt attempt md0 w md ltac:(lia) Hbody), Hmd. done.
  - destruct (Hblank 0%nat ltac:(lia)) as (b & Hb & Hbb).
    rewrite Nat.add_0_r in Hb.
    change (S (S k) + fuel)%nat with (S (S k + fuel)).
    rewrite (discovery_loop_body (S k + fuel) prompt attempt md0 w b ltac:(lia) Hb), Hbb.
    rewrite IH.
    + cbn [posted trace]. f_equal. f_equal; [lia|].
      rewrite <- app_assoc. done.
    + lia.
    + intros i Hi. cbn [posted].
      replace (S (posted w) + i)%nat with (posted w + S i)%nat by lia.
      apply Hblank. lia.
    + cbn [posted]. by replace (S (posted w) + k)%nat with (posted w + S k)%nat by lia.
    + done.
Qed.

(** What a question ends with, from what the loop has read. *)
Lemma question_result_cases (new_dfs : list (Py.str * list (Z * Py.str)))
    (qid : value) (response_md : option pyval) (w : world) :
  exists r,
    (match response_md with
    | None => mret (Returned new_dfs)
    | Some (NonText _) => mret (Raised AttributeError)
    | Some (Str response_md) =>
      if negb (Py.truthy response_md) then mret (Returned new_dfs)
      else
        match parse_md_table to_numeric astype_int response_md with
        | OutOfFuel => mret OutOfFuel
        | Raised e => mret (Raised e)
        | Returned None => mret (Returned new_dfs)
        | Returned (Some df_new) =>
          mret (Returned (dict_set new_dfs (py_str qid) df_new))
        end
     end : io (outcome (list (Py.str * list (Z * Py.str))))) w = (r, w)
    /\ r <> OutOfFuel
    /\ (forall new_dfs', r = Returned new_dfs' ->
          new_dfs' = new_dfs
          \/ exists df, df <> [] /\ new_dfs' = dict_set new_dfs (py_str qid) df)
    /\ (forall e, r = Raised e <->
          (e = AttributeError /\ exists c, response_md = Some (NonText c))
          \/ (e = IntCastingNaNError
              /\ exists md, response_md = Some (Str md)
                   /\ parse_md_table to_numeric astype_int md
                      = Raised IntCastingNaNError)).
Proof.
  destruct response_md as [[md|c]|].
  - destruct (Py.truthy md) eqn:Htruthy; cbn [negb].
    + destruct (parse_md_table to_numeric astype_int md) as [[df|]|e|] eqn:Hparse.
      * eexists. split; [reflexivity|]. split; [done|]. split.
        -- intros ? [= <-]. right. exists df. split; [|done].
           by apply (parse_md_table_nonempty to_numeric astype_int md).
        -- intros e. split; [done|].
           intros [[_ (c & [=])]|[_ (md' & [= <-] & Hraise)]]. congruence.
      * eexists. split; [reflexivity|]. split; [done|]. split.
        -- intros ? [= <-]. by left.
        -- intros e. split; [done|].
           intros [[_ (c & [=])]|[_ (md' & [= <-] & Hraise)]]. congruence.
      * pose proof (parse_md_table_raises to_numeric astype_int md e Hparse) as ->.
        eexists. split; [reflexivity|]. split; [done|]. split; [done|].
        intros e. split.
        -- intros [= <-]. right. split; [done|]. by exists md.
        -- intros [[_ (c & [=])]|[-> _]]. done.
      * by destruct (parse_md_table_fuel to_numeric astype_int md).
    + eexists. split; [reflexivity|]. split; [done|]. split.
      * intros ? [= <-]. by left.
      * intros e. split; [done|].
        intros [[_ (c & [=])]|[_ (md' & [= <-] & Hraise)]].
        destruct md; [|done]. by vm_compute in Hraise.
  - eexists. split; [reflexivity|]. split; [done|]. split; [done|].
    intros e. split.
    + intros [= <-]. left. split; [done|]. by exists c.
    + intros [[-> _]|[_ (md' & [=] & _)]]. done.
  - eexists. split; [reflexivity|]. split; [done|]. split.
    + intros ? [= <-]. by left.
    + intros e. split; [done|]. intros [[_ (c & [=])]|[_ (md' & [=] & _)]].
Qed.

Lemma discovery_question_attempts (new_dfs : list (Py.str * list (Z * Py.str)))
    (qid : value) (extra : nat) (w : world) :
  exists (r : outcome (list (Py.str * list (Z * Py.str)))) (k : nat)
         (evs : list event),
    discovery_question to_numeric astype_int net prompt_of (S max_attempts + extra)
                       new_dfs qid w
      = (r, World (k + posted w) (trace w ++ evs))
    /\ (1 <= k <= max_attempts)%nat
    /\ posts evs = k /\ (sleeps evs <= k)%nat
    /\ Forall (discovery_event (Request (prompt_of qid) 16384%N)) evs
    /\ (forall i, (i < k - 1)%nat ->
          ends_discovery (net (posted w + i) (Request (prompt_of qid) 16384%N)) = false)
    /\ ((k < max_attempts)%nat ->
          ends_discovery (net (posted w + (k - 1)) (Request (prompt_of qid) 16384%N)) = true)
    /\ r <> OutOfFuel
    /\ (forall new_dfs', r = Returned new_dfs' ->
          new_dfs' = new_dfs
          \/ exists df, df <> [] /\ new_dfs' = dict_set new_dfs (py_str qid) df)
    /\ (forall e, r = Raised e <->
          (e = AttributeError
           /\ exists c, response_after net (Request (prompt_of qid) 16384%N)
                                       (posted w) k = Some (NonText c))
          \/ (e = IntCastingNaNError
              /\ exists md, response_after net (Request (prompt_of qid) 16384%N)
                                           (posted w) k = Some (Str md)
                   /\ parse_md_table to_numeric astype_int md
                      = Raised IntCastingNaNError)).
Proof.
  destruct (discovery_loop_attempts (prompt_of qid) max_attempts 0 extra None w eq_refl)
    as (k & evs & Hrun & Hk & Hk1 & Hp & Hs & Hev & Hbefore & Hlast).
  fold (response_after net (Request (prompt_of qid) 16384%N) (posted w) k) in Hrun.
  destruct (question_result_cases new_dfs qid
              (response_after net (Request (prompt_of qid) 16384%N) (posted w) k)
              (World (k + posted w) (trace w ++ evs)))
    as (r & Hr & Hfuel & Hret & Hraise).
  exists r, k, evs.
  split.
  { unfold discovery_question, mbind, io_bind. rewrite Hrun. exact Hr. }
  split; [split; [apply Hk1; unfold max_attempts; lia|done]|].
  by repeat (split; [assumption|]).
Qed.

End DiscoveryFacts.

(** X20: whatever the endpoint does, the discovery of one question ends
    after between 1 and 5 requests, all of them the question's request with
    16384 tokens, with sleeps of 5 only and never more sleeps than
    requests; it ends with the first reply that delivers a text that is not
    blank, or with the fifth.  When it returns, the tables found so far are
    either unchanged or hold a non-empty table under the text of the
    question's identifier.  It raises in two cases and no other:
    [AttributeError] when the last content read is a truthy value that is
    no text, and [IntCastingNaNError] when the cast of the codes fails on
    the last text read. *)
Theorem discovery_question_cost {number : Type} (to_numeric : Py.str -> option number)
    (astype_int : list (option number) -> number -> option Z) (net : transport)
    (prompt_of : value -> Py.str) (new_dfs : list (Py.str * list (Z * Py.str)))
    (qid : value) (extra : nat) (w : world) :
  exists (r : outcome (list (Py.str * list (Z * Py.str)))) (k : nat)
         (evs : list event),
    discovery_question to_numeric astype_int net prompt_of (S max_attempts + extra)
                       new_dfs qid w
      = (r, World (k + posted w) (trace w ++ evs))
    /\ (1 <= k <= 5)%nat
    /\ posts evs = k /\ (sleeps evs <= k)%nat
    /\ Forall (discovery_event (Request (prompt_of qid) 16384%N)) evs
    /\ (forall i, (i < k - 1)%nat ->
          ends_discovery (net (posted w + i) (Request (prompt_of qid) 16384%N)) = false)
    /\ ((k < 5)%nat ->
          ends_discovery (net (posted w + (k - 1)) (Request (prompt_of qid) 16384%N)) = true)
    /\ r <> OutOfFuel
    /\ (forall new_dfs', r = Returned new_dfs' ->
          new_dfs' = new_dfs
          \/ exists df, df <> [] /\ new_dfs' = dict_set new_dfs (py_str qid) df)
    /\ (forall e, r = Raised e <->
          (e = AttributeError
           /\ exists c, response_after net (Request (prompt_of qid) 16384%N)
                                       (posted w) k = Some (NonText c))
          \/ (e = IntCastingNaNError
              /\ exists md, response_after net (Request (prompt_of qid) 16384%N)
                                           (posted w) k = Some (Str md)
                   /\ parse_md_table to_numeric astype_int md
                      = Raised IntCastingNaNError)).
Proof.
  exact (discovery_question_attempts to_numeric astype_int net prompt_of new_dfs qid
           extra w).
Qed.

(** X21: in the category flow a delivered reply that is blank (an empty or
    white-space body, or an HTML page) is followed by the next request at
    once, without any sleep; when the first non-blank body [md] comes after
    [k < 5] blank ones, the question has cost [k + 1] requests and its
    table is what [parse_md_table] reads from [md]: the table is stored
    when there is one, and the exception of the parser leaves the step. *)
Theorem discovery_retries_blank_replies {number : Type}
    (to_numeric : Py.str -> option number)
    (astype_int : list (option number) -> number -> option Z)
    (net : transport) (prompt_of : value -> Py.str)
    (new_dfs : list (Py.str * list (Z * Py.str))) (qid : value) (md : Py.str)
    (k extra : nat) (w : world) :
  (k < 5)%nat ->
  (forall i, (i < k)%nat ->
     exists b, body_of (net (posted w + i) (Request (prompt_of qid) 16384%N)) = Some b
               /\ blank b = true) ->
  body_of (net (posted w + k) (Request (prompt_of qid) 16384%N)) = Some md ->
  blank md = false ->
  discovery_question to_numeric astype_int net prompt_of (S max_attempts + extra)
                     new_dfs qid w
    = (match parse_md_table to_numeric astype_int md with
       | Returned (Some df_new) => Returned (dict_set new_dfs (py_str qid) df_new)
       | Returned None => Returned new_dfs
       | Raised e => Raised e
       | OutOfFuel => OutOfFuel
       end,
       World (S k + posted w)
             (trace w ++ replicate (S k) (Post (Request (prompt_of qid) 16384%N)))).
Proof.
  intros Hk Hblank Hbody Hmd. unfold discovery_question, mbind, io_bind.
  replace (S max_attempts + extra)%nat
    with (S k + (max_attempts - k + extra))%nat by (unfold max_attempts; lia).
  rewrite (discovery_loop_blank_replies net (prompt_of qid) md k 0 _ None w);
    [|unfold max_attempts; lia|done|done|done].
  assert (Py.truthy md = true) as -> by (by destruct md).
  cbn [negb]. by destruct (parse_md_table to_numeric astype_int md) as [[df|]|e|].
Qed.

Lemma discovery_retries_blank_replies_witness :
  discovery_question to_numeric_int int64_cast pages_then_table (fun _ => $"p")
                     (S max_attempts + 0) [] (VStr $"Q1") (World 0 [])
    = (match parse_md_table to_numeric_int int64_cast table_with_short_row with
       | Returned (Some df_new) => Returned (dict_set [] (py_str (VStr $"Q1")) df_new)
       | Returned None => Returned []
       | Raised e => Raised e
       | OutOfFuel => OutOfFuel
       end,
       World (3 + posted (World 0 []))
             (trace (World 0 []) ++ replicate 3 (Post (Request $"p" 16384%N)))).
Proof.
  apply (discovery_retries_blank_replies to_numeric_int int64_cast pages_then_table
           (fun _ => $"p") [] (VStr $"Q1") table_with_short_row 2 0 (World 0 [])).
  - lia.
  - intros i Hi. destruct i as [|[|i]]; [| |lia].
    + exists []. split; by vm_compute.
    + exists $"  ". split; by vm_compute.
  - reflexivity.
  - by vm_compute.
Defined.


(** ** More on the merge step *)

Section MergeMore.

Implicit Types (r : codebook_row) (df_new : list (Z * Py.str)) (qid : Py.str).
Implicit Types (ex : gset Z) (m : Z).

Lemma filter_none {A} (f : A -> bool) (l : list A) :
  (forall x, x ∈ l -> f x = false) -> List.filter f l = [].
Proof.
  induction l as [|a l IH]; intros Hall; [done|]. cbn [List.filter].
  rewrite (Hall a (list_elem_of_here _ _)). apply IH.
  intros x Hx. apply Hall. by right.
Qed.

Lemma max_of_empty : max_of (∅ : gset Z) = 0%Z.
Proof. unfold max_of. by rewrite elements_empty. Qed.

Lemma max_of_elem (s : gset Z) : s <> ∅ -> max_of s ∈ s.
Proof.
  intros Hne. unfold max_of.
  destruct (elements s) as [|x l] eqn:Hel.
  { by apply elements_empty_inv, leibniz_equiv in Hel. }
  apply elem_of_elements. rewrite Hel. clear.
  induction l as [|y l IH]; [left|]. cbn [foldr].
  destruct (Z.max_spec y (foldr Z.max x l)) as [[_ ->]|[_ ->]].
  - apply elem_of_cons in IH as [->|IH]; [left|]. right. by right.
  - right. left.
Qed.

(** The rows the loop produces keep the labels, in order, of the proposals
    whose code is not present; they have no description. *)
Lemma assign_cids_tags qid ex df_new : forall m,
  cb_Tag <$> assign_cids qid ex m df_new []
    = (List.filter (fun p => negb (bool_decide (p.1 ∈ ex))) df_new).*2
  /\ Forall (fun r => cb_Description r = None) (assign_cids qid ex m df_new []).
Proof.
  induction df_new as [|[cid tag] df IH]; intros m; cbn [assign_cids List.filter fst].
  - split; [done|constructor].
  - case_bool_decide; cbn [negb]; [apply IH|].
    destruct (m <? cid)%Z; rewrite assign_cids_acc; cbn [app].
    + destruct (IH cid) as [Htags Hdesc]. rewrite !fmap_cons, Htags.
      split; [done|]. by constructor.
    + destruct (IH (m + 1)%Z) as [Htags Hdesc]. rewrite !fmap_cons, Htags.
      split; [done|]. by constructor.
Qed.

(** Proposals in increasing order, above the running maximum and not
    present, are taken as they are. *)
Lemma assign_cids_honoured qid ex df_new : forall m,
  StronglySorted Z.lt df_new.*1 ->
  Forall (fun p => (m < p.1)%Z /\ p.1 ∉ ex) df_new ->
  assign_cids qid ex m df_new [] = as_proposed qid <$> df_new.
Proof.
  induction df_new as [|[cid tag] df IH]; intros m Hsort Hall; [done|].
  rewrite fmap_cons in Hsort. cbn [fst] in Hsort.
  apply StronglySorted_inv in Hsort as [Hsort Hlt].
  apply Forall_cons in Hall as [[Hm Hex] Hall]. cbn [fst] in Hm, Hex.
  cbn [assign_cids]. rewrite bool_decide_eq_false_2 by done.
  assert ((m <? cid)%Z = true) as -> by by apply Z.ltb_lt.
  rewrite assign_cids_acc, IH; [done|done|].
  apply Forall_forall. intros p Hp.
  rewrite Forall_forall in Hall. rewrite Forall_forall in Hlt.
  split; [|by apply Hall]. apply Hlt. apply list_elem_of_fmap. by exists p.
Qed.

(** The rows appended under one key carry the key as a text and no
    description. *)
Lemma new_rows_for_rows (updated : list codebook_row) qid df_new :
  Forall (fun r => cb_QID r = VStr qid /\ cb_Description r = None)
         (new_rows_for updated qid df_new).
Proof.
  unfold new_rows_for. cbv zeta.
  destruct (assign_cids_tags qid
              (list_to_set (cb_CID <$> List.filter
                 (fun r => value_eq_str (cb_QID r) qid) updated))
              df_new
              (max_of (list_to_set (cb_CID <$> List.filter
                 (fun r => value_eq_str (cb_QID r) qid) updated))))
    as [_ Hdesc].
  destruct (assign_cids_increasing qid
              (list_to_set (cb_CID <$> List.filter
                 (fun r => value_eq_str (cb_QID r) qid) updated))
              df_new
              (max_of (list_to_set (cb_CID <$> List.filter
                 (fun r => value_eq_str (cb_QID r) qid) updated))))
    as [Hqid _].
  rewrite Forall_forall in *. intros r Hr.
  split; [by apply (Hqid r Hr)|by apply Hdesc].
Qed.

Lemma merge_new_dfs_rows (new_dfs : list (Py.str * list (Z * Py.str))) :
  forall updated : list codebook_row,
  exists added,
    merge_new_dfs updated new_dfs = updated ++ added
    /\ Forall (fun r => (exists qid, qid ∈ new_dfs.*1 /\ cb_QID r = VStr qid)
                        /\ cb_Description r = None) added.
Proof.
  induction new_dfs as [|[qid df] rest IH]; intros updated.
  - exists []. cbn [merge_new_dfs foldl]. rewrite app_nil_r. split; [done|constructor].
  - unfold merge_new_dfs. cbn [foldl fst snd]. rewrite merge_question_appends.
    fold (merge_new_dfs (updated ++ new_rows_for updated qid df) rest).
    destruct (IH (updated ++ new_rows_for updated qid df)) as (added & Heq & Hrows).
    exists (new_rows_for updated qid df ++ added).
    split; [by rewrite Heq, <- app_assoc|].
    apply Forall_app. split.
    + eapply Forall_impl; [apply new_rows_for_rows|].
      intros r [Hq Hd]. split; [|done]. exists qid. split; [|done].
      rewrite fmap_cons. left.
    + eapply Forall_impl; [exact Hrows|].
      intros r [(q & Hq & Hr) Hd]. split; [|done]. exists q. split; [|done].
      rewrite fmap_cons. by right.
Qed.

(** The proposals of a table that are kept under a key. *)
Lemma fresh_proposals_eq (updated : list codebook_row) qid df_new :
  List.filter
    (fun p => negb (bool_decide
       (p.1 ∈ (list_to_set (cb_CID <$> List.filter
                  (fun r => value_eq_str (cb_QID r) qid) updated) : gset Z))))
    df_new
  = fresh_proposals updated qid df_new.
Proof.
  unfold fresh_proposals. apply filter_ext. intros p. f_equal.
  apply bool_decide_ext. rewrite elem_of_list_to_set.
  by rewrite filter_value_eq_str.
Qed.

End MergeMore.

(** X22: the table found for a question is merged under a key, the text
    of the question's identifier.  The rows appended under the key keep, in
    order, the label of every proposal whose code is not the code of a row
    whose [QID] cell is that text, whatever number the proposal ends with;
    a proposal with such a code is dropped, label included.  The appended
    rows carry the key, as a text, and no description.  A row whose [QID]
    cell holds a number is not a row of the key: when no row has the text
    as its [QID] cell, every proposal of the table is appended. *)
Theorem merge_question_keeps_labels (updated : list codebook_row) (qid : Py.str)
    (df_new : list (Z * Py.str)) :
  exists added,
    merge_question updated qid df_new = updated ++ added
    /\ cb_Tag <$> added = (fresh_proposals updated qid df_new).*2
    /\ Forall (fun r => cb_QID r = VStr qid /\ cb_Description r = None) added
    /\ ((forall r, r ∈ updated -> cb_QID r <> VStr qid) ->
        cb_Tag <$> added = df_new.*2).
Proof.
  exists (new_rows_for updated qid df_new).
  split; [apply merge_question_appends|].
  assert (cb_Tag <$> new_rows_for updated qid df_new
          = (fresh_proposals updated qid df_new).*2) as Htags.
  { unfold new_rows_for. cbv zeta.
    destruct (assign_cids_tags qid
                (list_to_set (cb_CID <$> List.filter
                   (fun r => value_eq_str (cb_QID r) qid) updated))
                df_new
                (max_of (list_to_set (cb_CID <$> List.filter
                   (fun r => value_eq_str (cb_QID r) qid) updated))))
      as [Htags _].
    by rewrite Htags, fresh_proposals_eq. }
  split; [exact Htags|]. split; [apply new_rows_for_rows|].
  intros Hnone. rewrite Htags. f_equal. unfold fresh_proposals.
  assert (List.filter (fun r => bool_decide (cb_QID r = VStr qid)) updated = [])
    as ->.
  { apply filter_none. intros r Hr. apply bool_decide_eq_false_2.
    by apply Hnone. }
  cbn [fmap list_fmap]. clear Htags. induction df_new as [|p df IH]; [done|].
  cbn [List.filter]. rewrite bool_decide_eq_false_2 by apply not_elem_of_nil.
  cbn [negb]. by rewrite IH.
Qed.

(** X23: the codes appended under a key, the text of a question's
    identifier, are strictly increasing and greater than every code of the
    rows whose [QID] cell is that text; they are positive when there is no
    such row, as on a codebook whose [QID] cells hold numbers. *)
Theorem merge_question_codes_increase (updated : list codebook_row) (qid : Py.str)
    (df_new : list (Z * Py.str)) :
  exists added,
    merge_question updated qid df_new = updated ++ added
    /\ StronglySorted Z.lt (cb_CID <$> added)
    /\ (forall r r', r ∈ added -> r' ∈ updated -> cb_QID r' = VStr qid ->
                     (cb_CID r' < cb_CID r)%Z)
    /\ ((forall r', r' ∈ updated -> cb_QID r' <> VStr qid) ->
        forall r, r ∈ added -> (0 < cb_CID r)%Z)
    /\ ((forall r', r' ∈ updated -> ~ is_text (cb_QID r')) ->
        forall r, r ∈ added -> (0 < cb_CID r)%Z).
Proof.
  exists (new_rows_for updated qid df_new).
  split; [apply merge_question_appends|].
  unfold new_rows_for. cbv zeta.
  destruct (assign_cids_increasing qid
              (list_to_set (cb_CID <$> List.filter
                 (fun r => value_eq_str (cb_QID r) qid) updated))
              df_new
              (max_of (list_to_set (cb_CID <$> List.filter
                 (fun r => value_eq_str (cb_QID r) qid) updated))))
    as [Hall Hsort].
  rewrite Forall_forall in Hall.
  split; [exact Hsort|].
  assert ((forall r', r' ∈ updated -> cb_QID r' <> VStr qid) ->
          forall r, r ∈ assign_cids qid
                      (list_to_set (cb_CID <$> List.filter
                         (fun r => value_eq_str (cb_QID r) qid) updated))
                      (max_of (list_to_set (cb_CID <$> List.filter
                         (fun r => value_eq_str (cb_QID r) qid) updated)))
                      df_new [] ->
                    (0 < cb_CID r)%Z) as Hpos.
  { intros Hnone r Hr. destruct (Hall r Hr) as [_ Hlt].
    assert (List.filter (fun r => value_eq_str (cb_QID r) qid) updated = []) as Hnil.
    { apply filter_none. intros r' Hr'.
      destruct (value_eq_str (cb_QID r') qid) eqn:Hq; [|done].
      apply value_eq_str_spec in Hq. by destruct (Hnone r' Hr'). }
    rewrite Hnil in Hlt. cbn [fmap list_fmap list_to_set foldr] in Hlt.
    by rewrite max_of_empty in Hlt. }
  split; [|split; [exact Hpos|]].
  - intros r r' Hr Hr' Hq. destruct (Hall r Hr) as [_ Hlt].
    assert (cb_CID r' ≤ max_of (list_to_set (cb_CID <$> List.filter
              (fun r => value_eq_str (cb_QID r) qid) updated)))%Z; [|lia].
    apply max_of_upper, existing_cids_iff. by exists r'.
  - intros Hnum. apply Hpos. intros r' Hr' Hq. apply (Hnum r' Hr'). by exists qid.
Qed.

(** X24: a table whose codes are positive, strictly increasing and greater
    than every code the question has is appended as it is: no proposal is
    dropped or renumbered. *)
Theorem merge_question_honours_increasing_codes (updated : list codebook_row)
    (qid : Py.str) (df_new : list (Z * Py.str)) :
  StronglySorted Z.lt df_new.*1 ->
  Forall (fun p => (0 < p.1)%Z) df_new ->
  (forall p r', p ∈ df_new -> r' ∈ updated -> cb_QID r' = VStr qid ->
                (cb_CID r' < p.1)%Z) ->
  merge_question updated qid df_new = updated ++ (as_proposed qid <$> df_new).
Proof.
  intros Hsort Hpos Habove. rewrite merge_question_appends. f_equal.
  unfold new_rows_for. cbv zeta. apply assign_cids_honoured; [done|].
  apply Forall_forall. intros p Hp.
  assert (forall cid : Z,
            cid ∈ (list_to_set (cb_CID <$> List.filter
                     (fun r => value_eq_str (cb_QID r) qid) updated) : gset Z) ->
            (cid < p.1)%Z) as Hex.
  { intros cid Hcid. apply existing_cids_iff in Hcid as (r' & Hr' & Hq & <-).
    by apply (Habove p r'). }
  split.
  - destruct (decide ((list_to_set (cb_CID <$> List.filter
                (fun r => value_eq_str (cb_QID r) qid) updated) : gset Z) = ∅))
      as [->|Hne].
    + rewrite max_of_empty. rewrite Forall_forall in Hpos. by apply Hpos.
    + by apply Hex, max_of_elem.
  - intros Hin. specialize (Hex _ Hin). lia.
Qed.

Lemma merge_question_honours_increasing_codes_witness :
  merge_question example_codebook $"Q1" increasing_proposals
    = example_codebook ++ (as_proposed $"Q1" <$> increasing_proposals).
Proof.
  apply (merge_question_honours_increasing_codes example_codebook $"Q1"
           increasing_proposals).
  - repeat constructor.
  - repeat constructor.
  - intros p r' Hp Hr' Hq. unfold increasing_proposals in Hp.
    unfold example_codebook in Hr'.
    repeat (apply elem_of_cons in Hp as [->|Hp]);
      try (by apply elem_of_nil in Hp);
      repeat (apply elem_of_cons in Hr' as [->|Hr']);
      try (by apply elem_of_nil in Hr');
      cbn [cb_CID cb_QID fst] in *; try lia; by vm_compute in Hq.
Defined.


(** ** Validation, the category view and the session *)

Lemma filter_absent_nil (names l : list Py.str) :
  List.filter (fun s => negb (bool_decide (s ∈ names))) l = []
  <-> forall s, s ∈ l -> s ∈ names.
Proof.
  split; [|apply filter_present].
  induction l as [|a l IH]; intros Hf s Hs; [by apply elem_of_nil in Hs|].
  cbn [List.filter] in Hf. case_bool_decide as Ha; cbn [negb] in Hf; [|done].
  apply elem_of_cons in Hs as [->|Hs]; [done|]. by apply IH.
Qed.

Lemma has_all_spec (cols required : list Py.str) :
  has_all cols required = true <-> forall c, c ∈ required -> c ∈ cols.
Proof.
  unfold has_all. rewrite forallb_forall. split.
  - intros Hall c Hc. apply list_elem_of_In in Hc.
    specialize (Hall c Hc). by apply bool_decide_eq_true in Hall.
  - intros Hall c Hc. apply bool_decide_eq_true_2, Hall. by apply list_elem_of_In.
Qed.

Lemma violations_nil (excel_data : workbook) :
  violations excel_data = []
  <-> has_all (sheet_columns excel_data $"codeframe") [$"QID"; $"CID"; $"Tag"] = true
      /\ has_all (sheet_columns excel_data $"question") [$"QID"; $"Question"] = true
      /\ $"ID" ∈ sheet_columns excel_data $"data".
Proof.
  unfold violations, required_columns.
  cbn [mbind list_bind fst snd]. rewrite app_nil_r.
  rewrite !has_all_spec, <- !filter_absent_nil.
  split.
  - intros Hnil. apply app_eq_nil in Hnil as [H1 Hnil].
    apply app_eq_nil in Hnil as [H2 H3].
    apply fmap_nil_inv in H1. apply fmap_nil_inv in H2. apply fmap_nil_inv in H3.
    split; [done|]. split; [done|].
    cbn [List.filter] in H3. case_bool_decide; [done|]. done.
  - intros (-> & -> & Hid). cbn [List.filter].
    by rewrite bool_decide_eq_true_2.
Qed.

Lemma validate_single_message (lang : Py.str) (excel_data : workbook)
    (errors : list Py.str) :
  validate lang excel_data = Abort errors -> length errors = 1%nat.
Proof.
  unfold validate. cbv zeta.
  repeat (destruct (negb _); [by intros [= <-]|]). done.
Qed.

(** X25: validation lets a workbook through exactly when it has the three
    sheets and every required column of every table, whatever the
    language; otherwise it stops with exactly one message. *)
Theorem validate_proceeds_iff (lang : Py.str) (excel_data : workbook) :
  (validate lang excel_data = Proceed
   <-> (forall s, s ∈ required_sheets -> s ∈ sheet_names excel_data)
       /\ violations excel_data = [])
  /\ (validate lang excel_data <> Proceed
      -> exists message, validate lang excel_data = Abort [message]).
Proof.
  split.
  - rewrite violations_nil, <- filter_absent_nil. unfold validate. cbv zeta.
    destruct (List.filter _ required_sheets) as [|s missing].
    + cbn [length Nat.eqb negb].
      destruct (has_all (sheet_columns excel_data $"codeframe") _); cbn [negb];
        [|split; [done|by intros (_ & ? & _)]].
      destruct (has_all (sheet_columns excel_data $"question") _); cbn [negb];
        [|split; [done|by intros (_ & _ & ? & _)]].
      case_bool_decide; cbn [negb]; [done|].
      split; [done|by intros (_ & _ & _ & ?)].
    + cbn [length Nat.eqb negb]. split; [done|by intros [? _]].
  - intros Hstop. destruct (validate lang excel_data) as [errors|] eqn:Hv; [|done].
    pose proof (validate_single_message _ _ _ Hv) as Hlen.
    destruct errors as [|message [|? ?]]; try done. by exists message.
Qed.

Section CategoryViewFacts.

Context {number : Type}.
Variable to_numeric : Py.str -> option number.
Variable astype_int : list (option number) -> number -> option Z.
Variable net : transport.
Variable prompt_of : value -> Py.str.
Variable str_e : Py.str.

Lemma category_field_errors_blank (lang : Py.str) (POST : gmap Py.str Py.str) :
  category_field_errors lang POST
    = when_blank (get_or_empty POST $"api_key") (api_key_message lang)
      ++ when_blank (get_or_empty POST $"domain") (domain_message lang).
Proof.
  unfold category_field_errors. cbv zeta.
  by rewrite !require_field_blank, app_nil_l.
Qed.

(** Whatever the endpoint does, the questions of the category view cost at
    most five requests each; when the loop returns, each has cost one at
    least and only they got a table; when it raises, it does so on the
    last content or text read for one of them. *)
Lemma discovery_all_attempts (extra : nat) (qids : list value) :
  forall (new_dfs : list (Py.str * list (Z * Py.str))) (w : world),
  exists (r : outcome (list (Py.str * list (Z * Py.str)))) (k : nat)
         (evs : list event),
    discovery_all to_numeric astype_int net prompt_of (S max_attempts + extra)
                  new_dfs qids w
      = (r, World (k + posted w) (trace w ++ evs))
    /\ (k <= 5 * length qids)%nat
    /\ posts evs = k /\ (sleeps evs <= k)%nat
    /\ r <> OutOfFuel
    /\ (forall new_dfs', r = Returned new_dfs' ->
          (length qids <= k)%nat
          /\ forall q, q ∈ new_dfs'.*1 -> q ∈ new_dfs.*1 \/ q ∈ py_str <$> qids)
    /\ (forall e, r = Raised e ->
          exists qid start j,
            qid ∈ qids /\ (1 <= j <= 5)%nat /\ (posted w <= start)%nat
            /\ (start + j = k + posted w)%nat
            /\ raised_by_discovery to_numeric astype_int
                 (response_after net (Request (prompt_of qid) 16384%N) start j) e).
Proof.
  induction qids as [|qid qids IH]; intros new_dfs w.
  - exists (Returned new_dfs), 0%nat, []. cbn [discovery_all length].
    rewrite app_nil_r. destruct w.
    split; [done|]. split; [lia|]. split; [done|]. split; [done|]. split; [done|].
    split; [|done]. intros ? [= <-]. split; [lia|]. intros q Hq. by left.
  - cbn [discovery_all]. unfold mbind at 1, io_bind at 1.
    destruct (discovery_question_attempts to_numeric astype_int net prompt_of
                new_dfs qid extra w)
      as (r1 & k1 & evs1 & Hq & Hk1 & Hp1 & Hs1 & _ & _ & _ & Hfuel1 & Hret1 & Hraise1).
    rewrite Hq. unfold max_attempts in Hk1.
    destruct r1 as [new_dfs1|e1|]; [| |done].
    + destruct (IH new_dfs1 (World (k1 + posted w) (trace w ++ evs1)))
        as (r & k2 & evs2 & Hall & Hk2 & Hp2 & Hs2 & Hfuel & Hret & Hraise).
      exists r, (k2 + k1)%nat, (evs1 ++ evs2).
      rewrite Hall. cbn [posted trace length] in *.
      split; [f_equal; f_equal; [lia|by rewrite <- app_assoc]|].
      split; [lia|]. rewrite posts_app, sleeps_app.
      split; [lia|]. split; [lia|]. split; [exact Hfuel|]. split.
      * intros new_dfs' Hr. destruct (Hret new_dfs' Hr) as [Hlen Hkeys].
        split; [lia|]. intros q Hin. rewrite fmap_cons.
        destruct (Hkeys q Hin) as [Hq1|Hq1]; [|right; by right].
        destruct (Hret1 new_dfs1 eq_refl) as [->|(df & _ & ->)]; [by left|].
        apply dict_set_keys_grow in Hq1 as [?| ->]; [by left|right; left].
      * intros e Hr. destruct (Hraise e Hr) as (q & start & j & Hin & Hj & Hlo & Hsum & Hby).
        exists q, start, j. split; [by right|]. split; [done|]. split; [lia|].
        split; [lia|done].
    + exists (Raised e1), k1, evs1. cbn [length].
      split; [done|]. split; [lia|]. split; [done|]. split; [done|].
      split; [done|]. split; [done|].
      intros e [= <-]. exists qid, (posted w), k1.
      split; [left|]. split; [lia|]. split; [lia|]. split; [lia|].
      by apply Hraise1.
Qed.

End CategoryViewFacts.

(** X26: with a complete form and an uploaded workbook, whatever the
    endpoint does, the category view ends after the request of the
    connection test and at most [5 n] further requests, [n] being the
    number of distinct identifiers of the question sheet.  It renders an
    error page with a single message after the one request of the
    connection test; or it renders the updated codebook, after [n] further
    requests at least: the uploaded codebook followed by rows without
    description whose [QID] cell is the text of an identifier of the
    question sheet; or it raises, on the last content or text read for one
    of the questions: [AttributeError] when that content is a truthy value
    that is no text, [IntCastingNaNError] when the cast of the codes of
    that text fails. *)
Theorem category_view_result {number : Type} (to_numeric : Py.str -> option number)
    (astype_int : list (option number) -> number -> option Z)
    (net : transport) (prompt_of : value -> Py.str) (str_e lang : Py.str)
    (POST : gmap Py.str Py.str) (up : category_upload) (w : world) :
  category_field_errors lang POST = [] ->
  exists (r : outcome category_page) (k : nat) (evs : list event),
    category_view_post to_numeric astype_int net prompt_of str_e lang POST (Some up) w
      = (r, World (S k + posted w) (trace w ++ Post category_probe :: evs))
    /\ posts evs = k /\ (sleeps evs <= k)%nat
    /\ (k <= 5 * length (unique_values (gu_question_QID up)))%nat
    /\ match r with
       | Returned (CategoryErrors errors) => k = 0%nat /\ length errors = 1%nat
       | Returned (CategoryResults updated) =>
         (length (unique_values (gu_question_QID up)) <= k)%nat
         /\ exists added,
              updated = gu_codeframe up ++ added
              /\ Forall (fun r =>
                           (exists qid, qid ∈ unique_values (gu_question_QID up)
                                        /\ cb_QID r = VStr (py_str qid))
                           /\ cb_Description r = None) added
       | Raised e =>
         exists qid start j,
           qid ∈ unique_values (gu_question_QID up)
           /\ (1 <= j <= 5)%nat /\ (S (posted w) <= start)%nat
           /\ (start + j = S k + posted w)%nat
           /\ raised_by_discovery to_numeric astype_int
                (response_after net (Request (prompt_of qid) 16384%N) start j) e
       | OutOfFuel => False
       end.
Proof.
  intros Hform. unfold category_view_post. cbv zeta. rewrite Hform.
  unfold category_run, mbind at 1, io_bind at 1, post at 1. cbv beta iota.
  fold category_probe.
  assert (exists (r : outcome category_page) (k : nat) (evs : list event),
    (match validate lang (gu_excel up) with
     | Abort errors => mret (Returned (CategoryErrors errors))
     | Proceed =>
       r ← discovery_all to_numeric astype_int net prompt_of (S max_attempts) []
                         (unique_values (gu_question_QID up));
       match r with
       | OutOfFuel => mret OutOfFuel
       | Raised e => mret (Raised e)
       | Returned new_dfs =>
         mret (Returned (CategoryResults (merge_new_dfs (gu_codeframe up) new_dfs)))
       end
     end : io (outcome category_page))
      (World (S (posted w)) (trace w ++ [Post category_probe]))
    = (r, World (S k + posted w) (trace w ++ Post category_probe :: evs))
    /\ posts evs = k /\ (sleeps evs <= k)%nat
    /\ (k <= 5 * length (unique_values (gu_question_QID up)))%nat
    /\ match r with
       | Returned (CategoryErrors errors) => k = 0%nat /\ length errors = 1%nat
       | Returned (CategoryResults updated) =>
         (length (unique_values (gu_question_QID up)) <= k)%nat
         /\ exists added,
              updated = gu_codeframe up ++ added
              /\ Forall (fun r =>
                           (exists qid, qid ∈ unique_values (gu_question_QID up)
                                        /\ cb_QID r = VStr (py_str qid))
                           /\ cb_Description r = None) added
       | Raised e =>
         exists qid start j,
           qid ∈ unique_values (gu_question_QID up)
           /\ (1 <= j <= 5)%nat /\ (S (posted w) <= start)%nat
           /\ (start + j = S k + posted w)%nat
           /\ raised_by_discovery to_numeric astype_int
                (response_after net (Request (prompt_of qid) 16384%N) start j) e
       | OutOfFuel => False
       end) as Hrest.
  { destruct (validate lang (gu_excel up)) as [errors|] eqn:Hv.
    - exists (Returned (CategoryErrors errors)), 0%nat, [].
      split; [done|]. split; [done|]. split; [done|]. split; [lia|]. split; [done|].
      by apply (validate_single_message lang (gu_excel up)).
    - destruct (discovery_all_attempts to_numeric astype_int net prompt_of 0
                  (unique_values (gu_question_QID up)) []
                  (World (S (posted w)) (trace w ++ [Post category_probe])))
        as (r & k & evs & Hall & Hk & Hp & Hs & Hfuel & Hret & Hraise).
      rewrite Nat.add_0_r in Hall. cbn [posted trace] in *.
      unfold mbind, io_bind. rewrite Hall.
      destruct r as [new_dfs|e|]; [| |done].
      + destruct (Hret new_dfs eq_refl) as [Hlen Hkeys].
        destruct (merge_new_dfs_rows new_dfs (gu_codeframe up)) as (added & Heq & Hrows).
        exists (Returned (CategoryResults (merge_new_dfs (gu_codeframe up) new_dfs))),
               k, evs.
        split; [unfold mret, io_ret; f_equal; f_equal; [lia|by rewrite <- app_assoc]|].
        split; [done|]. split; [done|]. split; [done|]. split; [done|].
        exists added. split; [done|].
        eapply Forall_impl; [exact Hrows|]. intros r [(q & Hq & Hr) Hd].
        split; [|done].
        destruct (Hkeys _ Hq) as [Hnil|Hin]; [by apply elem_of_nil in Hnil|].
        apply list_elem_of_fmap in Hin as (v & -> & Hv'). by exists v.
      + destruct (Hraise e eq_refl) as (q & start & j & Hin & Hj & Hlo & Hsum & Hby).
        exists (Raised e), k, evs.
        split; [unfold mret, io_ret; f_equal; f_equal; [lia|by rewrite <- app_assoc]|].
        split; [done|]. split; [done|]. split; [done|].
        exists q, start, j. split; [done|]. split; [done|]. split; [done|].
        split; [lia|done]. }
  destruct (net (posted w) category_probe); try exact Hrest.
  exists (Returned (CategoryErrors [connection_message lang str_e])), 0%nat, [].
  split; [done|]. split; [done|]. split; [done|]. split; [lia|]. done.
Qed.

Lemma category_view_result_witness :
  exists (r : outcome category_page) (k : nat) (evs : list event),
    category_view_post to_numeric_float float64_cast pages_then_table
                       (fun _ => $"p") $"down" $"en"
                       complete_form (Some complete_category_upload) (World 0 [])
      = (r,
         World (S k + posted (World 0 []))
               (trace (World 0 []) ++ Post category_probe :: evs))
    /\ posts evs = k /\ (sleeps evs <= k)%nat
    /\ (k <= 5 * length (unique_values (gu_question_QID complete_category_upload)))%nat
    /\ match r with
       | Returned (CategoryErrors errors) => k = 0%nat /\ length errors = 1%nat
       | Returned (CategoryResults updated) =>
         (length (unique_values (gu_question_QID complete_category_upload)) <= k)%nat
         /\ exists added,
              updated = gu_codeframe complete_category_upload ++ added
              /\ Forall (fun r =>
                           (exists qid,
                              qid ∈ unique_values
                                      (gu_question_QID complete_category_upload)
                              /\ cb_QID r = VStr (py_str qid))
                           /\ cb_Description r = None) added
       | Raised e =>
         exists qid start j,
           qid ∈ unique_values (gu_question_QID complete_category_upload)
           /\ (1 <= j <= 5)%nat /\ (S (posted (World 0 [])) <= start)%nat
           /\ (start + j = S k + posted (World 0 []))%nat
           /\ raised_by_discovery to_numeric_float float64_cast
                (response_after pages_then_table (Request $"p" 16384%N) start j) e
       | OutOfFuel => False
       end.
Proof.
  apply (category_view_result to_numeric_float float64_cast pages_then_table
           (fun _ => $"p") $"down" $"en" complete_form complete_category_upload
           (World 0 [])).
  by vm_compute.
Defined.

(** X27: the category form is refused without any request being made as
    soon as the API key or the domain is blank or no file is uploaded.  The
    page lists exactly the messages of the blank fields, in the order API
    key, domain, followed by the message for the missing file. *)
Theorem category_view_refuses_blank_form {number : Type}
    (to_numeric : Py.str -> option number)
    (astype_int : list (option number) -> number -> option Z)
    (net : transport) (prompt_of : value -> Py.str) (str_e lang : Py.str)
    (POST : gmap Py.str Py.str) (uploaded_file : option category_upload) (w : world) :
  let errors :=
    when_blank (get_or_empty POST $"api_key")
          (trans lang $"Please enter your API key."
                 $"لطفاً کلید API خود را وارد کنید.")
    ++ when_blank (get_or_empty POST $"domain")
             (trans lang $"Please enter a project domain."
                    $"لطفاً حوزهٔ پروژه را وارد کنید.")
    ++ when_absent uploaded_file
             (trans lang $"Please upload an Excel file."
                    $"لطفاً فایل اکسل را بارگذاری کنید.") in
  errors <> [] ->
  category_view_post to_numeric astype_int net prompt_of str_e lang POST
                     uploaded_file w
    = (Returned (CategoryErrors errors), w).
Proof.
  intros errors Herrors. subst errors. unfold category_view_post. cbv zeta.
  fold (api_key_message lang) (domain_message lang) (file_message lang) in *.
  rewrite !app_assoc in *. rewrite <- category_field_errors_blank in *.
  destruct uploaded_file as [up|]; cbn [when_absent] in *; [|done].
  rewrite app_nil_r in *.
  by destruct (category_field_errors lang POST).
Qed.

Lemma category_view_refuses_blank_form_witness :
  category_view_post to_numeric_int int64_cast always_fails (fun _ => $"p")
                     $"down" $"fa"
                     blank_category_form (Some complete_category_upload) (World 0 [])
    = (Returned (CategoryErrors
                   (when_blank (get_or_empty blank_category_form $"api_key")
                          (trans $"fa" $"Please enter your API key."
                                 $"لطفاً کلید API خود را وارد کنید.")
                    ++ when_blank (get_or_empty blank_category_form $"domain")
                             (trans $"fa" $"Please enter a project domain."
                                    $"لطفاً حوزهٔ پروژه را وارد کنید.")
                    ++ when_absent (Some complete_category_upload)
                             (trans $"fa" $"Please upload an Excel file."
                                    $"لطفاً فایل اکسل را بارگذاری کنید."))),
       World 0 []).
Proof.
  apply (category_view_refuses_blank_form to_numeric_int int64_cast always_fails
           (fun _ => $"p") $"down" $"fa" blank_category_form
           (Some complete_category_upload) (World 0 [])).
  by vm_compute.
Defined.

Lemma lang_theme_keys : $"lang" <> $"theme".
Proof. by vm_compute. Qed.

(** X28: after [set_language] every view reads the language "fa" exactly
    when the query asked for "fa", and "en" in every other case (no
    parameter, or any other value); a translated message is then the
    Persian one exactly in that case.  The theme and every other entry of
    the session are untouched. *)
Theorem set_language_effect {response : Type} (redirect : Py.str -> response)
    (GET META session : gmap Py.str Py.str) (dashboard msg_en msg_fa : Py.str) :
  session_lang (set_language redirect GET META session dashboard).1
    = (if bool_decide (GET !! $"lang" = Some $"fa") then $"fa" else $"en")
  /\ trans (session_lang (set_language redirect GET META session dashboard).1) msg_en msg_fa
     = (if bool_decide (GET !! $"lang" = Some $"fa") then msg_fa else msg_en)
  /\ session_theme (set_language redirect GET META session dashboard).1 = session_theme session
  /\ forall key, key <> $"lang" ->
       (set_language redirect GET META session dashboard).1 !! key = session !! key.
Proof.
  unfold set_language, session_lang, session_theme. cbv zeta. cbn [fst].
  rewrite lookup_insert_eq. cbn [from_option id].
  assert ((if bool_decide (default $"en" (GET !! $"lang") ∈ [$"en"; $"fa"])
           then default $"en" (GET !! $"lang") else $"en")
          = if bool_decide (GET !! $"lang" = Some $"fa") then $"fa" else $"en") as ->.
  { destruct (GET !! $"lang") as [l|]; cbn [from_option id].
    - destruct (decide (l = $"fa")) as [->|Hne].
      + rewrite (bool_decide_eq_true_2 (Some $"fa" = Some $"fa")) by done.
        by rewrite bool_decide_eq_true_2 by (right; left).
      + rewrite (bool_decide_eq_false_2 (Some l = Some $"fa")) by congruence.
        case_bool_decide as Hin; [|done].
        apply list_elem_of_In in Hin. cbn [In] in Hin.
        by destruct Hin as [<-|[<-|[]]].
    - rewrite (bool_decide_eq_false_2 (None = Some _)) by done.
      by destruct (bool_decide _). }
  split; [done|]. split.
  - unfold trans. destruct (bool_decide (GET !! $"lang" = Some $"fa")).
    + by rewrite bool_decide_eq_true_2.
    + rewrite bool_decide_eq_false_2; [done|]. by vm_compute.
  - split.
    + rewrite lookup_insert_ne; [done|]. apply lang_theme_keys.
    + intros key Hkey. by rewrite lookup_insert_ne.
Qed.

(** X29: after [set_theme] every view reads the theme "light" exactly when
    the query asked for "light", and "dark" in every other case; the
    language and every other entry of the session are untouched.  Both
    views answer with what Django's [redirect] returns on the same text:
    the referring page when the request names a non-empty one, and the
    address of the dashboard otherwise. *)
Theorem set_theme_effect {response : Type} (redirect : Py.str -> response)
    (GET META session : gmap Py.str Py.str) (dashboard : Py.str) :
  session_theme (set_theme redirect GET META session dashboard).1
    = (if bool_decide (GET !! $"theme" = Some $"light") then $"light" else $"dark")
  /\ session_lang (set_theme redirect GET META session dashboard).1 = session_lang session
  /\ (forall key, key <> $"theme" ->
        (set_theme redirect GET META session dashboard).1 !! key = session !! key)
  /\ (set_theme redirect GET META session dashboard).2
     = (set_language redirect GET META session dashboard).2
  /\ (set_theme redirect GET META session dashboard).2
     = redirect match META !! $"HTTP_REFERER" with
                | Some (c :: referer) => c :: referer
                | _ => dashboard
                end.
Proof.
  unfold set_theme, set_language, session_lang, session_theme. cbv zeta. cbn [fst snd].
  rewrite lookup_insert_eq. cbn [from_option id].
  split.
  { destruct (GET !! $"theme") as [l|]; cbn [from_option id].
    - destruct (decide (l = $"light")) as [->|Hne].
      + rewrite (bool_decide_eq_true_2 (Some $"light" = Some $"light")) by done.
        by rewrite bool_decide_eq_true_2 by (right; left).
      + rewrite (bool_decide_eq_false_2 (Some l = Some $"light")) by congruence.
        case_bool_decide as Hin; [|done].
        apply list_elem_of_In in Hin. cbn [In] in Hin.
        by destruct Hin as [<-|[<-|[]]].
    - rewrite (bool_decide_eq_false_2 (None = Some _)) by done.
      by destruct (bool_decide _). }
  split.
  { rewrite lookup_insert_ne; [done|]. intros Heq. by apply lang_theme_keys. }
  split.
  { intros key Hkey. by rewrite lookup_insert_ne. }
  split; [done|].
  unfold or_else. by destruct (META !! $"HTTP_REFERER") as [[|c referer]|].
Qed.


(** X30: with a complete form and an uploaded workbook, whatever the
    endpoint does, the coding view ends after the request of the connection
    test and at most six requests for each of the [n] distinct questions of
    the question sheet.  It renders an error page with a single message; or
    it renders the result sheets, and then at least one question was
    processed, no question is listed twice, and the processed and failed
    questions together are the questions of the question sheet; or it
    raises, after the reply to the last request made for one of the
    questions: a JSON body whose content cannot be looked up, or is a
    truthy value that is neither a text nor a container holding a marker. *)
Theorem coding_view_result (to_numeric : Py.str -> option Z)
    (net : transport) (prompt_of : Py.str -> Py.str) (str_e lang : Py.str)
    (POST : gmap Py.str Py.str) (up : coding_upload) (w : world) :
  coding_field_errors lang POST = [] ->
  exists (r : outcome coding_page) (w' : world),
    coding_view_post to_numeric net prompt_of str_e lang POST (Some up) w = (r, w')
    /\ (S (posted w) <= posted w'
        <= S (posted w) + 6 * length (unique_qids_of (cu_question_QID up)))%nat
    /\ match r with
       | Returned (CodingErrors errors) => length errors = 1%nat
       | Returned (CodingResults triple summary binary processed failed) =>
         processed <> []
         /\ NoDup (processed ++ failed)
         /\ processed ++ failed ≡ₚ unique_qids_of (cu_question_QID up)
       | Raised e =>
         (S (S (posted w)) <= posted w')%nat
         /\ exists qid,
              qid ∈ unique_qids_of (cu_question_QID up)
              /\ coding_raises (net (posted w' - 1) (Request (prompt_of qid) 2000%N))
                 = Some e
       | OutOfFuel => False
       end.
Proof.
  intros Hform. unfold coding_view_post. cbv zeta. rewrite Hform.
  unfold coding_run, mbind at 1, io_bind at 1, post at 1. cbv beta iota.
  assert (exists (r : outcome coding_page) (w' : world),
    (match validate lang (cu_excel up) with
     | Abort errors => mret (Returned (CodingErrors errors))
     | Proceed =>
       r ← coding_loop to_numeric net prompt_of (S max_retries) initial_state
                       (unique_qids_of (cu_question_QID up));
       match r with
       | OutOfFuel => mret OutOfFuel
       | Raised e => mret (Raised e)
       | Returned st =>
         match coding_outputs to_numeric (cu_codeframe up) st with
         | NoValidData => mret (Returned (CodingErrors [no_data_message lang]))
         | Outputs merged_df df_codeframe processed failed =>
           mret (Returned (CodingResults merged_df df_codeframe
                             (binary_sheet to_numeric merged_df processed (dfs st))
                             processed failed))
         end
       end
     end : io (outcome coding_page))
      (World (S (posted w)) (trace w ++ [Post (Request $"Hello" 1%N)]))
    = (r, w')
    /\ (S (posted w) <= posted w'
        <= S (posted w) + 6 * length (unique_qids_of (cu_question_QID up)))%nat
    /\ match r with
       | Returned (CodingErrors errors) => length errors = 1%nat
       | Returned (CodingResults triple summary binary processed failed) =>
         processed <> []
         /\ NoDup (processed ++ failed)
         /\ processed ++ failed ≡ₚ unique_qids_of (cu_question_QID up)
       | Raised e =>
         (S (S (posted w)) <= posted w')%nat
         /\ exists qid,
              qid ∈ unique_qids_of (cu_question_QID up)
              /\ coding_raises (net (posted w' - 1) (Request (prompt_of qid) 2000%N))
                 = Some e
       | OutOfFuel => False
       end) as Hrest.
  { destruct (validate lang (cu_excel up)) as [errors|] eqn:Hv.
    - eexists (Returned (CodingErrors errors)), _. split; [reflexivity|]. cbn [posted].
      split; [lia|]. by apply (validate_single_message lang (cu_excel up)).
    - destruct (coding_loop_total to_numeric net prompt_of 0
                  (unique_qids_of (cu_question_QID up)) initial_state
                  (World (S (posted w)) (trace w ++ [Post (Request $"Hello" 1%N)])))
        as (r & w' & t & Hloop & _ & Hposted & Hhi & Hfuel & Hret & Hraise).
      rewrite Nat.add_0_r in Hloop. cbn [posted] in Hposted.
      unfold mbind, io_bind. rewrite Hloop.
      destruct r as [st|e|]; [| |done].
      + destruct (coding_loop_accounting to_numeric net prompt_of _ _ _ _ _ _ Hloop)
          as (done & failed & frames & Hp & Hf & Hd & Hlen & Hperm & _).
        cbn [initial_state processed_qids fail_qids dfs app] in Hp, Hf, Hd.
        unfold coding_outputs. rewrite Hd, Hp, Hf.
        destruct frames as [|df0 frames].
        * eexists (Returned (CodingErrors [no_data_message lang])), w'.
          split; [reflexivity|]. split; [lia|done].
        * eexists (Returned (CodingResults _ _ _ done failed)), w'.
          split; [reflexivity|]. split; [lia|].
          split; [by destruct done|]. split; [|done].
          rewrite Hperm. apply unique_NoDup.
      + destruct (Hraise e eq_refl) as (Hone & qid & Hin & Hlast).
        exists (Raised e), w'. split; [reflexivity|]. split; [lia|].
        split; [lia|]. by exists qid. }
  destruct (net (posted w) (Request $"Hello" 1%N)); try exact Hrest.
  eexists (Returned (CodingErrors [connection_message lang str_e])), _.
  split; [reflexivity|]. cbn [posted]. split; [lia|done].
Qed.

Lemma coding_view_result_witness :
  exists (r : outcome coding_page) (w' : world),
    coding_view_post to_numeric_int repeated_code_net (fun _ => $"p") $"down" $"en"
                     complete_form (Some complete_upload) (World 0 [])
      = (r, w')
    /\ (S (posted (World 0 [])) <= posted w'
        <= S (posted (World 0 []))
           + 6 * length (unique_qids_of (cu_question_QID complete_upload)))%nat
    /\ match r with
       | Returned (CodingErrors errors) => length errors = 1%nat
       | Returned (CodingResults triple summary binary processed failed) =>
         processed <> []
         /\ NoDup (processed ++ failed)
         /\ processed ++ failed ≡ₚ unique_qids_of (cu_question_QID complete_upload)
       | Raised e =>
         (S (S (posted (World 0 []))) <= posted w')%nat
         /\ exists qid,
              qid ∈ unique_qids_of (cu_question_QID complete_upload)
              /\ coding_raises (repeated_code_net (posted w' - 1)
                                                  (Request $"p" 2000%N))
                 = Some e
       | OutOfFuel => False
       end.
Proof.
  apply (coding_view_result to_numeric_int repeated_code_net (fun _ => $"p")
           $"down" $"en" complete_form complete_upload (World 0 [])).
  by vm_compute.
Defined.
